(** * MS-GEO-PY: cities, zones and coordinate validation

    A shallow embedding of the geographic micro-service
    ([src/schemas/geo.py], [src/models/city.py], [src/models/zone.py],
    [src/routers/geo.py], [src/config.py]) and the properties of its
    validation layer, its relational store and its request handlers.

    Conventions of the embedding.
    - A Python [str] is a [string]; every character stands for one code
      point (code points below 256), so [String.length] is Python's [len].
    - A Python [int] is a [Z]; a timestamp is a [Z] (the store's clock).
    - A Python [float] is a [pyfloat]: the exact rational value of a finite
      double, or one of the two infinities, or NaN. Only comparisons with
      integer bounds are made on floats, and those are exact.
    - A member of a JSON request body is a [field]: absent, [null], or a
      value of the declared type (bodies are taken after JSON decoding).
    - A handler is a function from the store to the store and a response;
      an exception that no handler catches is the response [ServerError].
    - The store is the PostgreSQL database the configuration names: it
      enforces the keys and constraints the tables declare, and takes
      [OFFSET] and [LIMIT] as 64-bit integers, refusing a larger one. The
      order in which an unordered query lists the rows is the order of the
      lists [cities] and [zones]. *)

From Stdlib Require Import ZArith List String Ascii Bool Lia QArith DecimalString.
From Stdlib Require Import Permutation.
Import ListNotations.

Local Open Scope string_scope.
Local Open Scope list_scope.
Local Open Scope Z_scope.

(* ================================================================== *)
(** * Python values and validation results *)

Inductive field (A : Type) : Type :=
| Unset
| Null
| Value (a : A).

Arguments Unset {A}.
Arguments Null {A}.
Arguments Value {A} a.

(** One entry of a pydantic [ValidationError]: the field it is scoped to and
    the error (pydantic's error type, or the message of the [ValueError]
    raised by a custom validator). *)
Record FieldError : Type := mkFieldError { loc : string; msg : string }.

(** The outcome of validating one field. *)
Definition FieldResult (A : Type) : Type := (FieldError + A)%type.

(** The outcome of validating a whole model: the model, or every field's error. *)
Inductive Validated (A : Type) : Type :=
| Valid (a : A)
| Invalid (errors : list FieldError).

Arguments Valid {A} a.
Arguments Invalid {A} errors.

Definition errors_of {A : Type} (r : FieldResult A) : list FieldError :=
  match r with
  | inl e => [e]
  | inr _ => []
  end.

(** A required field: [Field(...)]. *)
Definition required {A : Type} (name : string) (ty : string) (f : field A) : FieldResult A :=
  match f with
  | Unset => inl (mkFieldError name "missing")
  | Null => inl (mkFieldError name ty)
  | Value a => inr a
  end.

(** A field with a default: [Field(default=d, ...)]. The default is taken as
    it is: pydantic does not run a field's constraints or validators on its
    default value. *)
Definition with_default {A : Type} (name : string) (ty : string) (d : A)
    (check : A -> FieldResult A) (f : field A) : FieldResult A :=
  match f with
  | Unset => inr d
  | Null => inl (mkFieldError name ty)
  | Value a => check a
  end.

(** An [Optional[...] = None] field of an update schema: absent and [null] are
    both accepted, a value is checked; which of the three it was is kept
    (pydantic's [model_fields_set]). *)
Definition optional {A : Type} (check : A -> FieldResult A) (f : field A)
  : FieldResult (field A) :=
  match f with
  | Unset => inr Unset
  | Null => inr Null
  | Value a =>
      match check a with
      | inl e => inl e
      | inr a' => inr (Value a')
      end
  end.

(** [str] constraints [min_length] and [max_length]. *)
Definition str_length (name : string) (min_length max_length : nat) (v : string)
  : FieldResult string :=
  if (String.length v <? min_length)%nat then inl (mkFieldError name "string_too_short")
  else if (max_length <? String.length v)%nat then inl (mkFieldError name "string_too_long")
  else inr v.

(** [int] constraint [gt]. *)
Definition int_gt (name : string) (gt : Z) (v : Z) : FieldResult Z :=
  if gt <? v then inr v else inl (mkFieldError name "greater_than").

Definition no_check {A : Type} (v : A) : FieldResult A := inr v.

(** [str(n)] for an [int]. *)
Definition str_of_int (n : Z) : string := NilZero.string_of_int (Z.to_int n).

(* ------------------------------------------------------------------ *)
(** ** Strings: [startswith('#')], [upper()], and the colour patterns *)

Definition startswith_hash (v : string) : bool :=
  match v with
  | String c _ => Ascii.eqb c "#"
  | EmptyString => false
  end.

Definition between (lo hi : nat) (c : ascii) : bool :=
  let n := nat_of_ascii c in ((lo <=? n) && (n <=? hi))%nat.

(** [str.upper()] on ASCII strings: the letters a-z are raised, every other
    character is kept. It is Python's [upper] on the strings of [is_ascii]
    only; outside them Python's is Unicode-aware and may change the length.
    Every string that reaches [upper] through a schema has passed the colour
    pattern first and holds ASCII only. *)
Definition upper_char (c : ascii) : ascii :=
  if between 97 122 c then ascii_of_nat (nat_of_ascii c - 32) else c.

Fixpoint upper (v : string) : string :=
  match v with
  | EmptyString => EmptyString
  | String c r => String (upper_char c) (upper r)
  end.

Fixpoint all_chars (p : ascii -> bool) (v : string) : bool :=
  match v with
  | EmptyString => true
  | String c r => p c && all_chars p r
  end.

(** [str.isascii()] *)
Definition is_ascii (v : string) : bool := all_chars (between 0 127) v.

(** [[0-9A-Fa-f]] *)
Definition hex_digit (c : ascii) : bool :=
  between 48 57 c || between 65 70 c || between 97 102 c.

(** [[0-9A-F]] *)
Definition upper_hex_digit (c : ascii) : bool :=
  between 48 57 c || between 65 70 c.

Definition hash_then_six (p : ascii -> bool) (v : string) : bool :=
  match v with
  | String c r => Ascii.eqb c "#" && (String.length r =? 6)%nat && all_chars p r
  | EmptyString => false
  end.

(** The schemas' [pattern=r"^#[0-9A-Fa-f]{6}$"]. *)
Definition color_pattern (v : string) : bool := hash_then_six hex_digit v.

(** The normal form [^#[0-9A-F]{6}$] of a stored colour. *)
Definition normalized_color (v : string) : bool := hash_then_six upper_hex_digit v.

(* ------------------------------------------------------------------ *)
(** ** Floats *)

Inductive pyfloat : Type :=
| Finite (q : Q)
| PosInf
| NegInf
| NaN.

Definition float_of_int (n : Z) : pyfloat := Finite (inject_Z n).

(** [a <= b] on floats; every comparison with NaN is false. *)
Definition float_le (a b : pyfloat) : bool :=
  match a, b with
  | NaN, _ | _, NaN => false
  | NegInf, _ => true
  | _, PosInf => true
  | Finite x, Finite y => Qle_bool x y
  | PosInf, _ => false
  | _, NegInf => false
  end.

(** [float] constraints [ge] and [le]. The library checks [le] first, then
    [ge]; NaN fails every comparison, so it is reported as
    [less_than_equal]. *)
Definition float_range (name : string) (ge le : Z) (v : pyfloat) : FieldResult pyfloat :=
  if negb (float_le v (float_of_int le)) then inl (mkFieldError name "less_than_equal")
  else if negb (float_le (float_of_int ge) v) then inl (mkFieldError name "greater_than_equal")
  else inr v.

(** A finite double: the only floats JSON can carry in a response. *)
Definition finite (v : pyfloat) : bool :=
  match v with
  | Finite _ => true
  | _ => false
  end.

(* ================================================================== *)
(** * [config.py] *)

Module Config.

Record Settings : Type := mkSettings {
  APP_NAME : string;
  APP_VERSION : string;
  API_PREFIX : string;
  DEFAULT_COUNTRY : string;
  DEFAULT_SRID : Z
}.

(** The values of the class; the environment may override each of them. *)
Definition settings : Settings := {|
  APP_NAME := "MS-GEO-PY - Geographic Service";
  APP_VERSION := "1.0.0";
  API_PREFIX := "/api/v1/geo";
  DEFAULT_COUNTRY := "Colombia";
  DEFAULT_SRID := 4326
|}.

End Config.

(* ================================================================== *)
(** * [models/city.py], [models/zone.py]: the tables *)

(** A row of [cities]. [name], [country] and [is_active] are [nullable=False]
    columns and [created_at], [updated_at] are filled by the server default
    [func.now()], so a stored row holds a value in each. *)
Module City.

Record t : Type := mk {
  id : Z;
  name : string;
  country : string;
  is_active : bool;
  created_at : Z;
  updated_at : Z
}.

(** The attributes of a mapped instance that a handler may assign; Python
    lets each of them hold [None]. *)
Record instance : Type := mkInstance {
  i_name : option string;
  i_country : option string;
  i_is_active : option bool
}.

Definition load (c : t) : instance :=
  {| i_name := Some (name c); i_country := Some (country c); i_is_active := Some (is_active c) |}.

End City.

(** A row of [zones]; [description] is the one nullable column. *)
Module Zone.

Record t : Type := mk {
  id : Z;
  name : string;
  city_id : Z;
  color : string;
  description : option string;
  is_active : bool;
  created_at : Z;
  updated_at : Z
}.

Record instance : Type := mkInstance {
  i_name : option string;
  i_city_id : option Z;
  i_color : option string;
  i_description : option string;
  i_is_active : option bool
}.

Definition load (z : t) : instance :=
  {| i_name := Some (name z); i_city_id := Some (city_id z); i_color := Some (color z);
     i_description := description z; i_is_active := Some (is_active z) |}.

End Zone.

(** The store: both tables in row order, and the two [id] sequences. *)
Record DB : Type := mkDB {
  cities : list City.t;
  zones : list Zone.t;
  cities_id_seq : Z;
  zones_id_seq : Z
}.

Definition empty_db : DB :=
  {| cities := []; zones := []; cities_id_seq := 0; zones_id_seq := 0 |}.

(** What the store raises when a statement breaks a declared constraint
    (SQLAlchemy's [IntegrityError]). *)
Inductive IntegrityError : Type :=
| NotNullViolation (table column : string)
| UniqueViolation (constraint : string)
| ForeignKeyViolation (constraint : string).

(* ================================================================== *)
(** * [schemas/geo.py] *)

Definition and_then {A B : Type} (r : FieldResult A) (k : A -> FieldResult B) : FieldResult B :=
  match r with
  | inl e => inl e
  | inr a => k a
  end.

(** ** City schemas *)

Module CityCreate.

(** The request body, member by member. *)
Record body : Type := mkBody { b_name : field string; b_country : field string }.

(** The validated model ([CityBase]'s fields). *)
Record t : Type := mk { name : string; country : string }.

Definition validate (b : body) : Validated t :=
  match and_then (required "name" "string_type" (b_name b)) (str_length "name" 2 255),
        with_default "country" "string_type" "Colombia" (str_length "country" 0 100) (b_country b) with
  | inr n, inr c => Valid {| name := n; country := c |}
  | rn, rc => Invalid (errors_of rn ++ errors_of rc)
  end.

End CityCreate.

Module CityUpdate.

Record t : Type := mk {
  name : field string;
  country : field string;
  is_active : field bool
}.

Definition validate (b : t) : Validated t :=
  match optional (str_length "name" 2 255) (name b),
        optional (str_length "country" 0 100) (country b),
        optional no_check (is_active b) with
  | inr n, inr c, inr a => Valid {| name := n; country := c; is_active := a |}
  | rn, rc, ra => Invalid (errors_of rn ++ errors_of rc ++ errors_of ra)
  end.

End CityUpdate.

Module CityResponse.

Record t : Type := mk {
  name : string;
  country : string;
  id : Z;
  is_active : bool;
  created_at : Z
}.

(** [from_attributes = True]: the model read off a mapped row. *)
Definition model_validate (c : City.t) : Validated t :=
  match str_length "name" 2 255 (City.name c), str_length "country" 0 100 (City.country c) with
  | inr n, inr k =>
      Valid {| name := n; country := k; id := City.id c;
               is_active := City.is_active c; created_at := City.created_at c |}
  | rn, rk => Invalid (errors_of rn ++ errors_of rk)
  end.

End CityResponse.

(** ** Zone schemas *)

Module ZoneBase.

(** [@field_validator('color')]; it runs after the field's own constraints. *)
Definition validate_color (v : string) : FieldResult string :=
  if negb (startswith_hash v) then inl (mkFieldError "color" "El color debe comenzar con #")
  else if negb (String.length v =? 7)%nat then inl (mkFieldError "color" "El color debe tener formato #RRGGBB")
  else inr (upper v).

(** The whole [color] field: the pattern, then the validator. *)
Definition color_field (v : string) : FieldResult string :=
  if color_pattern v then validate_color v
  else inl (mkFieldError "color" "string_pattern_mismatch").

End ZoneBase.

Module ZoneCreate.

Record body : Type := mkBody {
  b_name : field string;
  b_city_id : field Z;
  b_color : field string;
  b_description : field string
}.

Record t : Type := mk {
  name : string;
  city_id : Z;
  color : string;
  description : option string
}.

Definition description_field (f : field string) : option string :=
  match f with
  | Value d => Some d
  | _ => None
  end.

Definition validate (b : body) : Validated t :=
  match and_then (required "name" "string_type" (b_name b)) (str_length "name" 2 255),
        and_then (required "city_id" "int_type" (b_city_id b)) (int_gt "city_id" 0),
        with_default "color" "string_type" "#3498db" ZoneBase.color_field (b_color b) with
  | inr n, inr c, inr k =>
      Valid {| name := n; city_id := c; color := k;
               description := description_field (b_description b) |}
  | rn, rc, rk => Invalid (errors_of rn ++ errors_of rc ++ errors_of rk)
  end.

End ZoneCreate.

Module ZoneUpdate.

Record t : Type := mk {
  name : field string;
  city_id : field Z;
  color : field string;
  description : field string;
  is_active : field bool
}.

(** [color] carries the pattern only: this class does not derive from
    [ZoneBase] and declares no validator. *)
Definition color_field (v : string) : FieldResult string :=
  if color_pattern v then inr v else inl (mkFieldError "color" "string_pattern_mismatch").

Definition validate (b : t) : Validated t :=
  match optional (str_length "name" 2 255) (name b),
        optional (int_gt "city_id" 0) (city_id b),
        optional color_field (color b),
        optional no_check (description b),
        optional no_check (is_active b) with
  | inr n, inr c, inr k, inr d, inr a =>
      Valid {| name := n; city_id := c; color := k; description := d; is_active := a |}
  | rn, rc, rk, rd, ra =>
      Invalid (errors_of rn ++ errors_of rc ++ errors_of rk ++ errors_of rd ++ errors_of ra)
  end.

End ZoneUpdate.

Module ZoneResponse.

Record t : Type := mk {
  name : string;
  city_id : Z;
  color : string;
  description : option string;
  id : Z;
  is_active : bool;
  created_at : Z
}.

(** The class derives from [ZoneBase]: reading a row runs the same field
    constraints and the colour validator again. *)
Definition model_validate (z : Zone.t) : Validated t :=
  match str_length "name" 2 255 (Zone.name z),
        int_gt "city_id" 0 (Zone.city_id z),
        ZoneBase.color_field (Zone.color z) with
  | inr n, inr c, inr k =>
      Valid {| name := n; city_id := c; color := k; description := Zone.description z;
               id := Zone.id z; is_active := Zone.is_active z;
               created_at := Zone.created_at z |}
  | rn, rc, rk => Invalid (errors_of rn ++ errors_of rc ++ errors_of rk)
  end.

End ZoneResponse.

Module ZoneWithCityResponse.

Record t : Type := mk {
  zone : ZoneResponse.t;
  city_name : string;
  city_country : string
}.

(** The model built from [zone_dict]: the row's attributes and the two city fields. *)
Definition make (z : Zone.t) (c : City.t) : Validated t :=
  match ZoneResponse.model_validate z with
  | Valid r => Valid {| zone := r; city_name := City.name c; city_country := City.country c |}
  | Invalid errs => Invalid errs
  end.

End ZoneWithCityResponse.

Module CityWithZonesResponse.

Record t : Type := mk {
  city : CityResponse.t;
  zones : list ZoneResponse.t;
  total_zones : Z
}.

End CityWithZonesResponse.

(** ** Coordinate schemas *)

Module CoordinateValidation.

Record body : Type := mkBody { b_latitude : field pyfloat; b_longitude : field pyfloat }.

Record t : Type := mk { latitude : pyfloat; longitude : pyfloat }.

Definition validate_latitude_colombia (v : pyfloat) : FieldResult pyfloat :=
  if negb (float_le (float_of_int (-5)) v && float_le v (float_of_int 13))
  then inl (mkFieldError "latitude" "La latitud debe estar entre -5 y 13 (rango de Colombia)")
  else inr v.

Definition validate_longitude_colombia (v : pyfloat) : FieldResult pyfloat :=
  if negb (float_le (float_of_int (-80)) v && float_le v (float_of_int (-66)))
  then inl (mkFieldError "longitude" "La longitud debe estar entre -80 y -66 (rango de Colombia)")
  else inr v.

Definition latitude_field (v : pyfloat) : FieldResult pyfloat :=
  and_then (float_range "latitude" (-90) 90 v) validate_latitude_colombia.

Definition longitude_field (v : pyfloat) : FieldResult pyfloat :=
  and_then (float_range "longitude" (-180) 180 v) validate_longitude_colombia.

Definition validate (b : body) : Validated t :=
  match and_then (required "latitude" "float_type" (b_latitude b)) latitude_field,
        and_then (required "longitude" "float_type" (b_longitude b)) longitude_field with
  | inr la, inr lo => Valid {| latitude := la; longitude := lo |}
  | rla, rlo => Invalid (errors_of rla ++ errors_of rlo)
  end.

End CoordinateValidation.

Module CoordinateResponse.

Record t : Type := mk {
  latitude : pyfloat;
  longitude : pyfloat;
  is_valid : bool;
  country : string
}.

(** [CoordinateResponse(latitude=..., longitude=..., is_valid=..., country=...)]:
    the class derives from [CoordinateValidation], whose checks run again. *)
Definition make (la lo : pyfloat) (valid : bool) (k : string) : Validated t :=
  match CoordinateValidation.latitude_field la, CoordinateValidation.longitude_field lo with
  | inr la', inr lo' => Valid {| latitude := la'; longitude := lo'; is_valid := valid; country := k |}
  | rla, rlo => Invalid (errors_of rla ++ errors_of rlo)
  end.

End CoordinateResponse.

(** ** [model_dump(exclude_unset=True)] of the update schemas

    The dictionary holds one item per field that the body carried, [null]
    included, in the order of the class's fields. *)

Definition dump_field {A I : Type} (item : option A -> I) (f : field A) : list I :=
  match f with
  | Unset => []
  | Null => [item None]
  | Value a => [item (Some a)]
  end.

Module CityItems.

Inductive item : Type :=
| name (v : option string)
| country (v : option string)
| is_active (v : option bool).

Definition model_dump_exclude_unset (d : CityUpdate.t) : list item :=
  dump_field name (CityUpdate.name d) ++
  dump_field country (CityUpdate.country d) ++
  dump_field is_active (CityUpdate.is_active d).

(** [setattr(city, field, value)] *)
Definition setattr (c : City.instance) (it : item) : City.instance :=
  match it with
  | name v => {| City.i_name := v; City.i_country := City.i_country c; City.i_is_active := City.i_is_active c |}
  | country v => {| City.i_name := City.i_name c; City.i_country := v; City.i_is_active := City.i_is_active c |}
  | is_active v => {| City.i_name := City.i_name c; City.i_country := City.i_country c; City.i_is_active := v |}
  end.

End CityItems.

Module ZoneItems.

Inductive item : Type :=
| name (v : option string)
| city_id (v : option Z)
| color (v : option string)
| description (v : option string)
| is_active (v : option bool).

Definition model_dump_exclude_unset (d : ZoneUpdate.t) : list item :=
  dump_field name (ZoneUpdate.name d) ++
  dump_field city_id (ZoneUpdate.city_id d) ++
  dump_field color (ZoneUpdate.color d) ++
  dump_field description (ZoneUpdate.description d) ++
  dump_field is_active (ZoneUpdate.is_active d).

Definition setattr (z : Zone.instance) (it : item) : Zone.instance :=
  match it with
  | name v =>
      {| Zone.i_name := v; Zone.i_city_id := Zone.i_city_id z; Zone.i_color := Zone.i_color z;
         Zone.i_description := Zone.i_description z; Zone.i_is_active := Zone.i_is_active z |}
  | city_id v =>
      {| Zone.i_name := Zone.i_name z; Zone.i_city_id := v; Zone.i_color := Zone.i_color z;
         Zone.i_description := Zone.i_description z; Zone.i_is_active := Zone.i_is_active z |}
  | color v =>
      {| Zone.i_name := Zone.i_name z; Zone.i_city_id := Zone.i_city_id z; Zone.i_color := v;
         Zone.i_description := Zone.i_description z; Zone.i_is_active := Zone.i_is_active z |}
  | description v =>
      {| Zone.i_name := Zone.i_name z; Zone.i_city_id := Zone.i_city_id z; Zone.i_color := Zone.i_color z;
         Zone.i_description := v; Zone.i_is_active := Zone.i_is_active z |}
  | is_active v =>
      {| Zone.i_name := Zone.i_name z; Zone.i_city_id := Zone.i_city_id z; Zone.i_color := Zone.i_color z;
         Zone.i_description := Zone.i_description z; Zone.i_is_active := v |}
  end.

End ZoneItems.

(* ================================================================== *)
(** * The session: queries, [add], [commit], [refresh] *)

Definition city_by_id (db : DB) (city_id : Z) : option City.t :=
  find (fun c => City.id c =? city_id) (cities db).

Definition city_by_name (db : DB) (name : string) : option City.t :=
  find (fun c => String.eqb (City.name c) name) (cities db).

Definition zone_by_id (db : DB) (zone_id : Z) : option Zone.t :=
  find (fun z => Zone.id z =? zone_id) (zones db).

Definition zone_by_name_city (db : DB) (name : string) (city_id : Z) : option Zone.t :=
  find (fun z => String.eqb (Zone.name z) name && (Zone.city_id z =? city_id)) (zones db).

(** [INSERT INTO cities]: the next [id] of the sequence, the column default
    of [is_active], the server's time in both timestamps; the primary key and
    [unique=True] on [name] are checked by the store. A statement that fails
    leaves the rows as they were. The value that PostgreSQL's sequence has
    handed out for a refused row is not counted: the sequence is only
    required to stay ahead of the stored ids, which it does either way. *)
Definition insert_city (now : Z) (d : CityCreate.t) (db : DB) : IntegrityError + (DB * City.t) :=
  let new_id := cities_id_seq db + 1 in
  if existsb (fun c => City.id c =? new_id) (cities db) then inl (UniqueViolation "cities_pkey")
  else if existsb (fun c => String.eqb (City.name c) (CityCreate.name d)) (cities db)
  then inl (UniqueViolation "ix_cities_name")
  else
    let row := {| City.id := new_id; City.name := CityCreate.name d;
                  City.country := CityCreate.country d; City.is_active := true;
                  City.created_at := now; City.updated_at := now |} in
    inr ({| cities := cities db ++ [row]; zones := zones db;
            cities_id_seq := new_id; zones_id_seq := zones_id_seq db |}, row).

(** [UPDATE cities ... WHERE id = ...] for a loaded row whose attributes were
    assigned. No statement is emitted when no attribute changed; otherwise
    [onupdate=func.now()] refreshes [updated_at], and the unique index on
    [name] is consulted when the name changes. The new row is written at
    the place of the old one. Where an unordered listing shows a row after
    its update is the engine's business (PostgreSQL lists it after the rows
    it did not rewrite); the properties stated of the service look rows up
    by [id] or count them, and none is about that place. *)
Definition update_city_row (now : Z) (old : City.t) (i : City.instance) (db : DB)
  : IntegrityError + (DB * City.t) :=
  match City.i_name i, City.i_country i, City.i_is_active i with
  | None, _, _ => inl (NotNullViolation "cities" "name")
  | _, None, _ => inl (NotNullViolation "cities" "country")
  | _, _, None => inl (NotNullViolation "cities" "is_active")
  | Some n, Some k, Some a =>
      if String.eqb n (City.name old) && String.eqb k (City.country old)
         && Bool.eqb a (City.is_active old)
      then inr (db, old)
      else if negb (String.eqb n (City.name old))
              && existsb (fun c => negb (City.id c =? City.id old) && String.eqb (City.name c) n)
                   (cities db)
      then inl (UniqueViolation "ix_cities_name")
      else
        let row := {| City.id := City.id old; City.name := n; City.country := k;
                      City.is_active := a; City.created_at := City.created_at old;
                      City.updated_at := now |} in
        inr ({| cities := map (fun c => if City.id c =? City.id old then row else c) (cities db);
                zones := zones db;
                cities_id_seq := cities_id_seq db; zones_id_seq := zones_id_seq db |}, row)
  end.

(** [INSERT INTO zones]: primary key and the foreign key to [cities.id]; the
    table declares no uniqueness on [(name, city_id)]. *)
Definition insert_zone (now : Z) (d : ZoneCreate.t) (db : DB) : IntegrityError + (DB * Zone.t) :=
  let new_id := zones_id_seq db + 1 in
  if existsb (fun z => Zone.id z =? new_id) (zones db) then inl (UniqueViolation "zones_pkey")
  else if negb (existsb (fun c => City.id c =? ZoneCreate.city_id d) (cities db))
  then inl (ForeignKeyViolation "zones_city_id_fkey")
  else
    let row := {| Zone.id := new_id; Zone.name := ZoneCreate.name d;
                  Zone.city_id := ZoneCreate.city_id d; Zone.color := ZoneCreate.color d;
                  Zone.description := ZoneCreate.description d; Zone.is_active := true;
                  Zone.created_at := now; Zone.updated_at := now |} in
    inr ({| cities := cities db; zones := zones db ++ [row];
            cities_id_seq := cities_id_seq db; zones_id_seq := new_id |}, row).

Definition option_string_eqb (a b : option string) : bool :=
  match a, b with
  | Some x, Some y => String.eqb x y
  | None, None => true
  | _, _ => false
  end.

(** [UPDATE zones ... WHERE id = ...]; the foreign key is checked when
    [city_id] changes. The new row is written at the place of the old one,
    as for [update_city_row]. *)
Definition update_zone_row (now : Z) (old : Zone.t) (i : Zone.instance) (db : DB)
  : IntegrityError + (DB * Zone.t) :=
  match Zone.i_name i, Zone.i_city_id i, Zone.i_color i, Zone.i_is_active i with
  | None, _, _, _ => inl (NotNullViolation "zones" "name")
  | _, None, _, _ => inl (NotNullViolation "zones" "city_id")
  | _, _, None, _ => inl (NotNullViolation "zones" "color")
  | _, _, _, None => inl (NotNullViolation "zones" "is_active")
  | Some n, Some c, Some k, Some a =>
      if String.eqb n (Zone.name old) && (c =? Zone.city_id old) && String.eqb k (Zone.color old)
         && option_string_eqb (Zone.i_description i) (Zone.description old)
         && Bool.eqb a (Zone.is_active old)
      then inr (db, old)
      else if negb (c =? Zone.city_id old) && negb (existsb (fun x => City.id x =? c) (cities db))
      then inl (ForeignKeyViolation "zones_city_id_fkey")
      else
        let row := {| Zone.id := Zone.id old; Zone.name := n; Zone.city_id := c;
                      Zone.color := k; Zone.description := Zone.i_description i;
                      Zone.is_active := a; Zone.created_at := Zone.created_at old;
                      Zone.updated_at := now |} in
        inr ({| cities := cities db;
                zones := map (fun z => if Zone.id z =? Zone.id old then row else z) (zones db);
                cities_id_seq := cities_id_seq db; zones_id_seq := zones_id_seq db |}, row)
  end.

(** [db.query(Zone, City).join(City, Zone.city_id == City.id)] *)
Definition zones_join_cities (db : DB) : list (Zone.t * City.t) :=
  flat_map (fun z => map (pair z) (filter (fun c => Zone.city_id z =? City.id c) (cities db)))
           (zones db).

(** The largest [bigint] of the store. *)
Definition bigint_max : Z := 9223372036854775807.

(** What the store raises when a statement carries a value out of range. *)
Inductive DataError : Type :=
| NumericValueOutOfRange (what : string).

(** The rows from position [skip] on, [limit] of them at most. *)
Definition skip_take {A : Type} (skip limit : Z) (rows : list A) : list A :=
  firstn (Z.to_nat limit) (skipn (Z.to_nat skip) rows).

(** [query.offset(skip).limit(limit).all()]: [OFFSET] and [LIMIT] are
    [bigint] in the store, which refuses the statement when either is
    larger. *)
Definition offset_limit {A : Type} (skip limit : Z) (rows : list A) : DataError + list A :=
  if bigint_max <? skip then inl (NumericValueOutOfRange "OFFSET")
  else if bigint_max <? limit then inl (NumericValueOutOfRange "LIMIT")
  else inr (skip_take skip limit rows).

(* ================================================================== *)
(** * [routers/geo.py] *)

(** Exceptions that no handler catches: the store's refusals, a returned
    value that fails its response schema, and the [ValueError] of the JSON
    encoder (run with [allow_nan=False]) on NaN or an infinity. *)
Inductive Unhandled : Type :=
| DBIntegrityError (e : IntegrityError)
| ResponseValidationError (errors : list FieldError)
| DBDataError (e : DataError)
| JSONValueError (detail : string).

Inductive Response (A : Type) : Type :=
| OK (status_code : Z) (content : A)
| HTTPException (status_code : Z) (detail : string)
| RequestValidationError (errors : list FieldError)
| ServerError (exc : Unhandled).

Arguments OK {A} status_code content.
Arguments HTTPException {A} status_code detail.
Arguments RequestValidationError {A} errors.
Arguments ServerError {A} exc.

Definition HTTP_200_OK : Z := 200.
Definition HTTP_201_CREATED : Z := 201.
Definition HTTP_400_BAD_REQUEST : Z := 400.
Definition HTTP_404_NOT_FOUND : Z := 404.

(** The status FastAPI answers with. *)
Definition status_of {A : Type} (r : Response A) : Z :=
  match r with
  | OK s _ => s
  | HTTPException s _ => s
  | RequestValidationError _ => 422
  | ServerError _ => 500
  end.

(** [response_model=...]: the returned value is validated against the
    response schema before it is sent. *)
Definition respond {A : Type} (status_code : Z) (v : Validated A) : Response A :=
  match v with
  | Valid a => OK status_code a
  | Invalid errs => ServerError (ResponseValidationError errs)
  end.

(** A list validated item by item; the first item that fails raises. *)
Fixpoint validate_each {A B : Type} (f : A -> Validated B) (l : list A) : Validated (list B) :=
  match l with
  | [] => Valid []
  | x :: r =>
      match f x with
      | Invalid errs => Invalid errs
      | Valid b =>
          match validate_each f r with
          | Invalid errs => Invalid errs
          | Valid bs => Valid (b :: bs)
          end
      end
  end.

(** [Query(default, ge=..., le=...)] on an [int] query parameter. *)
Definition Query (name : string) (default : Z) (ge : Z) (le : option Z) (p : option Z)
  : FieldResult Z :=
  match p with
  | None => inr default
  | Some v =>
      if v <? ge then inl (mkFieldError name "greater_than_equal")
      else match le with
           | Some hi => if hi <? v then inl (mkFieldError name "less_than_equal") else inr v
           | None => inr v
           end
  end.

Definition filter_opt {A B : Type} (o : option B) (p : B -> A -> bool) (rows : list A) : list A :=
  match o with
  | Some b => filter (p b) rows
  | None => rows
  end.

(** ** Cities *)

Definition get_cities (db : DB) (skip limit : option Z) (is_active : option bool)
  : Response (list CityResponse.t) :=
  match Query "skip" 0 0 None skip, Query "limit" 100 1 (Some 1000) limit with
  | inr skip, inr limit =>
      let query := cities db in
      let query := filter_opt is_active (fun a c => Bool.eqb (City.is_active c) a) query in
      match offset_limit skip limit query with
      | inl e => ServerError (DBDataError e)
      | inr cities => respond HTTP_200_OK (validate_each CityResponse.model_validate cities)
      end
  | rs, rl => RequestValidationError (errors_of rs ++ errors_of rl)
  end.

Definition city_not_found {A : Type} (city_id : Z) : Response A :=
  HTTPException HTTP_404_NOT_FOUND ("Ciudad con ID " ++ str_of_int city_id ++ " no encontrada").

Definition zone_not_found {A : Type} (zone_id : Z) : Response A :=
  HTTPException HTTP_404_NOT_FOUND ("Zona con ID " ++ str_of_int zone_id ++ " no encontrada").

Definition get_city_with_zones (db : DB) (city_id : Z) : Response CityWithZonesResponse.t :=
  match city_by_id db city_id with
  | None => city_not_found city_id
  | Some city =>
      let zones := filter (fun z => (Zone.city_id z =? city_id) && Bool.eqb (Zone.is_active z) true)
                          (zones db) in
      match validate_each ZoneResponse.model_validate zones with
      | Invalid errs => ServerError (ResponseValidationError errs)
      | Valid zs =>
          match CityResponse.model_validate city with
          | Invalid errs => ServerError (ResponseValidationError errs)
          | Valid c =>
              OK HTTP_200_OK
                 {| CityWithZonesResponse.city := c;
                    CityWithZonesResponse.zones := zs;
                    CityWithZonesResponse.total_zones := Z.of_nat (List.length zones) |}
          end
      end
  end.

(** [create_city] in its two steps: the look-up for an existing name, and
    [add]/[commit]/[refresh]. The handler has no [try] around the commit. *)
Definition create_city_existing (db : DB) (city_data : CityCreate.t) : option (Response CityResponse.t) :=
  match city_by_name db (CityCreate.name city_data) with
  | Some _ =>
      Some (HTTPException HTTP_400_BAD_REQUEST
              ("La ciudad '" ++ CityCreate.name city_data ++ "' ya existe"))
  | None => None
  end.

Definition create_city_commit (now : Z) (db : DB) (city_data : CityCreate.t)
  : DB * Response CityResponse.t :=
  match insert_city now city_data db with
  | inl e => (db, ServerError (DBIntegrityError e))
  | inr (db', new_city) => (db', respond HTTP_201_CREATED (CityResponse.model_validate new_city))
  end.

(** The handler run while other requests commit [others] between its two
    steps; [create_city] is the run with nothing in between. *)
Definition create_city_among (others : DB -> DB) (now : Z) (db : DB) (city_data : CityCreate.t)
  : DB * Response CityResponse.t :=
  match create_city_existing db city_data with
  | Some r => (db, r)
  | None => create_city_commit now (others db) city_data
  end.

Definition create_city (now : Z) (db : DB) (city_data : CityCreate.t)
  : DB * Response CityResponse.t :=
  create_city_among (fun d => d) now db city_data.

Definition update_city (now : Z) (db : DB) (city_id : Z) (city_data : CityUpdate.t)
  : DB * Response CityResponse.t :=
  match city_by_id db city_id with
  | None => (db, city_not_found city_id)
  | Some city =>
      let update_data := CityItems.model_dump_exclude_unset city_data in
      let city' := fold_left CityItems.setattr update_data (City.load city) in
      match update_city_row now city city' db with
      | inl e => (db, ServerError (DBIntegrityError e))
      | inr (db', row) => (db', respond HTTP_200_OK (CityResponse.model_validate row))
      end
  end.

(** ** Zones *)

Definition get_zones (db : DB) (city_id : option Z) (skip limit : option Z)
    (is_active : option bool) : Response (list ZoneWithCityResponse.t) :=
  match Query "skip" 0 0 None skip, Query "limit" 100 1 (Some 1000) limit with
  | inr skip, inr limit =>
      let query := zones_join_cities db in
      let query := filter_opt city_id (fun i zc => Zone.city_id (fst zc) =? i) query in
      let query := filter_opt is_active (fun a zc => Bool.eqb (Zone.is_active (fst zc)) a) query in
      match offset_limit skip limit query with
      | inl e => ServerError (DBDataError e)
      | inr zones =>
          respond HTTP_200_OK
            (validate_each (fun zc => ZoneWithCityResponse.make (fst zc) (snd zc)) zones)
      end
  | rs, rl => RequestValidationError (errors_of rs ++ errors_of rl)
  end.

Definition get_zone (db : DB) (zone_id : Z) : Response ZoneWithCityResponse.t :=
  match find (fun zc => Zone.id (fst zc) =? zone_id) (zones_join_cities db) with
  | None => zone_not_found zone_id
  | Some (zone, city) => respond HTTP_200_OK (ZoneWithCityResponse.make zone city)
  end.

Definition create_zone (now : Z) (db : DB) (zone_data : ZoneCreate.t)
  : DB * Response ZoneResponse.t :=
  match city_by_id db (ZoneCreate.city_id zone_data) with
  | None => (db, city_not_found (ZoneCreate.city_id zone_data))
  | Some city =>
      match zone_by_name_city db (ZoneCreate.name zone_data) (ZoneCreate.city_id zone_data) with
      | Some _ =>
          (db, HTTPException HTTP_400_BAD_REQUEST
                 ("La zona '" ++ ZoneCreate.name zone_data ++ "' ya existe en " ++ City.name city))
      | None =>
          match insert_zone now zone_data db with
          | inl e => (db, ServerError (DBIntegrityError e))
          | inr (db', new_zone) =>
              (db', respond HTTP_201_CREATED (ZoneResponse.model_validate new_zone))
          end
      end
  end.

Definition update_zone (now : Z) (db : DB) (zone_id : Z) (zone_data : ZoneUpdate.t)
  : DB * Response ZoneResponse.t :=
  match zone_by_id db zone_id with
  | None => (db, zone_not_found zone_id)
  | Some zone =>
      let update_data := ZoneItems.model_dump_exclude_unset zone_data in
      let zone' := fold_left ZoneItems.setattr update_data (Zone.load zone) in
      match update_zone_row now zone zone' db with
      | inl e => (db, ServerError (DBIntegrityError e))
      | inr (db', row) => (db', respond HTTP_200_OK (ZoneResponse.model_validate row))
      end
  end.

(** ** Coordinates *)

Definition validate_coordinates (settings : Config.Settings) (coordinates : CoordinateValidation.t)
  : Response CoordinateResponse.t :=
  respond HTTP_200_OK
    (CoordinateResponse.make (CoordinateValidation.latitude coordinates)
                             (CoordinateValidation.longitude coordinates)
                             true
                             (Config.DEFAULT_COUNTRY settings)).

(** ** The endpoints: a request body is validated against its schema, and the
    handler runs on the validated model. The caller's identity is checked by
    a collaborator outside this code; the requests here carry a valid one. *)

Definition with_body {B M A : Type} (validate : B -> Validated M) (body : B) (db : DB)
    (handler : M -> DB * Response A) : DB * Response A :=
  match validate body with
  | Invalid errs => (db, RequestValidationError errs)
  | Valid m => handler m
  end.

(** The same for a body of floats. The 422 answer lists every error with
    the input it refused (the member's value, or the whole body for a
    missing member), and its JSON encoding raises on NaN and on the
    infinities: such a body fails validation, and the answer to it cannot
    be rendered. *)
Definition json_compliant (f : field pyfloat) : bool :=
  match f with
  | Value v => finite v
  | _ => true
  end.

Definition with_coordinates {M A : Type} (validate : CoordinateValidation.body -> Validated M)
    (body : CoordinateValidation.body) (db : DB)
    (handler : M -> DB * Response A) : DB * Response A :=
  match validate body with
  | Invalid errs =>
      if json_compliant (CoordinateValidation.b_latitude body)
         && json_compliant (CoordinateValidation.b_longitude body)
      then (db, RequestValidationError errs)
      else (db, ServerError (JSONValueError "Out of range float values are not JSON compliant"))
  | Valid m => handler m
  end.

Inductive Request : Type :=
| GET_cities (skip limit : option Z) (is_active : option bool)
| GET_city (city_id : Z)
| POST_cities (body : CityCreate.body)
| PUT_city (city_id : Z) (body : CityUpdate.t)
| GET_zones (city_id : option Z) (skip limit : option Z) (is_active : option bool)
| GET_zone (zone_id : Z)
| POST_zones (body : ZoneCreate.body)
| PUT_zone (zone_id : Z) (body : ZoneUpdate.t)
| POST_coordinates_validate (body : CoordinateValidation.body).

(** What a response body can be. *)
Inductive Content : Type :=
| CityList (l : list CityResponse.t)
| CityWithZones (c : CityWithZonesResponse.t)
| CityOne (c : CityResponse.t)
| ZoneList (l : list ZoneWithCityResponse.t)
| ZoneWithCity (z : ZoneWithCityResponse.t)
| ZoneOne (z : ZoneResponse.t)
| Coordinates (c : CoordinateResponse.t).

Definition content {A : Type} (wrap : A -> Content) (r : Response A) : Response Content :=
  match r with
  | OK s a => OK s (wrap a)
  | HTTPException s d => HTTPException s d
  | RequestValidationError e => RequestValidationError e
  | ServerError e => ServerError e
  end.

Definition content2 {A : Type} (wrap : A -> Content) (r : DB * Response A) : DB * Response Content :=
  (fst r, content wrap (snd r)).

(** One request served at the store's time [now]. *)
Definition serve (settings : Config.Settings) (now : Z) (db : DB) (req : Request)
  : DB * Response Content :=
  match req with
  | GET_cities skip limit is_active => (db, content CityList (get_cities db skip limit is_active))
  | GET_city city_id => (db, content CityWithZones (get_city_with_zones db city_id))
  | POST_cities body =>
      content2 CityOne (with_body CityCreate.validate body db (create_city now db))
  | PUT_city city_id body =>
      content2 CityOne (with_body CityUpdate.validate body db (update_city now db city_id))
  | GET_zones city_id skip limit is_active =>
      (db, content ZoneList (get_zones db city_id skip limit is_active))
  | GET_zone zone_id => (db, content ZoneWithCity (get_zone db zone_id))
  | POST_zones body =>
      content2 ZoneOne (with_body ZoneCreate.validate body db (create_zone now db))
  | PUT_zone zone_id body =>
      content2 ZoneOne (with_body ZoneUpdate.validate body db (update_zone now db zone_id))
  | POST_coordinates_validate body =>
      content2 Coordinates
        (with_coordinates CoordinateValidation.validate body db
           (fun c => (db, validate_coordinates settings c)))
  end.

(** A run of the service: the requests in the order they are served, each
    with the store's time when it is served; the responses in that order. *)
Fixpoint run (settings : Config.Settings) (db : DB) (reqs : list (Z * Request))
  : DB * list (Response Content) :=
  match reqs with
  | [] => (db, [])
  | (now, req) :: rest =>
      let (db1, r) := serve settings now db req in
      let (db2, rs) := run settings db1 rest in
      (db2, r :: rs)
  end.

(* ================================================================== *)
(** * Vocabulary of the properties *)

(** [lo <= v <= hi] for a float [v] and integer bounds, over the rationals. *)
Definition within (lo hi : Z) (v : pyfloat) : Prop :=
  match v with
  | Finite q => (inject_Z lo <= q)%Q /\ (q <= inject_Z hi)%Q
  | _ => False
  end.

(** The operating box [-5, 13] x [-80, -66] and the WGS84 bounds. *)
Definition in_operating_box (lat lon : pyfloat) : Prop :=
  within (-5) 13 lat /\ within (-80) (-66) lon.

Definition in_wgs84 (lat lon : pyfloat) : Prop :=
  within (-90) 90 lat /\ within (-180) 180 lon.

Definition coordinates_body (lat lon : pyfloat) : CoordinateValidation.body :=
  {| CoordinateValidation.b_latitude := Value lat; CoordinateValidation.b_longitude := Value lon |}.

(** What a response shows of a row. *)
Definition city_view (c : City.t) : CityResponse.t :=
  {| CityResponse.name := City.name c; CityResponse.country := City.country c;
     CityResponse.id := City.id c; CityResponse.is_active := City.is_active c;
     CityResponse.created_at := City.created_at c |}.

Definition zone_view (z : Zone.t) : ZoneResponse.t :=
  {| ZoneResponse.name := Zone.name z; ZoneResponse.city_id := Zone.city_id z;
     ZoneResponse.color := upper (Zone.color z); ZoneResponse.description := Zone.description z;
     ZoneResponse.id := Zone.id z; ZoneResponse.is_active := Zone.is_active z;
     ZoneResponse.created_at := Zone.created_at z |}.

Definition zone_city_view (zc : Zone.t * City.t) : ZoneWithCityResponse.t :=
  {| ZoneWithCityResponse.zone := zone_view (fst zc);
     ZoneWithCityResponse.city_name := City.name (snd zc);
     ZoneWithCityResponse.city_country := City.country (snd zc) |}.

(** A row that its response schema accepts: the lengths, the positive
    [city_id] and the colour pattern. *)
Definition city_ok (c : City.t) : bool :=
  (2 <=? String.length (City.name c))%nat && (String.length (City.name c) <=? 255)%nat
  && (String.length (City.country c) <=? 100)%nat.

Definition zone_ok (z : Zone.t) : bool :=
  (2 <=? String.length (Zone.name z))%nat && (String.length (Zone.name z) <=? 255)%nat
  && (0 <? Zone.city_id z) && color_pattern (Zone.color z).

Definition presentable (db : DB) : Prop :=
  forallb city_ok (cities db) = true /\ forallb zone_ok (zones db) = true.

(** The key of the zone uniqueness rule. *)
Definition name_city (z : Zone.t) : string * Z := (Zone.name z, Zone.city_id z).

Definition zones_unique (db : DB) : Prop := NoDup (map name_city (zones db)).

Definition city_names_unique (db : DB) : Prop := NoDup (map City.name (cities db)).

(** Every zone's [city_id] is the [id] of a stored city. *)
Definition zones_reference_cities (db : DB) : Prop :=
  forall z, In z (zones db) -> exists c, In c (cities db) /\ City.id c = Zone.city_id z.

(** The sequences are ahead of the stored [id]s. *)
Definition sequences_ahead (db : DB) : Prop :=
  (forall c, In c (cities db) -> City.id c <= cities_id_seq db) /\
  (forall z, In z (zones db) -> Zone.id z <= zones_id_seq db).

(** The invariant of the service's stores. *)
Definition well_formed (db : DB) : Prop :=
  presentable db /\ sequences_ahead db /\ zones_reference_cities db.

(** A store with every [updated_at] blanked: what is left when the column is
    not looked at. *)
Definition forget_city (c : City.t) : City.t :=
  {| City.id := City.id c; City.name := City.name c; City.country := City.country c;
     City.is_active := City.is_active c; City.created_at := City.created_at c;
     City.updated_at := 0 |}.

Definition forget_zone (z : Zone.t) : Zone.t :=
  {| Zone.id := Zone.id z; Zone.name := Zone.name z; Zone.city_id := Zone.city_id z;
     Zone.color := Zone.color z; Zone.description := Zone.description z;
     Zone.is_active := Zone.is_active z; Zone.created_at := Zone.created_at z;
     Zone.updated_at := 0 |}.

Definition forget (db : DB) : DB :=
  {| cities := map forget_city (cities db); zones := map forget_zone (zones db);
     cities_id_seq := cities_id_seq db; zones_id_seq := zones_id_seq db |}.

(** A query parameter or its default. *)
Definition param (default : Z) (p : option Z) : Z :=
  match p with
  | Some v => v
  | None => default
  end.

(** The rows a listing selects before it paginates. *)
Definition cities_selected (db : DB) (is_active : option bool) : list City.t :=
  match is_active with
  | Some a => filter (fun c => Bool.eqb (City.is_active c) a) (cities db)
  | None => cities db
  end.

Definition zones_selected (db : DB) (city_id : option Z) (is_active : option bool)
  : list (Zone.t * City.t) :=
  let joined := zones_join_cities db in
  let of_city := match city_id with
                 | Some i => filter (fun zc => Zone.city_id (fst zc) =? i) joined
                 | None => joined
                 end in
  match is_active with
  | Some a => filter (fun zc => Bool.eqb (Zone.is_active (fst zc)) a) of_city
  | None => of_city
  end.

(** What an assignment loop leaves in an attribute: the loaded value when
    the payload does not carry the field, [None] for [null], the value
    otherwise. *)
Definition assigned {A : Type} (f : field A) (old : A) : option A :=
  match f with
  | Unset => Some old
  | Null => None
  | Value v => Some v
  end.

(** The empty partial payload. *)
Definition empty_city_update : CityUpdate.t :=
  {| CityUpdate.name := Unset; CityUpdate.country := Unset; CityUpdate.is_active := Unset |}.

(** Update payloads used below: one field each. *)
Definition rename_to (name : string) : ZoneUpdate.t :=
  {| ZoneUpdate.name := Value name; ZoneUpdate.city_id := Unset; ZoneUpdate.color := Unset;
     ZoneUpdate.description := Unset; ZoneUpdate.is_active := Unset |}.

Definition move_to_city (city_id : Z) : ZoneUpdate.t :=
  {| ZoneUpdate.name := Unset; ZoneUpdate.city_id := Value city_id; ZoneUpdate.color := Unset;
     ZoneUpdate.description := Unset; ZoneUpdate.is_active := Unset |}.

Definition recolor (color : string) : ZoneUpdate.t :=
  {| ZoneUpdate.name := Unset; ZoneUpdate.city_id := Unset; ZoneUpdate.color := Value color;
     ZoneUpdate.description := Unset; ZoneUpdate.is_active := Unset |}.

Definition new_zone (name : string) (city_id : Z) (color : field string) : ZoneCreate.body :=
  {| ZoneCreate.b_name := Value name; ZoneCreate.b_city_id := Value city_id;
     ZoneCreate.b_color := color; ZoneCreate.b_description := Unset |}.

(** ** The store of the test-suite ([setup_database]): two cities, three
    zones in the first one; and the same store with a fourth, inactive zone.
    The accented names of the test-suite are written without accents. *)

Definition zone_row (id : Z) (name : string) (city_id : Z) (color : string)
    (description : string) (is_active : bool) : Zone.t :=
  {| Zone.id := id; Zone.name := name; Zone.city_id := city_id; Zone.color := color;
     Zone.description := Some description; Zone.is_active := is_active;
     Zone.created_at := 1; Zone.updated_at := 1 |}.

Definition city_row (id : Z) (name : string) : City.t :=
  {| City.id := id; City.name := name; City.country := "Colombia"; City.is_active := true;
     City.created_at := 0; City.updated_at := 0 |}.

Definition setup_database : DB :=
  {| cities := [city_row 1 "Bogota"; city_row 2 "Medellin"];
     zones := [zone_row 1 "Norte" 1 "#E74C3C" "Zona norte" true;
               zone_row 2 "Centro" 1 "#F39C12" "Zona centro" true;
               zone_row 3 "Sur" 1 "#27AE60" "Zona sur" true];
     cities_id_seq := 2; zones_id_seq := 3 |}.

Definition with_inactive_zone : DB :=
  {| cities := cities setup_database;
     zones := zones setup_database ++ [zone_row 4 "Occidente" 1 "#8E44AD" "Zona occidente" false];
     cities_id_seq := 2; zones_id_seq := 4 |}.

Definition forget_pair (zc : Zone.t * City.t) : Zone.t * City.t :=
  (forget_zone (fst zc), forget_city (snd zc)).

(** Two outcomes that differ in [updated_at] at most. *)
Definition agree {A : Type} (o1 o2 : DB * Response A) : Prop :=
  forget (fst o1) = forget (fst o2) /\ snd o1 = snd o2.

(** The store of the test-suite after every row was touched at time 77. *)
Definition touched_database : DB :=
  {| cities := map (fun c => {| City.id := City.id c; City.name := City.name c;
                                City.country := City.country c;
                                City.is_active := City.is_active c;
                                City.created_at := City.created_at c;
                                City.updated_at := 77 |}) (cities setup_database);
     zones := map (fun z => {| Zone.id := Zone.id z; Zone.name := Zone.name z;
                               Zone.city_id := Zone.city_id z; Zone.color := Zone.color z;
                               Zone.description := Zone.description z;
                               Zone.is_active := Zone.is_active z;
                               Zone.created_at := Zone.created_at z;
                               Zone.updated_at := 77 |}) (zones setup_database);
     cities_id_seq := 2; zones_id_seq := 3 |}.

(* ================================================================== *)
(** * Vocabulary of the further properties *)

Definition city_ids_unique (db : DB) : Prop := NoDup (map City.id (cities db)).

Definition zone_ids_unique (db : DB) : Prop := NoDup (map Zone.id (zones db)).

Definition keys_unique (db : DB) : Prop :=
  city_ids_unique db /\ zone_ids_unique db /\ city_names_unique db.

Definition replace_city (old row : City.t) (db : DB) : DB :=
  {| cities := map (fun c => if City.id c =? City.id old then row else c) (cities db);
     zones := zones db;
     cities_id_seq := cities_id_seq db; zones_id_seq := zones_id_seq db |}.

Definition replace_zone (old row : Zone.t) (db : DB) : DB :=
  {| cities := cities db;
     zones := map (fun z => if Zone.id z =? Zone.id old then row else z) (zones db);
     cities_id_seq := cities_id_seq db; zones_id_seq := zones_id_seq db |}.

Definition append_city (row : City.t) (db : DB) : DB :=
  {| cities := cities db ++ [row]; zones := zones db;
     cities_id_seq := City.id row; zones_id_seq := zones_id_seq db |}.

Definition append_zone (row : Zone.t) (db : DB) : DB :=
  {| cities := cities db; zones := zones db ++ [row];
     cities_id_seq := cities_id_seq db; zones_id_seq := Zone.id row |}.

Definition response_ok {A : Type} (r : Response A) : Prop :=
  forall errs, r <> ServerError (ResponseValidationError errs).

Definition city_keys (db : DB) : list (Z * Z) :=
  map (fun c => (City.id c, City.created_at c)) (cities db).

Definition zone_keys (db : DB) : list (Z * Z) :=
  map (fun z => (Zone.id z, Zone.created_at z)) (zones db).

Definition active_zones (db : DB) (city_id : Z) : list Zone.t :=
  filter (fun z => (Zone.city_id z =? city_id) && Bool.eqb (Zone.is_active z) true) (zones db).

Definition deactivate : ZoneUpdate.t :=
  {| ZoneUpdate.name := Unset; ZoneUpdate.city_id := Unset; ZoneUpdate.color := Unset;
     ZoneUpdate.description := Unset; ZoneUpdate.is_active := Value false |}.

Definition clear_description : ZoneUpdate.t :=
  {| ZoneUpdate.name := Unset; ZoneUpdate.city_id := Unset; ZoneUpdate.color := Unset;
     ZoneUpdate.description := Null; ZoneUpdate.is_active := Unset |}.

Definition empty_zone_update : ZoneUpdate.t :=
  {| ZoneUpdate.name := Unset; ZoneUpdate.city_id := Unset; ZoneUpdate.color := Unset;
     ZoneUpdate.description := Unset; ZoneUpdate.is_active := Unset |}.

Definition name_ok (f : field string) : bool :=
  match f with
  | Value n => (2 <=? String.length n)%nat && (String.length n <=? 255)%nat
  | _ => false
  end.

Definition city_payload_ok (b : CityCreate.body) : bool :=
  name_ok (CityCreate.b_name b)
  && match CityCreate.b_country b with
     | Unset => true
     | Null => false
     | Value k => (String.length k <=? 100)%nat
     end.

Definition zone_payload_ok (b : ZoneCreate.body) : bool :=
  name_ok (ZoneCreate.b_name b)
  && match ZoneCreate.b_city_id b with
     | Value c => 0 <? c
     | _ => false
     end
  && match ZoneCreate.b_color b with
     | Unset => true
     | Null => false
     | Value v => color_pattern v
     end.

Definition inactive_bogota : DB :=
  {| cities := [{| City.id := 1; City.name := "Bogota"; City.country := "Colombia";
                   City.is_active := false; City.created_at := 0; City.updated_at := 4 |}];
     zones := []; cities_id_seq := 1; zones_id_seq := 0 |}.

Definition supplied_ok {A : Type} (p : A -> bool) (f : field A) : bool :=
  match f with
  | Value v => p v
  | _ => true
  end.

Definition name_length_ok (n : string) : bool :=
  (2 <=? String.length n)%nat && (String.length n <=? 255)%nat.

Definition city_update_ok (b : CityUpdate.t) : bool :=
  supplied_ok name_length_ok (CityUpdate.name b)
  && supplied_ok (fun k => (String.length k <=? 100)%nat) (CityUpdate.country b).

Definition zone_update_ok (b : ZoneUpdate.t) : bool :=
  supplied_ok name_length_ok (ZoneUpdate.name b)
  && supplied_ok (fun c => 0 <? c) (ZoneUpdate.city_id b)
  && supplied_ok color_pattern (ZoneUpdate.color b).

(* ================================================================== *)
(** * Coordinate validation *)

Lemma float_le_within (lo hi : Z) (v : pyfloat) :
  float_le (float_of_int lo) v && float_le v (float_of_int hi) = true <-> within lo hi v.
Proof.
  unfold within, float_of_int; destruct v as [q| | |]; simpl.
  - rewrite andb_true_iff, !Qle_bool_iff; tauto.
  - split; [discriminate | tauto].
  - split; [discriminate | tauto].
  - split; [discriminate | tauto].
Qed.

Lemma within_widen (lo hi lo' hi' : Z) (v : pyfloat) :
  lo' <= lo -> hi <= hi' -> within lo hi v -> within lo' hi' v.
Proof.
  intros Hlo Hhi; destruct v as [q| | |]; simpl; try tauto.
  intros [H1 H2]; split.
  - apply Qle_trans with (inject_Z lo); [rewrite <- Zle_Qle; exact Hlo | exact H1].
  - apply Qle_trans with (inject_Z hi); [exact H2 | rewrite <- Zle_Qle; exact Hhi].
Qed.

Lemma float_range_within (name : string) (lo hi : Z) (v : pyfloat) :
  within lo hi v -> float_range name lo hi v = inr v.
Proof.
  intros H; apply float_le_within in H; apply andb_true_iff in H as [H1 H2].
  unfold float_range; rewrite H1, H2; reflexivity.
Qed.

Lemma latitude_field_accepts (v : pyfloat) :
  within (-5) 13 v -> CoordinateValidation.latitude_field v = inr v.
Proof.
  intros H; unfold CoordinateValidation.latitude_field.
  rewrite float_range_within by (apply (within_widen (-5) 13); [lia | lia | exact H]).
  simpl; unfold CoordinateValidation.validate_latitude_colombia.
  apply float_le_within in H; rewrite H; reflexivity.
Qed.

Lemma longitude_field_accepts (v : pyfloat) :
  within (-80) (-66) v -> CoordinateValidation.longitude_field v = inr v.
Proof.
  intros H; unfold CoordinateValidation.longitude_field.
  rewrite float_range_within by (apply (within_widen (-80) (-66)); [lia | lia | exact H]).
  simpl; unfold CoordinateValidation.validate_longitude_colombia.
  apply float_le_within in H; rewrite H; reflexivity.
Qed.

Lemma latitude_field_rejects (v : pyfloat) :
  ~ within (-5) 13 v -> exists e, CoordinateValidation.latitude_field v = inl e /\ loc e = "latitude".
Proof.
  intros H; unfold CoordinateValidation.latitude_field, float_range.
  destruct (float_le v (float_of_int 90)); [|eexists; split; reflexivity].
  destruct (float_le (float_of_int (-90)) v); [|eexists; split; reflexivity].
  cbn [negb and_then].
  unfold CoordinateValidation.validate_latitude_colombia.
  destruct (float_le (float_of_int (-5)) v && float_le v (float_of_int 13)) eqn:E.
  - apply float_le_within in E; contradiction.
  - simpl; eexists; split; reflexivity.
Qed.

Lemma longitude_field_rejects (v : pyfloat) :
  ~ within (-80) (-66) v -> exists e, CoordinateValidation.longitude_field v = inl e /\ loc e = "longitude".
Proof.
  intros H; unfold CoordinateValidation.longitude_field, float_range.
  destruct (float_le v (float_of_int 180)); [|eexists; split; reflexivity].
  destruct (float_le (float_of_int (-180)) v); [|eexists; split; reflexivity].
  cbn [negb and_then].
  unfold CoordinateValidation.validate_longitude_colombia.
  destruct (float_le (float_of_int (-80)) v && float_le v (float_of_int (-66))) eqn:E.
  - apply float_le_within in E; contradiction.
  - simpl; eexists; split; reflexivity.
Qed.

Lemma within_dec (lo hi : Z) (v : pyfloat) : {within lo hi v} + {~ within lo hi v}.
Proof.
  destruct (float_le (float_of_int lo) v && float_le v (float_of_int hi)) eqn:E.
  - left; apply float_le_within; exact E.
  - right; intros H; apply float_le_within in H; congruence.
Qed.

Lemma within_finite (lo hi : Z) (v : pyfloat) : within lo hi v -> finite v = true.
Proof. destruct v; simpl; tauto. Qed.

Lemma coordinates_valid (lat lon : pyfloat) :
  in_operating_box lat lon ->
  CoordinateValidation.validate (coordinates_body lat lon)
  = Valid {| CoordinateValidation.latitude := lat; CoordinateValidation.longitude := lon |}.
Proof.
  intros [Hla Hlo]; unfold coordinates_body, CoordinateValidation.validate; simpl.
  rewrite (latitude_field_accepts lat Hla), (longitude_field_accepts lon Hlo); reflexivity.
Qed.

Lemma coordinates_invalid (lat lon : pyfloat) :
  ~ in_operating_box lat lon ->
  exists errs, errs <> [] /\
    CoordinateValidation.validate (coordinates_body lat lon) = Invalid errs.
Proof.
  intros Hout.
  unfold coordinates_body, CoordinateValidation.validate; simpl.
  destruct (within_dec (-5) 13 lat) as [Hla|Hla].
  - destruct (within_dec (-80) (-66) lon) as [Hlo|Hlo].
    + exfalso; apply Hout; split; assumption.
    + destruct (longitude_field_rejects lon Hlo) as (e & He & _).
      rewrite (latitude_field_accepts lat Hla), He; simpl.
      exists [e]; split; [discriminate | reflexivity].
  - destruct (latitude_field_rejects lat Hla) as (e & He & _); rewrite He.
    destruct (CoordinateValidation.longitude_field lon) as [e2|lo]; simpl.
    + exists [e; e2]; split; [discriminate | reflexivity].
    + exists [e]; split; [discriminate | reflexivity].
Qed.

Lemma with_coordinates_reads {M A : Type} (validate : CoordinateValidation.body -> Validated M)
    (body : CoordinateValidation.body) (db : DB) (h : M -> Response A) :
  fst (with_coordinates validate body db (fun c => (db, h c))) = db.
Proof.
  unfold with_coordinates; destruct (validate body); [reflexivity|].
  destruct (json_compliant _ && json_compliant _); reflexivity.
Qed.

Lemma coordinates_accepted (settings : Config.Settings) (now : Z) (db : DB) (lat lon : pyfloat) :
  in_operating_box lat lon ->
  serve settings now db (POST_coordinates_validate (coordinates_body lat lon))
  = (db, OK 200 (Coordinates {| CoordinateResponse.latitude := lat;
                                CoordinateResponse.longitude := lon;
                                CoordinateResponse.is_valid := true;
                                CoordinateResponse.country := Config.DEFAULT_COUNTRY settings |})).
Proof.
  intros Hin; unfold serve, content2, with_coordinates.
  rewrite (coordinates_valid lat lon Hin); destruct Hin as [Hla Hlo].
  unfold validate_coordinates, CoordinateResponse.make; simpl.
  rewrite (latitude_field_accepts lat Hla), (longitude_field_accepts lon Hlo); reflexivity.
Qed.

Lemma coordinates_rejected (settings : Config.Settings) (now : Z) (db : DB) (lat lon : pyfloat)
    (errs : list FieldError) :
  CoordinateValidation.validate (coordinates_body lat lon) = Invalid errs ->
  serve settings now db (POST_coordinates_validate (coordinates_body lat lon))
  = (db, if finite lat && finite lon then RequestValidationError errs
         else ServerError (JSONValueError "Out of range float values are not JSON compliant")).
Proof.
  intros E; unfold serve, content2, with_coordinates; rewrite E; simpl.
  destruct (finite lat && finite lon); reflexivity.
Qed.

(** C4. Coordinate validation accepts a pair exactly when it lies in the
    operating box [-5 <= latitude <= 13], [-80 <= longitude <= -66]. A pair
    outside the box fails validation, be it inside the WGS84 bounds or
    outside them, and is never accepted or clamped: a pair of finite numbers
    is answered with the request validation error (422); a pair that holds
    NaN or an infinity fails validation as well, and is answered 500, the
    error's body having no JSON encoding. An accepted pair is answered with
    the same latitude and longitude, [is_valid = true] and the configured
    default country; the store is never written. *)
Theorem validate_coordinates_operating_box :
  forall (settings : Config.Settings) (now : Z) (db : DB) (lat lon : pyfloat),
    let body := coordinates_body lat lon in
    let out := serve settings now db (POST_coordinates_validate body) in
    fst out = db /\
    ((exists c, snd out = OK 200 c) <-> in_operating_box lat lon) /\
    ((exists c, CoordinateValidation.validate body = Valid c) <-> in_operating_box lat lon) /\
    (in_operating_box lat lon ->
       snd out = OK 200 (Coordinates
                           {| CoordinateResponse.latitude := lat;
                              CoordinateResponse.longitude := lon;
                              CoordinateResponse.is_valid := true;
                              CoordinateResponse.country := Config.DEFAULT_COUNTRY settings |})) /\
    (~ in_operating_box lat lon ->
       exists errs, errs <> [] /\
         CoordinateValidation.validate body = Invalid errs /\
         (finite lat = true -> finite lon = true ->
          snd out = RequestValidationError errs /\ status_of (snd out) = 422) /\
         (finite lat = false \/ finite lon = false ->
          snd out = ServerError (JSONValueError "Out of range float values are not JSON compliant")
          /\ status_of (snd out) = 500)) /\
    (in_wgs84 lat lon -> ~ in_operating_box lat lon -> status_of (snd out) = 422) /\
    (~ in_wgs84 lat lon ->
       status_of (snd out) = if finite lat && finite lon then 422 else 500).
Proof.
  intros settings now db lat lon body out.
  assert (Hin : in_operating_box lat lon ->
                out = (db, OK 200 (Coordinates
                           {| CoordinateResponse.latitude := lat;
                              CoordinateResponse.longitude := lon;
                              CoordinateResponse.is_valid := true;
                              CoordinateResponse.country := Config.DEFAULT_COUNTRY settings |})))
    by (intros H; apply coordinates_accepted; exact H).
  assert (Hout : ~ in_operating_box lat lon ->
                 exists errs, errs <> [] /\
                   CoordinateValidation.validate body = Invalid errs /\
                   out = (db, if finite lat && finite lon then RequestValidationError errs
                              else ServerError (JSONValueError
                                     "Out of range float values are not JSON compliant"))).
  { intros H; destruct (coordinates_invalid lat lon H) as (errs & Hne & E).
    exists errs; split; [exact Hne|]; split; [exact E|].
    apply coordinates_rejected; exact E. }
  assert (Hdec : in_operating_box lat lon \/ ~ in_operating_box lat lon).
  { unfold in_operating_box.
    destruct (within_dec (-5) 13 lat); destruct (within_dec (-80) (-66) lon); tauto. }
  assert (Hstatus : ~ in_operating_box lat lon ->
                    status_of (snd out) = if finite lat && finite lon then 422 else 500).
  { intros H; destruct (Hout H) as (errs & _ & _ & E); rewrite E; simpl.
    destruct (finite lat && finite lon); reflexivity. }
  split; [|split; [split|split; [split|split; [|split; [|split]]]]].
  - destruct Hdec as [H|H]; [rewrite (Hin H) | destruct (Hout H) as (? & _ & _ & E); rewrite E];
      reflexivity.
  - intros [c Hc]; destruct Hdec as [H|H]; [exact H|].
    destruct (Hout H) as (errs & _ & _ & E); rewrite E in Hc; simpl in Hc.
    destruct (finite lat && finite lon); discriminate.
  - intros H; rewrite (Hin H); eexists; reflexivity.
  - intros [c Hc]; destruct Hdec as [H|H]; [exact H|].
    destruct (coordinates_invalid lat lon H) as (errs & _ & E).
    unfold body in Hc; rewrite E in Hc; discriminate.
  - intros H; eexists; apply coordinates_valid; exact H.
  - intros H; rewrite (Hin H); reflexivity.
  - intros H; destruct (Hout H) as (errs & Hne & Ev & E).
    exists errs; split; [exact Hne|]; split; [exact Ev|]; rewrite E; simpl; split.
    + intros Fla Flo; rewrite Fla, Flo; split; reflexivity.
    + intros [F|F]; rewrite F; [|rewrite andb_false_r]; split; reflexivity.
  - intros [Hla Hlo] H; rewrite (Hstatus H).
    rewrite (within_finite _ _ _ Hla), (within_finite _ _ _ Hlo); reflexivity.
  - intros Hw; apply Hstatus; intros [Hla Hlo]; apply Hw; split.
    + apply (within_widen (-5) 13); [lia | lia | exact Hla].
    + apply (within_widen (-80) (-66)); [lia | lia | exact Hlo].
Qed.

(** The four pairs of the test-suite, and three pairs that hold no number. *)
Example validate_coordinates_examples :
  let send lat lon :=
    status_of (snd (serve Config.settings 0 setup_database
                      (POST_coordinates_validate (coordinates_body lat lon)))) in
  send (Finite (461 # 100)) (Finite (-7408 # 100)) = 200 /\
  send (Finite (4071 # 100)) (Finite (-7401 # 100)) = 422 /\
  send (Finite (100 # 1)) (Finite (-74 # 1)) = 422 /\
  send (Finite (46 # 10)) (Finite (-200 # 1)) = 422 /\
  send NaN (Finite (-74 # 1)) = 500 /\
  send PosInf (Finite (-74 # 1)) = 500 /\
  send (Finite (461 # 100)) NegInf = 500.
Proof. vm_compute. repeat split. Qed.

(* ================================================================== *)
(** * Rows and their responses *)

Lemma str_length_ok (name : string) (lo hi : nat) (v : string) :
  (lo <=? String.length v)%nat = true -> (String.length v <=? hi)%nat = true ->
  str_length name lo hi v = inr v.
Proof.
  intros H1 H2; unfold str_length.
  apply Nat.leb_le in H1, H2.
  destruct (Nat.ltb_spec (String.length v) lo); [lia|].
  destruct (Nat.ltb_spec hi (String.length v)); [lia|reflexivity].
Qed.

Lemma str_length_inr (name : string) (lo hi : nat) (v w : string) :
  str_length name lo hi v = inr w ->
  w = v /\ (lo <=? String.length v)%nat = true /\ (String.length v <=? hi)%nat = true.
Proof.
  unfold str_length.
  destruct (Nat.ltb_spec (String.length v) lo); [discriminate|].
  destruct (Nat.ltb_spec hi (String.length v)); [discriminate|].
  intros E; injection E as <-; repeat split; apply Nat.leb_le; lia.
Qed.

Lemma int_gt_inr (name : string) (lo v w : Z) :
  int_gt name lo v = inr w -> w = v /\ (lo <? v) = true.
Proof.
  unfold int_gt; destruct (lo <? v); [|discriminate].
  intros E; injection E as <-; split; reflexivity.
Qed.

Lemma color_pattern_shape (v : string) :
  color_pattern v = true -> startswith_hash v = true /\ String.length v = 7%nat.
Proof.
  unfold color_pattern, hash_then_six, startswith_hash.
  destruct v as [|c r]; [discriminate|].
  rewrite !andb_true_iff; intros [[H1 H2] _]; split; [exact H1|].
  apply Nat.eqb_eq in H2; simpl; rewrite H2; reflexivity.
Qed.

Lemma color_field_of_pattern (v : string) :
  color_pattern v = true -> ZoneBase.color_field v = inr (upper v).
Proof.
  intros H; unfold ZoneBase.color_field, ZoneBase.validate_color; rewrite H.
  destruct (color_pattern_shape v H) as [H1 H2]; rewrite H1, H2; reflexivity.
Qed.

Lemma color_field_inr (v k : string) :
  ZoneBase.color_field v = inr k -> color_pattern v = true /\ k = upper v.
Proof.
  destruct (color_pattern v) eqn:E.
  - rewrite (color_field_of_pattern v E); intros H; injection H as <-; split; reflexivity.
  - unfold ZoneBase.color_field; rewrite E; discriminate.
Qed.

Lemma city_ok_validates (c : City.t) :
  city_ok c = true -> CityResponse.model_validate c = Valid (city_view c).
Proof.
  unfold city_ok; rewrite !andb_true_iff; intros [[H1 H2] H3].
  unfold CityResponse.model_validate.
  rewrite (str_length_ok "name" 2 255 _ H1 H2), (str_length_ok "country" 0 100 _ eq_refl H3).
  reflexivity.
Qed.

Lemma zone_ok_validates (z : Zone.t) :
  zone_ok z = true -> ZoneResponse.model_validate z = Valid (zone_view z).
Proof.
  unfold zone_ok; rewrite !andb_true_iff; intros [[[H1 H2] H3] H4].
  unfold ZoneResponse.model_validate.
  rewrite (str_length_ok "name" 2 255 _ H1 H2), (color_field_of_pattern _ H4).
  unfold int_gt; rewrite H3; reflexivity.
Qed.

Lemma validate_each_map {A B : Type} (f : A -> Validated B) (g : A -> B) (l : list A) :
  (forall x, In x l -> f x = Valid (g x)) -> validate_each f l = Valid (map g l).
Proof.
  induction l as [|x r IH]; intros H; simpl; [reflexivity|].
  rewrite (H x (or_introl eq_refl)), IH; [reflexivity|].
  intros y Hy; apply H; right; exact Hy.
Qed.

Lemma forallb_In {A : Type} (p : A -> bool) (l : list A) (x : A) :
  forallb p l = true -> In x l -> p x = true.
Proof. intros H Hx; rewrite forallb_forall in H; apply H; exact Hx. Qed.

Lemma city_by_id_In (db : DB) (city_id : Z) (c : City.t) :
  city_by_id db city_id = Some c -> In c (cities db) /\ City.id c = city_id.
Proof.
  unfold city_by_id; intros H; apply find_some in H as [H1 H2].
  split; [exact H1 | apply Z.eqb_eq; exact H2].
Qed.

Lemma city_by_id_None (db : DB) (city_id : Z) :
  city_by_id db city_id = None <-> (forall c, In c (cities db) -> City.id c <> city_id).
Proof.
  unfold city_by_id; split.
  - intros H c Hc E; apply (find_none _ _ H) in Hc; apply Z.eqb_neq in Hc; contradiction.
  - intros H; destruct (find _ _) as [c|] eqn:E; [|reflexivity].
    apply find_some in E as [E1 E2]; apply Z.eqb_eq in E2; exfalso; exact (H c E1 E2).
Qed.

Lemma zone_by_id_In (db : DB) (zone_id : Z) (z : Zone.t) :
  zone_by_id db zone_id = Some z -> In z (zones db) /\ Zone.id z = zone_id.
Proof.
  unfold zone_by_id; intros H; apply find_some in H as [H1 H2].
  split; [exact H1 | apply Z.eqb_eq; exact H2].
Qed.

(** The rows [get_city_with_zones] selects. *)
Lemma active_zones_of_city (db : DB) (city_id : Z) (z : Zone.t) :
  In z (filter (fun z => (Zone.city_id z =? city_id) && Bool.eqb (Zone.is_active z) true) (zones db))
  <-> In z (zones db) /\ Zone.city_id z = city_id /\ Zone.is_active z = true.
Proof.
  rewrite filter_In, andb_true_iff, Z.eqb_eq, Bool.eqb_true_iff; tauto.
Qed.

(** C5. [GetCityWithZones] answers NotFound (404) when no city has the id.
    Otherwise, on a store whose rows the response schemas accept, it returns
    the city with exactly the zones of that city whose [is_active] is true,
    and [total_zones] is the number of zones returned: inactive zones are
    neither listed nor counted. *)
Theorem get_city_with_zones_active_only :
  forall (db : DB) (city_id : Z),
    ((forall c, In c (cities db) -> City.id c <> city_id) ->
       get_city_with_zones db city_id = city_not_found city_id /\
       status_of (get_city_with_zones db city_id) = 404) /\
    (forall city, city_by_id db city_id = Some city -> presentable db ->
       exists active,
         (forall z, In z active <->
                    In z (zones db) /\ Zone.city_id z = city_id /\ Zone.is_active z = true) /\
         active = filter (fun z => (Zone.city_id z =? city_id) && Zone.is_active z) (zones db) /\
         get_city_with_zones db city_id
         = OK 200 {| CityWithZonesResponse.city := city_view city;
                     CityWithZonesResponse.zones := map zone_view active;
                     CityWithZonesResponse.total_zones := Z.of_nat (List.length (map zone_view active)) |}).
Proof.
  intros db city_id; split.
  - intros H; apply city_by_id_None in H.
    unfold get_city_with_zones; rewrite H; split; reflexivity.
  - intros city Hc [Hcs Hzs].
    exists (filter (fun z => (Zone.city_id z =? city_id) && Bool.eqb (Zone.is_active z) true) (zones db)).
    split; [intros z; apply active_zones_of_city|].
    split.
    + apply filter_ext; intros z; destruct (Zone.is_active z); reflexivity.
    + unfold get_city_with_zones; rewrite Hc.
      rewrite (validate_each_map ZoneResponse.model_validate zone_view).
      * rewrite (city_ok_validates city).
        -- rewrite length_map; reflexivity.
        -- apply (forallb_In _ _ _ Hcs); apply (city_by_id_In db city_id); exact Hc.
      * intros z Hz; apply zone_ok_validates; apply (forallb_In _ _ _ Hzs).
        apply filter_In in Hz; tauto.
Qed.

Lemma with_inactive_zone_presentable : presentable with_inactive_zone.
Proof. split; reflexivity. Defined.

Lemma get_city_with_zones_three_of_four :
  List.length (zones with_inactive_zone) = 4%nat /\
  exists r, get_city_with_zones with_inactive_zone 1 = OK 200 r /\
            CityWithZonesResponse.total_zones r = 3 /\
            List.length (CityWithZonesResponse.zones r) = 3%nat.
Proof.
  split; [reflexivity|].
  destruct (get_city_with_zones_active_only with_inactive_zone 1) as [_ H].
  destruct (H (city_row 1 "Bogota") eq_refl with_inactive_zone_presentable)
    as (active & _ & Hactive & Hget).
  eexists; split; [exact Hget|].
  rewrite Hactive; split; reflexivity.
Defined.

(* ================================================================== *)
(** * Pagination *)

Lemma In_firstn {A : Type} (n : nat) (l : list A) (x : A) : In x (firstn n l) -> In x l.
Proof.
  revert l; induction n as [|n IH]; intros [|y r]; simpl; try tauto.
  intros [H|H]; [left; exact H | right; apply IH; exact H].
Qed.

Lemma In_skipn {A : Type} (n : nat) (l : list A) (x : A) : In x (skipn n l) -> In x l.
Proof.
  revert l; induction n as [|n IH]; intros [|y r]; simpl; try tauto.
  intros H; right; apply IH; exact H.
Qed.

Lemma In_skip_take {A : Type} (skip limit : Z) (rows : list A) (x : A) :
  In x (skip_take skip limit rows) -> In x rows.
Proof. unfold skip_take; intros H; apply In_firstn, In_skipn in H; exact H. Qed.

Lemma length_skip_take {A : Type} (skip limit : Z) (rows : list A) :
  List.length (skip_take skip limit rows)
  = Nat.min (Z.to_nat limit) (List.length rows - Z.to_nat skip).
Proof. unfold skip_take; rewrite length_firstn, length_skipn; reflexivity. Qed.

Lemma offset_limit_in_range {A : Type} (skip limit : Z) (rows : list A) :
  skip <= bigint_max -> limit <= bigint_max ->
  offset_limit skip limit rows = inr (skip_take skip limit rows).
Proof.
  intros Hs Hl; unfold offset_limit.
  destruct (Z.ltb_spec bigint_max skip); [lia|].
  destruct (Z.ltb_spec bigint_max limit); [lia | reflexivity].
Qed.

Lemma offset_limit_overflow {A : Type} (skip limit : Z) (rows : list A) :
  bigint_max < skip ->
  offset_limit skip limit rows = inl (NumericValueOutOfRange "OFFSET").
Proof.
  intros Hs; unfold offset_limit.
  destruct (Z.ltb_spec bigint_max skip); [reflexivity | lia].
Qed.

Lemma offset_limit_rows {A : Type} (skip limit : Z) (rows page : list A) :
  offset_limit skip limit rows = inr page ->
  page = skip_take skip limit rows /\ skip <= bigint_max.
Proof.
  unfold offset_limit.
  destruct (Z.ltb_spec bigint_max skip); [discriminate|].
  destruct (bigint_max <? limit); [discriminate|].
  intros E; injection E as <-; split; [reflexivity | assumption].
Qed.

Lemma In_filter_opt {A B : Type} (o : option B) (p : B -> A -> bool) (rows : list A) (x : A) :
  In x (filter_opt o p rows) -> In x rows.
Proof.
  destruct o as [b|]; simpl; [|tauto]; intros H; apply filter_In in H; tauto.
Qed.

Lemma In_zones_join_cities (db : DB) (z : Zone.t) (c : City.t) :
  In (z, c) (zones_join_cities db) <->
  In z (zones db) /\ In c (cities db) /\ Zone.city_id z = City.id c.
Proof.
  unfold zones_join_cities; rewrite in_flat_map; split.
  - intros (z' & Hz & H); apply in_map_iff in H as (c' & E & Hc).
    injection E as -> ->; apply filter_In in Hc as [Hc E]; apply Z.eqb_eq in E; tauto.
  - intros (Hz & Hc & E); exists z; split; [exact Hz|].
    apply in_map, filter_In; split; [exact Hc | apply Z.eqb_eq; exact E].
Qed.

Lemma Query_in_range (name : string) (default lo hi : Z) (p : option Z) :
  lo <= param default p <= hi -> Query name default lo (Some hi) p = inr (param default p).
Proof.
  intros H; destruct p as [v|]; simpl in *; [|reflexivity].
  destruct (Z.ltb_spec v lo); [lia|]; destruct (Z.ltb_spec hi v); [lia|reflexivity].
Qed.

Lemma Query_at_least (name : string) (default lo : Z) (p : option Z) :
  lo <= param default p -> Query name default lo None p = inr (param default p).
Proof.
  intros H; destruct p as [v|]; simpl in *; [|reflexivity].
  destruct (Z.ltb_spec v lo); [lia|reflexivity].
Qed.

Lemma Query_skip_rejects (p : option Z) :
  param 0 p < 0 -> exists e, Query "skip" 0 0 None p = inl e.
Proof.
  destruct p as [v|]; simpl; [|lia]; intros H.
  destruct (Z.ltb_spec v 0); [eexists; reflexivity | lia].
Qed.

Lemma Query_limit_rejects (p : option Z) :
  param 100 p < 1 \/ 1000 < param 100 p -> exists e, Query "limit" 100 1 (Some 1000) p = inl e.
Proof.
  destruct p as [v|]; simpl; [|lia]; intros H.
  destruct (Z.ltb_spec v 1); [eexists; reflexivity|].
  destruct (Z.ltb_spec 1000 v); [eexists; reflexivity | lia].
Qed.

Lemma pagination_rejected {A : Type} (skip limit : option Z)
    (k : Z -> Z -> Response A) :
  param 0 skip < 0 \/ param 100 limit < 1 \/ 1000 < param 100 limit ->
  status_of
    match Query "skip" 0 0 None skip, Query "limit" 100 1 (Some 1000) limit with
    | inr s, inr l => k s l
    | rs, rl => RequestValidationError (errors_of rs ++ errors_of rl)
    end = 422.
Proof.
  intros [H|H].
  - destruct (Query_skip_rejects skip H) as [e ->]; reflexivity.
  - destruct (Query_limit_rejects limit H) as [e ->].
    destruct (Query "skip" 0 0 None skip); reflexivity.
Qed.

(** C8. [ListCities] and [ListZones] take [skip >= 0] and [1 <= limit <= 1000],
    with [skip = 0] and [limit = 100] when the parameter is absent. A request
    with [skip < 0] or [limit] outside [1, 1000] is rejected as malformed
    (422). A request in range whose [skip] the store can take as an offset
    ([skip <= bigint_max]), on a store whose rows the response schemas
    accept, returns the selected rows after the first [skip], at most [limit]
    of them. A larger [skip] passes the bound [ge=0], the store refuses the
    offset, and the request is answered 500. *)
Theorem list_pagination :
  forall (db : DB) (city_id : option Z) (skip limit : option Z) (is_active : option bool),
    let s := param 0 skip in
    let l := param 100 limit in
    (s < 0 \/ l < 1 \/ 1000 < l ->
       status_of (get_cities db skip limit is_active) = 422 /\
       status_of (get_zones db city_id skip limit is_active) = 422) /\
    (0 <= s <= bigint_max -> 1 <= l <= 1000 -> presentable db ->
       let cs := firstn (Z.to_nat l) (skipn (Z.to_nat s) (cities_selected db is_active)) in
       let zs := firstn (Z.to_nat l) (skipn (Z.to_nat s) (zones_selected db city_id is_active)) in
       get_cities db skip limit is_active = OK 200 (map city_view cs) /\
       get_zones db city_id skip limit is_active = OK 200 (map zone_city_view zs) /\
       (Z.of_nat (List.length (map city_view cs)) <= l) /\
       (Z.of_nat (List.length (map zone_city_view zs)) <= l) /\
       List.length (map city_view cs)
       = Nat.min (Z.to_nat l) (List.length (cities_selected db is_active) - Z.to_nat s)) /\
    (bigint_max < s -> 1 <= l <= 1000 ->
       get_cities db skip limit is_active
       = ServerError (DBDataError (NumericValueOutOfRange "OFFSET")) /\
       get_zones db city_id skip limit is_active
       = ServerError (DBDataError (NumericValueOutOfRange "OFFSET")) /\
       status_of (get_cities db skip limit is_active) = 500 /\
       status_of (get_zones db city_id skip limit is_active) = 500).
Proof.
  intros db city_id skip limit is_active s l; split; [|split].
  - intros H; split; [unfold get_cities | unfold get_zones]; apply pagination_rejected; exact H.
  - intros [Hs Hmax] Hl [Hcs Hzs] cs zs.
    assert (Ecs : cs = skip_take s l (filter_opt is_active (fun a c => Bool.eqb (City.is_active c) a) (cities db)))
      by (destruct is_active; reflexivity).
    assert (Ezs : zs = skip_take s l
                     (filter_opt is_active (fun a zc => Bool.eqb (Zone.is_active (fst zc)) a)
                        (filter_opt city_id (fun i zc => Zone.city_id (fst zc) =? i)
                           (zones_join_cities db))))
      by (destruct is_active, city_id; reflexivity).
    split; [|split; [|split; [|split]]].
    + unfold get_cities.
      rewrite (Query_at_least "skip" 0 0 skip Hs), (Query_in_range "limit" 100 1 1000 limit Hl).
      fold s l; rewrite offset_limit_in_range by (unfold bigint_max in *; lia).
      rewrite <- Ecs.
      rewrite (validate_each_map CityResponse.model_validate city_view); [reflexivity|].
      intros c Hc; apply city_ok_validates, (forallb_In _ _ _ Hcs).
      rewrite Ecs in Hc; apply In_skip_take, In_filter_opt in Hc; exact Hc.
    + unfold get_zones.
      rewrite (Query_at_least "skip" 0 0 skip Hs), (Query_in_range "limit" 100 1 1000 limit Hl).
      fold s l; rewrite offset_limit_in_range by (unfold bigint_max in *; lia).
      rewrite <- Ezs.
      rewrite (validate_each_map _ zone_city_view); [reflexivity|].
      intros [z c] Hzc; unfold ZoneWithCityResponse.make; simpl.
      rewrite zone_ok_validates; [reflexivity|].
      apply (forallb_In _ _ _ Hzs).
      rewrite Ezs in Hzc; apply In_skip_take, In_filter_opt, In_filter_opt in Hzc.
      apply In_zones_join_cities in Hzc; tauto.
    + rewrite length_map; unfold cs; rewrite length_firstn; lia.
    + rewrite length_map; unfold zs; rewrite length_firstn; lia.
    + rewrite length_map; unfold cs; rewrite length_firstn, length_skipn; reflexivity.
  - intros Hs Hl.
    assert (Hs0 : 0 <= s) by (unfold bigint_max in Hs; lia).
    assert (Ec : get_cities db skip limit is_active
                 = ServerError (DBDataError (NumericValueOutOfRange "OFFSET"))).
    { unfold get_cities.
      rewrite (Query_at_least "skip" 0 0 skip Hs0), (Query_in_range "limit" 100 1 1000 limit Hl).
      fold s l; rewrite offset_limit_overflow by exact Hs; reflexivity. }
    assert (Ez : get_zones db city_id skip limit is_active
                 = ServerError (DBDataError (NumericValueOutOfRange "OFFSET"))).
    { unfold get_zones.
      rewrite (Query_at_least "skip" 0 0 skip Hs0), (Query_in_range "limit" 100 1 1000 limit Hl).
      fold s l; rewrite offset_limit_overflow by exact Hs; reflexivity. }
    rewrite Ec, Ez; repeat split.
Qed.

Lemma setup_database_presentable : presentable setup_database.
Proof. split; reflexivity. Defined.

Lemma list_pagination_limit_one :
  List.length (cities setup_database) = 2%nat /\
  (exists r, get_cities setup_database (Some 0) (Some 1) None = OK 200 r /\
             List.length r = 1%nat) /\
  status_of (get_cities setup_database (Some 0) (Some 0) None) = 422 /\
  status_of (get_cities setup_database (Some 0) (Some 1001) None) = 422 /\
  status_of (get_zones setup_database None (Some (-1)) None None) = 422 /\
  status_of (get_zones setup_database None (Some (bigint_max + 1)) None None) = 500.
Proof.
  split; [reflexivity|].
  split.
  - destruct (list_pagination setup_database None (Some 0) (Some 1) None) as [_ [H _]].
    destruct (H ltac:(unfold bigint_max; simpl; lia) ltac:(simpl; lia)
                setup_database_presentable)
      as (Hget & _ & _ & _ & Hlen).
    eexists; split; [exact Hget | exact Hlen].
  - split; [|split; [|split]].
    + apply (list_pagination setup_database None (Some 0) (Some 0) None); simpl; lia.
    + apply (list_pagination setup_database None (Some 0) (Some 1001) None); simpl; lia.
    + apply (list_pagination setup_database None (Some (-1)) None None); simpl; lia.
    + apply (list_pagination setup_database None (Some (bigint_max + 1)) None None);
        unfold bigint_max; simpl; lia.
Defined.

(** C8 as stated fails for a [skip] that the store cannot take. The request
    [GET /cities?skip=9223372036854775808&limit=1] is in range ([skip >= 0],
    [1 <= limit <= 1000]) on a store of two cities whose rows the response
    schema accepts; it is not answered with a page of at most one city, nor
    rejected as malformed input (422): the store refuses the offset and the
    answer is 500. The same holds for [GET /zones]. *)
Lemma list_pagination_skip_beyond_bigint :
  let skip := 9223372036854775808 in
  let cities_page := get_cities setup_database (Some skip) (Some 1) None in
  let zones_page := get_zones setup_database None (Some skip) (Some 1) None in
  0 <= skip /\
  Query "skip" 0 0 None (Some skip) = inr skip /\
  presentable setup_database /\
  List.length (cities setup_database) = 2%nat /\
  cities_page = ServerError (DBDataError (NumericValueOutOfRange "OFFSET")) /\
  zones_page = ServerError (DBDataError (NumericValueOutOfRange "OFFSET")) /\
  status_of cities_page = 500 /\
  status_of zones_page = 500 /\
  (forall rows, cities_page <> OK 200 rows) /\
  (forall rows, zones_page <> OK 200 rows).
Proof. vm_compute; repeat split; discriminate. Qed.

(* ================================================================== *)
(** * Explicit [null] in an update *)

Lemma setattr_keeps_null_name (items : list CityItems.item) (c : City.instance) :
  (forall v, ~ In (CityItems.name v) items) ->
  City.i_name (fold_left CityItems.setattr items c) = City.i_name c.
Proof.
  revert c; induction items as [|it r IH]; intros c H; simpl; [reflexivity|].
  rewrite IH by (intros v Hv; apply (H v); right; exact Hv).
  destruct it as [v|v|v]; simpl; try reflexivity.
  exfalso; apply (H v); left; reflexivity.
Qed.

Lemma dump_country_active_no_name (k : field string) (a : field bool) (v : option string) :
  ~ In (CityItems.name v)
       (dump_field CityItems.country k ++ dump_field CityItems.is_active a).
Proof.
  intros H; apply in_app_or in H as [H|H]; [destruct k | destruct a]; simpl in H;
    intuition discriminate.
Qed.

(** C9. The update schemas accept an explicit [null]: a city update that
    carries ["name": null] passes validation whenever the rest of the payload
    does. [update_city] then assigns that [null] to the loaded row's [name]
    (an absent [name] is not assigned at all), and the write reaches the
    store, whose NOT NULL constraint on [cities.name] raises: the request is
    not rejected by validation (422) but fails in the store. *)
Theorem explicit_null_reaches_store :
  forall (settings : Config.Settings) (now : Z) (db : DB) (city_id : Z) (city : City.t)
         (k : field string) (a : field bool),
    city_by_id db city_id = Some city ->
    CityUpdate.validate
      {| CityUpdate.name := Unset; CityUpdate.country := k; CityUpdate.is_active := a |}
    = Valid {| CityUpdate.name := Unset; CityUpdate.country := k; CityUpdate.is_active := a |} ->
    let absent := {| CityUpdate.name := Unset; CityUpdate.country := k; CityUpdate.is_active := a |} in
    let null := {| CityUpdate.name := Null; CityUpdate.country := k; CityUpdate.is_active := a |} in
    CityUpdate.validate null = Valid null /\
    In (CityItems.name None) (CityItems.model_dump_exclude_unset null) /\
    City.i_name (fold_left CityItems.setattr (CityItems.model_dump_exclude_unset null)
                   (City.load city)) = None /\
    City.i_name (fold_left CityItems.setattr (CityItems.model_dump_exclude_unset absent)
                   (City.load city)) = Some (City.name city) /\
    serve settings now db (PUT_city city_id null)
    = (db, ServerError (DBIntegrityError (NotNullViolation "cities" "name"))) /\
    ZoneUpdate.validate
      {| ZoneUpdate.name := Null; ZoneUpdate.city_id := Null; ZoneUpdate.color := Null;
         ZoneUpdate.description := Null; ZoneUpdate.is_active := Null |}
    = Valid {| ZoneUpdate.name := Null; ZoneUpdate.city_id := Null; ZoneUpdate.color := Null;
               ZoneUpdate.description := Null; ZoneUpdate.is_active := Null |}.
Proof.
  intros settings now db city_id city k a Hcity Hrest absent null.
  assert (Hvalid : CityUpdate.validate null = Valid null).
  { unfold CityUpdate.validate in *; simpl in *.
    destruct (optional (str_length "country" 0 100) k) as [e|k'];
      destruct (optional no_check a) as [e'|a']; try discriminate.
    injection Hrest as -> ->; reflexivity. }
  assert (Hnone : City.i_name (fold_left CityItems.setattr
                                 (CityItems.model_dump_exclude_unset null) (City.load city)) = None).
  { unfold CityItems.model_dump_exclude_unset; simpl.
    rewrite setattr_keeps_null_name; [reflexivity|].
    intros v; apply dump_country_active_no_name. }
  split; [exact Hvalid|].
  split; [left; reflexivity|].
  split; [exact Hnone|].
  split.
  - unfold CityItems.model_dump_exclude_unset; simpl.
    rewrite setattr_keeps_null_name; [reflexivity|].
    intros v; apply dump_country_active_no_name.
  - split; [|reflexivity].
    unfold serve, content2, with_body; rewrite Hvalid.
    unfold update_city; rewrite Hcity.
    unfold update_city_row; rewrite Hnone; reflexivity.
Qed.

Lemma explicit_null_reaches_store_bogota :
  CityUpdate.validate {| CityUpdate.name := Null; CityUpdate.country := Unset;
                         CityUpdate.is_active := Unset |}
  = Valid {| CityUpdate.name := Null; CityUpdate.country := Unset; CityUpdate.is_active := Unset |} /\
  serve Config.settings 5 setup_database
        (PUT_city 1 {| CityUpdate.name := Null; CityUpdate.country := Unset;
                       CityUpdate.is_active := Unset |})
  = (setup_database, ServerError (DBIntegrityError (NotNullViolation "cities" "name"))).
Proof.
  destruct (explicit_null_reaches_store Config.settings 5 setup_database 1
              (city_row 1 "Bogota") Unset Unset eq_refl eq_refl)
    as (Hvalid & _ & _ & _ & Hserve & _).
  split; [exact Hvalid | exact Hserve].
Defined.

(* ================================================================== *)
(** * Partial update of a city *)

Ltac conj_split := match goal with |- _ /\ _ => split end.

Lemma city_instance_after (b : CityUpdate.t) (c : City.t) :
  fold_left CityItems.setattr (CityItems.model_dump_exclude_unset b) (City.load c)
  = {| City.i_name := assigned (CityUpdate.name b) (City.name c);
       City.i_country := assigned (CityUpdate.country b) (City.country c);
       City.i_is_active := assigned (CityUpdate.is_active b) (City.is_active c) |}.
Proof.
  destruct b as [[| |n] [| |k] [| |a]]; reflexivity.
Qed.

Lemma find_replaced (i : Z) (old row : City.t) (l : list City.t) :
  find (fun c => City.id c =? i) l = Some old -> City.id row = City.id old ->
  find (fun c => City.id c =? i)
       (map (fun c => if City.id c =? City.id old then row else c) l) = Some row.
Proof.
  intros Hfind Hid.
  assert (Hi : City.id old = i) by (apply find_some in Hfind as [_ H]; apply Z.eqb_eq; exact H).
  induction l as [|c r IH]; simpl in *; [discriminate|].
  destruct (City.id c =? i) eqn:E.
  - injection Hfind as ->. rewrite Z.eqb_refl. rewrite Hid, E. reflexivity.
  - rewrite <- Hi in E. rewrite E. rewrite Hi in E. rewrite E. apply IH; exact Hfind.
Qed.

Lemma update_city_row_cases (now : Z) (old : City.t) (i : City.instance) (db : DB) :
  (exists e, update_city_row now old i db = inl e) \/
  (update_city_row now old i db = inr (db, old) /\
   City.i_name i = Some (City.name old) /\ City.i_country i = Some (City.country old) /\
   City.i_is_active i = Some (City.is_active old)) \/
  (exists n k a,
     City.i_name i = Some n /\ City.i_country i = Some k /\ City.i_is_active i = Some a /\
     let row := {| City.id := City.id old; City.name := n; City.country := k;
                   City.is_active := a; City.created_at := City.created_at old;
                   City.updated_at := now |} in
     update_city_row now old i db
     = inr ({| cities := map (fun c => if City.id c =? City.id old then row else c) (cities db);
               zones := zones db;
               cities_id_seq := cities_id_seq db; zones_id_seq := zones_id_seq db |}, row)).
Proof.
  unfold update_city_row.
  destruct i as [[n|] [k|] [a|]]; simpl; try (left; eexists; reflexivity).
  destruct (String.eqb n (City.name old) && String.eqb k (City.country old)
            && Bool.eqb a (City.is_active old)) eqn:E.
  - right; left. apply andb_true_iff in E as [E Ha]; apply andb_true_iff in E as [Hn Hk].
    apply String.eqb_eq in Hn, Hk; apply Bool.eqb_prop in Ha; subst; repeat split.
  - destruct (negb (String.eqb n (City.name old)) && _); [left; eexists; reflexivity|].
    right; right; exists n, k, a; repeat split.
Qed.

Lemma update_city_row_accepts (now : Z) (old : City.t) (n k : string) (a : bool) (db : DB) :
  (n = City.name old \/
   forall c, In c (cities db) -> City.name c = n -> City.id c = City.id old) ->
  exists r, update_city_row now old
              {| City.i_name := Some n; City.i_country := Some k; City.i_is_active := Some a |} db
            = inr r.
Proof.
  intros H; unfold update_city_row; simpl.
  destruct (String.eqb n (City.name old) && String.eqb k (City.country old)
            && Bool.eqb a (City.is_active old)); [eexists; reflexivity|].
  destruct H as [->|H]; [rewrite String.eqb_refl; eexists; reflexivity|].
  destruct (existsb (fun c => negb (City.id c =? City.id old) && String.eqb (City.name c) n)
              (cities db)) eqn:E.
  - apply existsb_exists in E as (c & Hc & E); apply andb_true_iff in E as [E1 E2].
    apply String.eqb_eq in E2; apply negb_true_iff, Z.eqb_neq in E1.
    exfalso; apply E1, H; assumption.
  - rewrite andb_false_r; eexists; reflexivity.
Qed.

Lemma assigned_not_null {A : Type} (f : field A) (old : A) :
  f <> Null ->
  exists v, assigned f old = Some v /\ (v = old \/ f = Value v).
Proof.
  destruct f as [| |v]; intros H; [exists old | contradiction | exists v]; split;
    try reflexivity; [left | right]; reflexivity.
Qed.

(** C7, as the code has it. For every [UpdateCity] call on an existing city,
    every field absent from the payload keeps its stored value, and [id] and
    [created_at] are kept. When the store accepts the write, every field
    present in the payload holds the supplied value afterwards; the store
    accepts whenever no supplied field is [null] and a supplied name is not
    the name of another city. When the store raises instead, the row and the
    whole store are left as they were. An empty payload leaves the row as it
    was. *)
Theorem update_city_partial :
  forall (now : Z) (db : DB) (city_id : Z) (city : City.t) (b : CityUpdate.t),
    city_by_id db city_id = Some city ->
    let out := update_city now db city_id b in
    exists city',
      city_by_id (fst out) city_id = Some city' /\
      City.id city' = City.id city /\
      City.created_at city' = City.created_at city /\
      (CityUpdate.name b = Unset -> City.name city' = City.name city) /\
      (CityUpdate.country b = Unset -> City.country city' = City.country city) /\
      (CityUpdate.is_active b = Unset -> City.is_active city' = City.is_active city) /\
      ((forall e, snd out <> ServerError (DBIntegrityError e)) ->
         (forall v, CityUpdate.name b = Value v -> City.name city' = v) /\
         (forall v, CityUpdate.country b = Value v -> City.country city' = v) /\
         (forall v, CityUpdate.is_active b = Value v -> City.is_active city' = v)) /\
      ((exists e, snd out = ServerError (DBIntegrityError e)) -> fst out = db /\ city' = city) /\
      (CityUpdate.name b <> Null -> CityUpdate.country b <> Null ->
       CityUpdate.is_active b <> Null ->
       (forall v c, CityUpdate.name b = Value v -> In c (cities db) -> City.name c = v ->
                    City.id c = City.id city) ->
       forall e, snd out <> ServerError (DBIntegrityError e)) /\
      (b = empty_city_update -> fst out = db /\ city' = city).
Proof.
  intros now db city_id city b Hcity out; subst out.
  unfold update_city; rewrite Hcity, city_instance_after.
  destruct (update_city_row_cases now city
              {| City.i_name := assigned (CityUpdate.name b) (City.name city);
                 City.i_country := assigned (CityUpdate.country b) (City.country city);
                 City.i_is_active := assigned (CityUpdate.is_active b) (City.is_active city) |} db)
    as [[e He] | [(He & Hn & Hk & Ha) | (n & k & a & Hn & Hk & Ha & He)]];
    try (simpl in Hn, Hk, Ha); pose proof He as He'; rewrite He; simpl.
  - (* the store raises *)
    exists city; repeat conj_split; try reflexivity; try exact Hcity;
      try (intros H; exfalso; exact (H e eq_refl));
      try (intros _; split; reflexivity).
    intros Hn Hk Ha Hfree.
    destruct (assigned_not_null _ (City.name city) Hn) as (n & En & Hnv).
    destruct (assigned_not_null _ (City.country city) Hk) as (k & Ek & _).
    destruct (assigned_not_null _ (City.is_active city) Ha) as (a & Ea & _).
    rewrite En, Ek, Ea in He.
    destruct (update_city_row_accepts now city n k a db) as [r Hr]; [|congruence].
    destruct Hnv as [->|Hv]; [left; reflexivity | right].
    intros c Hc Hname; exact (Hfree n c Hv Hc Hname).
  - (* no attribute changed *)
    exists city; repeat conj_split; try reflexivity; try exact Hcity.
    + intros _; repeat conj_split; intros v E.
      * rewrite E in Hn; injection Hn as ->; reflexivity.
      * rewrite E in Hk; injection Hk as ->; reflexivity.
      * rewrite E in Ha; injection Ha as ->; reflexivity.
    + intros _; split; reflexivity.
    + intros _ _ _ _ e; destruct (CityResponse.model_validate _); discriminate.
    + intros _; split; reflexivity.
  - (* the row is written *)
    eexists; split; [apply (find_replaced city_id city _ (cities db) Hcity); reflexivity|].
    simpl; repeat conj_split; try reflexivity.
    + intros E; rewrite E in Hn; injection Hn as <-; reflexivity.
    + intros E; rewrite E in Hk; injection Hk as <-; reflexivity.
    + intros E; rewrite E in Ha; injection Ha as <-; reflexivity.
    + intros _; repeat conj_split; intros v E.
      * rewrite E in Hn; injection Hn as <-; reflexivity.
      * rewrite E in Hk; injection Hk as <-; reflexivity.
      * rewrite E in Ha; injection Ha as <-; reflexivity.
    + intros [e H]; destruct (CityResponse.model_validate _); discriminate.
    + intros _ _ _ _ e; destruct (CityResponse.model_validate _); discriminate.
    + intros ->; simpl in Hn, Hk, Ha; injection Hn as <-; injection Hk as <-; injection Ha as <-.
      unfold update_city_row in He'; simpl in He'.
      rewrite !String.eqb_refl, Bool.eqb_reflx in He'; simpl in He'.
      injection He' as E1 E2; rewrite <- E1, <- E2; split; reflexivity.
Qed.

Lemma update_city_partial_rename :
  exists city',
    city_by_id (fst (update_city 5 setup_database 1
                       {| CityUpdate.name := Value "Cali"; CityUpdate.country := Unset;
                          CityUpdate.is_active := Unset |})) 1 = Some city' /\
    City.name city' = "Cali" /\ City.country city' = "Colombia".
Proof.
  destruct (update_city_partial 5 setup_database 1 (city_row 1 "Bogota")
              {| CityUpdate.name := Value "Cali"; CityUpdate.country := Unset;
                 CityUpdate.is_active := Unset |} eq_refl)
    as (city' & Hfind & _ & _ & _ & Hcountry & _ & Hwritten & _).
  exists city'; split; [exact Hfind|]; split.
  - apply Hwritten; [intros e; discriminate | reflexivity].
  - apply Hcountry; reflexivity.
Defined.

(** C7 as stated fails where the store refuses the write: the payload
    carries a name, the city exists, and the stored name is not overwritten,
    because another city holds that name and [cities.name] is unique. *)
Lemma update_city_present_name_not_written :
  let b := {| CityUpdate.name := Value "Medellin"; CityUpdate.country := Unset;
              CityUpdate.is_active := Unset |} in
  let out := serve Config.settings 5 setup_database (PUT_city 1 b) in
  CityUpdate.validate b = Valid b /\
  city_by_id setup_database 1 = Some (city_row 1 "Bogota") /\
  snd out = ServerError (DBIntegrityError (UniqueViolation "ix_cities_name")) /\
  option_map City.name (city_by_id (fst out) 1) = Some "Bogota" /\
  option_map City.name (city_by_id (fst out) 1) <> Some "Medellin".
Proof. vm_compute; repeat split; discriminate. Qed.

(* ================================================================== *)
(** * Creating a city *)

Lemma city_by_name_Some (db : DB) (name : string) :
  (exists c, In c (cities db) /\ City.name c = name) -> exists c, city_by_name db name = Some c.
Proof.
  intros (c & Hc & E); unfold city_by_name.
  destruct (find _ _) as [c'|] eqn:F; [exists c'; reflexivity|].
  apply (find_none _ _ F) in Hc; apply String.eqb_neq in Hc; contradiction.
Qed.

Lemma city_by_name_None (db : DB) (name : string) :
  (forall c, In c (cities db) -> City.name c <> name) -> city_by_name db name = None.
Proof.
  intros H; unfold city_by_name; destruct (find _ _) as [c|] eqn:F; [|reflexivity].
  apply find_some in F as [F1 F2]; apply String.eqb_eq in F2; exfalso; exact (H c F1 F2).
Qed.

Lemma existsb_name (db : DB) (name : string) :
  existsb (fun c => String.eqb (City.name c) name) (cities db) = true
  <-> exists c, In c (cities db) /\ City.name c = name.
Proof.
  rewrite existsb_exists; split; intros (c & Hc & E); exists c; split; try exact Hc;
    apply String.eqb_eq; exact E.
Qed.

Lemma next_city_id_free (db : DB) :
  sequences_ahead db ->
  existsb (fun c => City.id c =? cities_id_seq db + 1) (cities db) = false.
Proof.
  intros [H _]; destruct (existsb _ _) eqn:E; [|reflexivity].
  apply existsb_exists in E as (c & Hc & E); apply Z.eqb_eq in E.
  specialize (H c Hc); lia.
Qed.

Lemma CityCreate_valid (body : CityCreate.body) (data : CityCreate.t) :
  CityCreate.validate body = Valid data ->
  (2 <=? String.length (CityCreate.name data))%nat = true /\
  (String.length (CityCreate.name data) <=? 255)%nat = true /\
  (String.length (CityCreate.country data) <=? 100)%nat = true.
Proof.
  unfold CityCreate.validate.
  destruct (and_then _ _) as [e|n] eqn:En;
    destruct (with_default _ _ _ _ _) as [e'|k] eqn:Ek; try discriminate.
  intros H; injection H as <-; simpl.
  destruct (CityCreate.b_name body) as [| |n']; simpl in En; try discriminate.
  apply str_length_inr in En as (-> & H1 & H2).
  destruct (CityCreate.b_country body) as [| |k']; simpl in Ek; try discriminate.
  - injection Ek as <-; repeat split; assumption || reflexivity.
  - apply str_length_inr in Ek as (-> & _ & H3); repeat split; assumption.
Qed.

Lemma NoDup_names_snoc (l : list City.t) (row : City.t) :
  NoDup (map City.name l) -> (forall c, In c l -> City.name c <> City.name row) ->
  NoDup (map City.name (l ++ [row])).
Proof.
  intros Hnd Hnew; rewrite map_app; simpl.
  apply NoDup_app; [exact Hnd | repeat constructor; simpl; tauto |].
  intros n Hn [<-|[]]; apply in_map_iff in Hn as (c & E & Hc); exact (Hnew c Hc E).
Qed.

(** C6, as the code has it. [CreateCity] on a validated payload answers
    Conflict (400) and leaves the store alone whenever its look-up finds a
    city with the same name. When the look-up finds none and none exists when
    the row is inserted, the row is appended with the next [id], the server's
    time in [created_at] and [updated_at], and is returned (201). When the
    look-up finds none but a city with that name has been committed by the
    time of the insert, the store's unique index raises: no duplicate is
    stored, and the handler, which does not catch the error, answers with the
    unhandled integrity error instead of Conflict. City names stay unique in
    every case. [others] is what other requests commit between the look-up
    and the insert; a request served alone has [others] the identity. *)
Theorem create_city_conflict_or_insert :
  forall (others : DB -> DB) (now : Z) (db : DB) (body : CityCreate.body) (data : CityCreate.t),
    CityCreate.validate body = Valid data ->
    sequences_ahead (others db) ->
    let name := CityCreate.name data in
    let out := create_city_among others now db data in
    ((exists c, In c (cities db) /\ City.name c = name) ->
       out = (db, HTTPException 400 ("La ciudad '" ++ name ++ "' ya existe"))) /\
    ((forall c, In c (cities db) -> City.name c <> name) ->
       ((exists c, In c (cities (others db)) /\ City.name c = name) ->
          out = (others db, ServerError (DBIntegrityError (UniqueViolation "ix_cities_name")))) /\
       ((forall c, In c (cities (others db)) -> City.name c <> name) ->
          let row := {| City.id := cities_id_seq (others db) + 1; City.name := name;
                        City.country := CityCreate.country data; City.is_active := true;
                        City.created_at := now; City.updated_at := now |} in
          cities (fst out) = cities (others db) ++ [row] /\
          zones (fst out) = zones (others db) /\
          snd out = OK 201 (city_view row))) /\
    (city_names_unique db -> city_names_unique (others db) -> city_names_unique (fst out)) /\
    (forall settings,
       serve settings now db (POST_cities body)
       = (fst (create_city now db data), content CityOne (snd (create_city now db data)))).
Proof.
  intros others now db body data Hvalid Hseq name out.
  destruct (CityCreate_valid body data Hvalid) as (L1 & L2 & L3).
  assert (Hins : forall d, sequences_ahead d ->
            (exists c, In c (cities d) /\ City.name c = name) ->
            create_city_commit now d data
            = (d, ServerError (DBIntegrityError (UniqueViolation "ix_cities_name")))).
  { intros d Hd Hdup; unfold create_city_commit, insert_city.
    rewrite (next_city_id_free d Hd).
    apply existsb_name in Hdup; fold name; rewrite Hdup; reflexivity. }
  assert (Hnew : forall d, sequences_ahead d ->
            (forall c, In c (cities d) -> City.name c <> name) ->
            let row := {| City.id := cities_id_seq d + 1; City.name := name;
                          City.country := CityCreate.country data; City.is_active := true;
                          City.created_at := now; City.updated_at := now |} in
            create_city_commit now d data
            = ({| cities := cities d ++ [row]; zones := zones d;
                  cities_id_seq := cities_id_seq d + 1; zones_id_seq := zones_id_seq d |},
               OK 201 (city_view row))).
  { intros d Hd Hfree row; unfold create_city_commit, insert_city.
    rewrite (next_city_id_free d Hd).
    destruct (existsb (fun c => String.eqb (City.name c) (CityCreate.name data)) (cities d)) eqn:E.
    - apply existsb_name in E as (c & Hc & E); exfalso; exact (Hfree c Hc E).
    - fold name; fold row; rewrite (city_ok_validates row); [reflexivity|].
      unfold city_ok, row; cbn [City.name City.country]; unfold name; rewrite L1, L2, L3; reflexivity. }
  split; [|split; [|split]].
  4: { intros settings; unfold serve, content2, with_body; rewrite Hvalid; reflexivity. }
  - intros Hdup; destruct (city_by_name_Some db name Hdup) as [c Hc].
    unfold out, create_city_among, create_city_existing; fold name; rewrite Hc; reflexivity.
  - intros Hfree; apply city_by_name_None in Hfree.
    assert (Eout : out = create_city_commit now (others db) data)
      by (unfold out, create_city_among, create_city_existing; fold name; rewrite Hfree; reflexivity).
    split.
    + intros Hdup; rewrite Eout; apply Hins; assumption.
    + intros Hfree' row; rewrite Eout; unfold row; rewrite (Hnew (others db) Hseq Hfree').
      repeat split.
  - intros Hnd0 Hnd.
    destruct (city_by_name db name) as [c|] eqn:Hc.
    + unfold out, create_city_among, create_city_existing; fold name; rewrite Hc; exact Hnd0.
    + assert (Eout : out = create_city_commit now (others db) data)
        by (unfold out, create_city_among, create_city_existing; fold name; rewrite Hc; reflexivity).
      rewrite Eout.
      destruct (existsb (fun c => String.eqb (City.name c) name) (cities (others db))) eqn:E.
      * apply existsb_name in E; rewrite (Hins _ Hseq E); exact Hnd.
      * assert (Hfree' : forall c, In c (cities (others db)) -> City.name c <> name).
        { intros c Hc' En; assert (existsb (fun c => String.eqb (City.name c) name) (cities (others db)) = true)
            by (apply existsb_name; exists c; split; assumption); congruence. }
        rewrite (Hnew _ Hseq Hfree'); unfold city_names_unique; simpl.
        apply NoDup_names_snoc; [exact Hnd | exact Hfree'].
Qed.

Lemma setup_database_sequences_ahead : sequences_ahead setup_database.
Proof.
  split; intros r H; simpl in H;
    repeat (destruct H as [<-|H]; [simpl; lia|]); destruct H.
Defined.

Lemma create_city_cali :
  create_city 7 setup_database {| CityCreate.name := "Bogota"; CityCreate.country := "Colombia" |}
  = (setup_database, HTTPException 400 "La ciudad 'Bogota' ya existe") /\
  snd (create_city 7 setup_database {| CityCreate.name := "Cali"; CityCreate.country := "Colombia" |})
  = OK 201 {| CityResponse.name := "Cali"; CityResponse.country := "Colombia";
              CityResponse.id := 3; CityResponse.is_active := true;
              CityResponse.created_at := 7 |}.
Proof.
  split.
  - apply (create_city_conflict_or_insert (fun d => d) 7 setup_database
             {| CityCreate.b_name := Value "Bogota"; CityCreate.b_country := Unset |}
             {| CityCreate.name := "Bogota"; CityCreate.country := "Colombia" |}
             eq_refl setup_database_sequences_ahead).
    exists (city_row 1 "Bogota"); split; [left; reflexivity | reflexivity].
  - apply (create_city_conflict_or_insert (fun d => d) 7 setup_database
             {| CityCreate.b_name := Value "Cali"; CityCreate.b_country := Unset |}
             {| CityCreate.name := "Cali"; CityCreate.country := "Colombia" |}
             eq_refl setup_database_sequences_ahead).
    + intros c H; simpl in H; repeat (destruct H as [<-|H]; [discriminate|]); destruct H.
    + intros c H; simpl in H; repeat (destruct H as [<-|H]; [discriminate|]); destruct H.
Defined.

(** C6 as stated fails for a duplicate that the look-up does not see. Two
    requests create "Cali"; the first commits between the look-up and the
    insert of the second. A city with the same name exists when the second
    inserts, and its answer is the store's integrity error (500), not
    Conflict (400). *)
Lemma create_city_duplicate_at_insert_not_conflict :
  let data := {| CityCreate.name := "Cali"; CityCreate.country := "Colombia" |} in
  let first_request := fun db => fst (create_city 6 db data) in
  let out := create_city_among first_request 7 setup_database data in
  city_by_name setup_database "Cali" = None /\
  option_map City.name (city_by_name (first_request setup_database) "Cali") = Some "Cali" /\
  fst out = first_request setup_database /\
  snd out = ServerError (DBIntegrityError (UniqueViolation "ix_cities_name")) /\
  status_of (snd out) = 500 /\
  status_of (snd out) <> HTTP_400_BAD_REQUEST.
Proof. vm_compute; repeat split; discriminate. Qed.

(* ================================================================== *)
(** * Zones: uniqueness of [(name, city_id)] *)

Lemma zone_by_name_city_Some (db : DB) (name : string) (city_id : Z) :
  (exists z, In z (zones db) /\ name_city z = (name, city_id)) ->
  exists z, zone_by_name_city db name city_id = Some z.
Proof.
  intros (z & Hz & E); unfold zone_by_name_city.
  destruct (find _ _) as [z'|] eqn:F; [exists z'; reflexivity|].
  apply (find_none _ _ F) in Hz; injection E as E1 E2.
  rewrite E1, E2, String.eqb_refl, Z.eqb_refl in Hz; discriminate.
Qed.

Lemma zone_by_name_city_None (db : DB) (name : string) (city_id : Z) :
  zone_by_name_city db name city_id = None ->
  forall z, In z (zones db) -> name_city z <> (name, city_id).
Proof.
  unfold zone_by_name_city; intros F z Hz E; apply (find_none _ _ F) in Hz.
  injection E as E1 E2; rewrite E1, E2, String.eqb_refl, Z.eqb_refl in Hz; discriminate.
Qed.

Lemma insert_zone_rows (now : Z) (d : ZoneCreate.t) (db db' : DB) (row : Zone.t) :
  insert_zone now d db = inr (db', row) ->
  zones db' = zones db ++ [row] /\ cities db' = cities db /\
  cities_id_seq db' = cities_id_seq db /\ zones_id_seq db' = zones_id_seq db + 1 /\
  row = {| Zone.id := zones_id_seq db + 1; Zone.name := ZoneCreate.name d;
           Zone.city_id := ZoneCreate.city_id d; Zone.color := ZoneCreate.color d;
           Zone.description := ZoneCreate.description d; Zone.is_active := true;
           Zone.created_at := now; Zone.updated_at := now |}.
Proof.
  unfold insert_zone.
  destruct (existsb _ (zones db)); [discriminate|].
  destruct (negb _); [discriminate|].
  intros H; injection H as <- <-; repeat split.
Qed.

(** The creating path keeps the rule: a second zone with the same name in
    the same city is a Conflict, and no creation breaks uniqueness. *)
Lemma create_zone_conflict (now : Z) (db : DB) (d : ZoneCreate.t) (city : City.t) :
  city_by_id db (ZoneCreate.city_id d) = Some city ->
  (exists z, In z (zones db) /\ name_city z = (ZoneCreate.name d, ZoneCreate.city_id d)) ->
  create_zone now db d
  = (db, HTTPException 400 ("La zona '" ++ ZoneCreate.name d ++ "' ya existe en " ++ City.name city)).
Proof.
  intros Hc Hz; unfold create_zone; rewrite Hc.
  destruct (zone_by_name_city_Some db _ _ Hz) as [z ->]; reflexivity.
Qed.

Lemma create_zone_keeps_unique (now : Z) (db : DB) (d : ZoneCreate.t) :
  zones_unique db -> zones_unique (fst (create_zone now db d)).
Proof.
  intros Hu; unfold create_zone.
  destruct (city_by_id db (ZoneCreate.city_id d)) as [city|]; [|exact Hu].
  destruct (zone_by_name_city db _ _) as [z|] eqn:F; [exact Hu|].
  destruct (insert_zone now d db) as [e|[db' row]] eqn:I; [exact Hu|].
  apply insert_zone_rows in I as (Hz & _ & _ & _ & Hrow); simpl.
  unfold zones_unique; rewrite Hz, map_app; simpl.
  apply NoDup_app; [exact Hu | repeat constructor; simpl; tauto |].
  intros k Hk [<-|[]]; apply in_map_iff in Hk as (z & E & Hz').
  apply (zone_by_name_city_None db _ _ F z Hz'); rewrite E, Hrow; reflexivity.
Qed.

Lemma setup_database_zones_unique : zones_unique setup_database.
Proof.
  unfold zones_unique; simpl.
  repeat (apply NoDup_cons; [simpl; intuition discriminate|]); apply NoDup_nil.
Qed.

(* ================================================================== *)
(** * Zones: the city they reference *)

(** The creating path looks the city up first: a [city_id] that no city has
    is answered NotFound, and the store is not touched. *)
Lemma create_zone_city_not_found (now : Z) (db : DB) (d : ZoneCreate.t) :
  (forall c, In c (cities db) -> City.id c <> ZoneCreate.city_id d) ->
  create_zone now db d = (db, city_not_found (ZoneCreate.city_id d)) /\
  status_of (snd (create_zone now db d)) = 404.
Proof.
  intros H; apply city_by_id_None in H; unfold create_zone; rewrite H; split; reflexivity.
Qed.

(* ================================================================== *)
(** * Zones: the colour *)

Lemma upper_hex_digit_upper (c : ascii) :
  hex_digit c = true -> upper_hex_digit (upper_char c) = true.
Proof.
  destruct c as [[] [] [] [] [] [] [] []]; vm_compute; intros H; congruence.
Qed.

Lemma upper_hash (c : ascii) : Ascii.eqb c "#" = true -> Ascii.eqb (upper_char c) "#" = true.
Proof. intros H; apply Ascii.eqb_eq in H; subst c; reflexivity. Qed.

Lemma length_upper (v : string) : String.length (upper v) = String.length v.
Proof. induction v as [|c r IH]; simpl; [reflexivity | rewrite IH; reflexivity]. Qed.

Lemma all_chars_upper (v : string) :
  all_chars hex_digit v = true -> all_chars upper_hex_digit (upper v) = true.
Proof.
  induction v as [|c r IH]; simpl; [reflexivity|].
  rewrite !andb_true_iff; intros [H1 H2]; split; [apply upper_hex_digit_upper; exact H1 | apply IH; exact H2].
Qed.

Lemma upper_normalizes (v : string) :
  color_pattern v = true -> normalized_color (upper v) = true.
Proof.
  unfold color_pattern, normalized_color, hash_then_six.
  destruct v as [|c r]; [discriminate|]; simpl.
  rewrite !andb_true_iff; intros [[H1 H2] H3]; repeat split.
  - apply upper_hash; exact H1.
  - rewrite length_upper; exact H2.
  - apply all_chars_upper; exact H3.
Qed.

(** The creating path normalizes a colour that the body carries, and both
    paths reject a colour that does not match the pattern, with an error
    scoped to the field. *)
Lemma create_zone_color_normalized (b : ZoneCreate.body) (d : ZoneCreate.t) (v : string) :
  ZoneCreate.b_color b = Value v -> ZoneCreate.validate b = Valid d ->
  ZoneCreate.color d = upper v /\ normalized_color (ZoneCreate.color d) = true.
Proof.
  intros Hv; unfold ZoneCreate.validate; rewrite Hv; simpl.
  destruct (and_then (required _ _ _) _) as [e|n];
    destruct (and_then (required "city_id" _ _) _) as [e'|c];
    destruct (ZoneBase.color_field v) as [e''|k] eqn:Ek; try discriminate.
  intros H; injection H as <-; simpl.
  apply color_field_inr in Ek as [Hp ->]; split; [reflexivity | apply upper_normalizes; exact Hp].
Qed.

Lemma create_zone_color_rejected (b : ZoneCreate.body) (v : string) :
  ZoneCreate.b_color b = Value v -> color_pattern v = false ->
  exists errs, ZoneCreate.validate b = Invalid errs /\
               In (mkFieldError "color" "string_pattern_mismatch") errs.
Proof.
  intros Hv Hp; unfold ZoneCreate.validate, ZoneBase.color_field; rewrite Hv; simpl; rewrite Hp.
  destruct (and_then (required _ _ _) _) as [e|n];
    destruct (and_then (required "city_id" _ _) _) as [e'|c]; simpl;
    eexists; (split; [reflexivity|]); simpl; tauto.
Qed.

Lemma update_zone_color_rejected (b : ZoneUpdate.t) (v : string) :
  ZoneUpdate.color b = Value v -> color_pattern v = false ->
  exists errs, ZoneUpdate.validate b = Invalid errs /\
               In (mkFieldError "color" "string_pattern_mismatch") errs.
Proof.
  intros Hv Hp; unfold ZoneUpdate.validate, ZoneUpdate.color_field; rewrite Hv; simpl; rewrite Hp.
  destruct (optional (str_length _ _ _) _) as [e|n];
    destruct (optional (int_gt _ _) _) as [e'|c];
    destruct (optional no_check (ZoneUpdate.description b)) as [e2|d];
    destruct (optional no_check (ZoneUpdate.is_active b)) as [e3|a]; simpl;
    eexists; (split; [reflexivity|]); simpl; tauto.
Qed.

(* ================================================================== *)
(** * [updated_at] is not observable *)

Section MapInvariant.

Context {A : Type} (g : A -> A).

Lemma find_map_invariant (p : A -> bool) (l : list A) :
  (forall x, p (g x) = p x) -> find p (map g l) = option_map g (find p l).
Proof.
  intros H; induction l as [|x r IH]; simpl; [reflexivity|].
  rewrite H; destruct (p x); [reflexivity | exact IH].
Qed.

Lemma filter_map_invariant (p : A -> bool) (l : list A) :
  (forall x, p (g x) = p x) -> filter p (map g l) = map g (filter p l).
Proof.
  intros H; induction l as [|x r IH]; simpl; [reflexivity|].
  rewrite H; destruct (p x); simpl; rewrite IH; reflexivity.
Qed.

Lemma existsb_map_invariant (p : A -> bool) (l : list A) :
  (forall x, p (g x) = p x) -> existsb p (map g l) = existsb p l.
Proof.
  intros H; induction l as [|x r IH]; simpl; [reflexivity|].
  rewrite H, IH; reflexivity.
Qed.

Lemma filter_opt_map_invariant {B : Type} (o : option B) (p : B -> A -> bool) (l : list A) :
  (forall b x, p b (g x) = p b x) -> filter_opt o p (map g l) = map g (filter_opt o p l).
Proof.
  intros H; destruct o as [b|]; simpl; [|reflexivity].
  apply filter_map_invariant; intros x; apply H.
Qed.

Lemma skip_take_map (skip limit : Z) (l : list A) :
  skip_take skip limit (map g l) = map g (skip_take skip limit l).
Proof. unfold skip_take; rewrite skipn_map, firstn_map; reflexivity. Qed.

Lemma offset_limit_map (skip limit : Z) (l : list A) :
  offset_limit skip limit (map g l)
  = match offset_limit skip limit l with
    | inl e => inl e
    | inr page => inr (map g page)
    end.
Proof.
  unfold offset_limit.
  destruct (bigint_max <? skip); [reflexivity|].
  destruct (bigint_max <? limit); [reflexivity|].
  rewrite skip_take_map; reflexivity.
Qed.

Lemma validate_each_map_invariant {B : Type} (f : A -> Validated B) (l : list A) :
  (forall x, f (g x) = f x) -> validate_each f (map g l) = validate_each f l.
Proof.
  intros H; induction l as [|x r IH]; simpl; [reflexivity|].
  rewrite H, IH; reflexivity.
Qed.

End MapInvariant.

Lemma forget_city_idem (c : City.t) : forget_city (forget_city c) = forget_city c.
Proof. reflexivity. Qed.

Lemma forget_zone_idem (z : Zone.t) : forget_zone (forget_zone z) = forget_zone z.
Proof. reflexivity. Qed.

Lemma forget_idem (db : DB) : forget (forget db) = forget db.
Proof.
  unfold forget; simpl; rewrite !map_map.
  f_equal; apply map_ext; reflexivity.
Qed.

Lemma zones_join_cities_forget (db : DB) :
  zones_join_cities (forget db) = map forget_pair (zones_join_cities db).
Proof.
  unfold zones_join_cities; simpl.
  induction (zones db) as [|z r IH]; simpl; [reflexivity|].
  rewrite map_app, IH; f_equal.
  rewrite (filter_map_invariant forget_city) by reflexivity.
  rewrite !map_map; reflexivity.
Qed.

Lemma get_cities_forget (db : DB) (skip limit : option Z) (is_active : option bool) :
  get_cities (forget db) skip limit is_active = get_cities db skip limit is_active.
Proof.
  unfold get_cities.
  destruct (Query "skip" 0 0 None skip) as [e|s]; [reflexivity|].
  destruct (Query "limit" 100 1 (Some 1000) limit) as [e|l]; [reflexivity|].
  simpl cities.
  rewrite (filter_opt_map_invariant forget_city) by reflexivity.
  rewrite offset_limit_map.
  destruct (offset_limit s l _) as [e|page]; [reflexivity|].
  rewrite (validate_each_map_invariant forget_city) by reflexivity.
  reflexivity.
Qed.

Lemma city_by_id_forget (db : DB) (city_id : Z) :
  city_by_id (forget db) city_id = option_map forget_city (city_by_id db city_id).
Proof. unfold city_by_id; simpl; apply find_map_invariant; reflexivity. Qed.

Lemma zone_by_id_forget (db : DB) (zone_id : Z) :
  zone_by_id (forget db) zone_id = option_map forget_zone (zone_by_id db zone_id).
Proof. unfold zone_by_id; simpl; apply find_map_invariant; reflexivity. Qed.

Lemma city_by_name_forget (db : DB) (name : string) :
  city_by_name (forget db) name = option_map forget_city (city_by_name db name).
Proof. unfold city_by_name; simpl; apply find_map_invariant; reflexivity. Qed.

Lemma zone_by_name_city_forget (db : DB) (name : string) (city_id : Z) :
  zone_by_name_city (forget db) name city_id
  = option_map forget_zone (zone_by_name_city db name city_id).
Proof. unfold zone_by_name_city; simpl; apply find_map_invariant; reflexivity. Qed.

Lemma get_city_with_zones_forget (db : DB) (city_id : Z) :
  get_city_with_zones (forget db) city_id = get_city_with_zones db city_id.
Proof.
  unfold get_city_with_zones; rewrite city_by_id_forget.
  destruct (city_by_id db city_id) as [city|]; simpl; [|reflexivity].
  rewrite (filter_map_invariant forget_zone) by reflexivity.
  rewrite (validate_each_map_invariant forget_zone) by reflexivity.
  rewrite length_map; reflexivity.
Qed.

Lemma get_zones_forget (db : DB) (city_id : option Z) (skip limit : option Z)
    (is_active : option bool) :
  get_zones (forget db) city_id skip limit is_active = get_zones db city_id skip limit is_active.
Proof.
  unfold get_zones.
  destruct (Query "skip" 0 0 None skip) as [e|s]; [reflexivity|].
  destruct (Query "limit" 100 1 (Some 1000) limit) as [e|l]; [reflexivity|].
  rewrite zones_join_cities_forget.
  rewrite !(filter_opt_map_invariant forget_pair) by reflexivity.
  rewrite offset_limit_map.
  destruct (offset_limit s l _) as [e|page]; [reflexivity|].
  rewrite (validate_each_map_invariant forget_pair) by reflexivity.
  reflexivity.
Qed.

Lemma get_zone_forget (db : DB) (zone_id : Z) :
  get_zone (forget db) zone_id = get_zone db zone_id.
Proof.
  unfold get_zone; rewrite zones_join_cities_forget.
  rewrite (find_map_invariant forget_pair) by reflexivity.
  destruct (find _ (zones_join_cities db)) as [[z c]|]; reflexivity.
Qed.

Lemma map_forget_city_twice (l : list City.t) :
  map forget_city (map forget_city l) = map forget_city l.
Proof. rewrite map_map; apply map_ext; reflexivity. Qed.

Lemma map_forget_zone_twice (l : list Zone.t) :
  map forget_zone (map forget_zone l) = map forget_zone l.
Proof. rewrite map_map; apply map_ext; reflexivity. Qed.

Lemma create_city_forget (now : Z) (db : DB) (d : CityCreate.t) :
  agree (create_city now (forget db) d) (create_city now db d).
Proof.
  unfold agree, create_city, create_city_among, create_city_existing.
  rewrite city_by_name_forget.
  destruct (city_by_name db (CityCreate.name d)) as [c|]; simpl;
    [split; [apply forget_idem | reflexivity]|].
  unfold create_city_commit, insert_city; simpl.
  rewrite !(existsb_map_invariant forget_city) by reflexivity.
  destruct (existsb _ (cities db)); [split; [apply forget_idem | reflexivity]|].
  destruct (existsb _ (cities db)); [split; [apply forget_idem | reflexivity]|].
  simpl; split; [|reflexivity].
  unfold forget; simpl; rewrite !map_app, map_forget_city_twice, map_forget_zone_twice.
  reflexivity.
Qed.

Lemma map_replace_city_forget (i : Z) (row : City.t) (l : list City.t) :
  map forget_city (map (fun c => if City.id c =? i then row else c) (map forget_city l))
  = map forget_city (map (fun c => if City.id c =? i then row else c) l).
Proof.
  rewrite !map_map; apply map_ext; intros c; simpl.
  destruct (City.id c =? i); reflexivity.
Qed.

Lemma map_replace_zone_forget (i : Z) (row : Zone.t) (l : list Zone.t) :
  map forget_zone (map (fun z => if Zone.id z =? i then row else z) (map forget_zone l))
  = map forget_zone (map (fun z => if Zone.id z =? i then row else z) l).
Proof.
  rewrite !map_map; apply map_ext; intros z; simpl.
  destruct (Zone.id z =? i); reflexivity.
Qed.

Lemma update_city_forget (now : Z) (db : DB) (city_id : Z) (b : CityUpdate.t) :
  agree (update_city now (forget db) city_id b) (update_city now db city_id b).
Proof.
  unfold agree, update_city; rewrite city_by_id_forget.
  destruct (city_by_id db city_id) as [city|]; simpl;
    [|split; [apply forget_idem | reflexivity]].
  change (City.load (forget_city city)) with (City.load city).
  generalize (fold_left CityItems.setattr (CityItems.model_dump_exclude_unset b) (City.load city)).
  intros [[n|] [k|] [a|]]; unfold update_city_row; simpl;
    try (split; [apply forget_idem | reflexivity]).
  destruct (String.eqb n (City.name city) && String.eqb k (City.country city)
            && Bool.eqb a (City.is_active city)); simpl;
    [split; [apply forget_idem | reflexivity]|].
  rewrite (existsb_map_invariant forget_city) by reflexivity.
  destruct (negb (String.eqb n (City.name city)) && _); simpl;
    [split; [apply forget_idem | reflexivity]|].
  split; [|reflexivity].
  unfold forget; simpl; rewrite map_replace_city_forget, map_forget_zone_twice; reflexivity.
Qed.

Lemma create_zone_forget (now : Z) (db : DB) (d : ZoneCreate.t) :
  agree (create_zone now (forget db) d) (create_zone now db d).
Proof.
  unfold agree, create_zone; rewrite city_by_id_forget.
  destruct (city_by_id db (ZoneCreate.city_id d)) as [city|]; simpl;
    [|split; [apply forget_idem | reflexivity]].
  rewrite zone_by_name_city_forget.
  destruct (zone_by_name_city db _ _) as [z|]; simpl;
    [split; [apply forget_idem | reflexivity]|].
  unfold insert_zone; simpl.
  rewrite (existsb_map_invariant forget_zone), (existsb_map_invariant forget_city) by reflexivity.
  destruct (existsb _ (zones db)); [split; [apply forget_idem | reflexivity]|].
  destruct (negb _); [split; [apply forget_idem | reflexivity]|].
  simpl; split; [|reflexivity].
  unfold forget; simpl; rewrite !map_app, map_forget_city_twice, map_forget_zone_twice.
  reflexivity.
Qed.

Lemma update_zone_forget (now : Z) (db : DB) (zone_id : Z) (b : ZoneUpdate.t) :
  agree (update_zone now (forget db) zone_id b) (update_zone now db zone_id b).
Proof.
  unfold agree, update_zone; rewrite zone_by_id_forget.
  destruct (zone_by_id db zone_id) as [zone|]; simpl;
    [|split; [apply forget_idem | reflexivity]].
  change (Zone.load (forget_zone zone)) with (Zone.load zone).
  generalize (fold_left ZoneItems.setattr (ZoneItems.model_dump_exclude_unset b) (Zone.load zone)).
  intros [[n|] [c|] [k|] d [a|]]; unfold update_zone_row; simpl;
    try (split; [apply forget_idem | reflexivity]).
  destruct (String.eqb n (Zone.name zone) && (c =? Zone.city_id zone)
            && String.eqb k (Zone.color zone)
            && option_string_eqb d (Zone.description zone)
            && Bool.eqb a (Zone.is_active zone)); simpl;
    [split; [apply forget_idem | reflexivity]|].
  rewrite (existsb_map_invariant forget_city) by reflexivity.
  destruct (negb (c =? Zone.city_id zone) && _); simpl;
    [split; [apply forget_idem | reflexivity]|].
  split; [|reflexivity].
  unfold forget; simpl; rewrite map_replace_zone_forget, map_forget_city_twice; reflexivity.
Qed.

Lemma agree_body {B M A : Type} (validate : B -> Validated M) (body : B) (db : DB)
    (h1 h2 : M -> DB * Response A) (wrap : A -> Content) :
  (forall m, agree (h1 m) (h2 m)) ->
  agree (content2 wrap (with_body validate body (forget db) h1))
        (content2 wrap (with_body validate body db h2)).
Proof.
  intros H; unfold content2, with_body.
  destruct (validate body) as [m|errs]; simpl.
  - destruct (H m) as [H1 H2]; split; [exact H1 | rewrite H2; reflexivity].
  - split; [apply forget_idem | reflexivity].
Qed.

Lemma serve_forget (settings : Config.Settings) (now : Z) (db : DB) (req : Request) :
  agree (serve settings now (forget db) req) (serve settings now db req).
Proof.
  destruct req; simpl.
  - split; [apply forget_idem | simpl; rewrite get_cities_forget; reflexivity].
  - split; [apply forget_idem | simpl; rewrite get_city_with_zones_forget; reflexivity].
  - apply agree_body; intros m; apply create_city_forget.
  - apply agree_body; intros m; apply update_city_forget.
  - split; [apply forget_idem | simpl; rewrite get_zones_forget; reflexivity].
  - split; [apply forget_idem | simpl; rewrite get_zone_forget; reflexivity].
  - apply agree_body; intros m; apply create_zone_forget.
  - apply agree_body; intros m; apply update_zone_forget.
  - unfold agree, content2, with_coordinates.
    destruct (CoordinateValidation.validate body) as [m|errs];
      [|destruct (json_compliant _ && json_compliant _)];
      (split; [apply forget_idem | reflexivity]).
Qed.

Lemma city_response_exposes (c : City.t) (r : CityResponse.t) :
  CityResponse.model_validate c = Valid r ->
  CityResponse.id r = City.id c /\ CityResponse.is_active r = City.is_active c /\
  CityResponse.created_at r = City.created_at c.
Proof.
  unfold CityResponse.model_validate.
  destruct (str_length "name" 2 255 _), (str_length "country" 0 100 _); try discriminate.
  intros H; injection H as <-; repeat split.
Qed.

Lemma zone_response_exposes (z : Zone.t) (r : ZoneResponse.t) :
  ZoneResponse.model_validate z = Valid r ->
  ZoneResponse.id r = Zone.id z /\ ZoneResponse.is_active r = Zone.is_active z /\
  ZoneResponse.created_at r = Zone.created_at z.
Proof.
  unfold ZoneResponse.model_validate.
  destruct (str_length "name" 2 255 _), (int_gt "city_id" 0 _), (ZoneBase.color_field _);
    try discriminate.
  intros H; injection H as <-; repeat split.
Qed.

(** C10. A city or zone response carries the row's [id], [is_active] and
    [created_at]; the response schemas have no [updated_at] field. The column
    is therefore not observable: two stores that differ in [updated_at]
    values only answer every sequence of requests (create, read, update,
    list, each served at any time) with the same responses, and still differ
    in [updated_at] only afterwards. *)
Theorem updated_at_not_observable :
  forall (settings : Config.Settings) (reqs : list (Z * Request)) (db1 db2 : DB),
    forget db1 = forget db2 ->
    snd (run settings db1 reqs) = snd (run settings db2 reqs) /\
    forget (fst (run settings db1 reqs)) = forget (fst (run settings db2 reqs)) /\
    (forall c r, CityResponse.model_validate c = Valid r ->
                 CityResponse.id r = City.id c /\ CityResponse.is_active r = City.is_active c /\
                 CityResponse.created_at r = City.created_at c) /\
    (forall z r, ZoneResponse.model_validate z = Valid r ->
                 ZoneResponse.id r = Zone.id z /\ ZoneResponse.is_active r = Zone.is_active z /\
                 ZoneResponse.created_at r = Zone.created_at z).
Proof.
  intros settings reqs db1 db2 H.
  rewrite <- and_assoc; split; [|split; [exact city_response_exposes | exact zone_response_exposes]].
  revert db1 db2 H.
  induction reqs as [|[now req] rest IH]; intros db1 db2 H; simpl.
  - split; [reflexivity | exact H].
  - destruct (serve_forget settings now db1 req) as [F1 R1].
    destruct (serve_forget settings now db2 req) as [F2 R2].
    rewrite H in F1, R1.
    destruct (serve settings now db1 req) as [d1 r1].
    destruct (serve settings now db2 req) as [d2 r2].
    simpl in *.
    assert (Hd : forget d1 = forget d2) by congruence.
    assert (Hr : r1 = r2) by congruence.
    specialize (IH d1 d2 Hd).
    destruct (run settings d1 rest) as [e1 s1], (run settings d2 rest) as [e2 s2]; simpl in *.
    destruct IH as [IH1 IH2]; split; [rewrite Hr, IH1; reflexivity | exact IH2].
Qed.

Lemma updated_at_not_observable_touched :
  let reqs := [(20, GET_city 1);
               (21, PUT_city 2 {| CityUpdate.name := Unset; CityUpdate.country := Value "CO";
                                  CityUpdate.is_active := Unset |});
               (22, PUT_zone 3 (recolor "#000000"));
               (23, GET_cities None None None);
               (24, GET_zones None None None (Some true))] in
  touched_database <> setup_database /\
  snd (run Config.settings touched_database reqs) = snd (run Config.settings setup_database reqs).
Proof.
  split; [discriminate|].
  apply updated_at_not_observable; reflexivity.
Defined.

(* ================================================================== *)
(** * The stores the service reaches *)

Lemma optional_inr {A : Type} (check : A -> FieldResult A) (f f' : field A) :
  (forall v w, check v = inr w -> w = v) ->
  optional check f = inr f' ->
  f' = f /\ (forall v, f = Value v -> check v = inr v).
Proof.
  intros Hid; destruct f as [| |v]; simpl.
  - intros H; injection H as <-; split; [reflexivity | discriminate].
  - intros H; injection H as <-; split; [reflexivity | discriminate].
  - destruct (check v) as [e|w] eqn:E; [discriminate|].
    intros H; injection H as <-; rewrite (Hid v w E); split; [reflexivity|].
    intros v' H; injection H as <-; rewrite E, (Hid v w E); reflexivity.
Qed.

Lemma str_length_id (name : string) (lo hi : nat) (v w : string) :
  str_length name lo hi v = inr w -> w = v.
Proof. intros H; apply str_length_inr in H; tauto. Qed.

Lemma int_gt_id (name : string) (lo v w : Z) : int_gt name lo v = inr w -> w = v.
Proof. intros H; apply int_gt_inr in H; tauto. Qed.

Lemma no_check_id {A : Type} (v w : A) : no_check v = inr w -> w = v.
Proof. intros H; injection H as <-; reflexivity. Qed.

Lemma update_color_field_id (v w : string) : ZoneUpdate.color_field v = inr w -> w = v.
Proof.
  unfold ZoneUpdate.color_field; destruct (color_pattern v); [|discriminate].
  intros H; injection H as <-; reflexivity.
Qed.

Lemma CityUpdate_valid (b b' : CityUpdate.t) :
  CityUpdate.validate b = Valid b' ->
  b' = b /\
  (forall v, CityUpdate.name b = Value v -> str_length "name" 2 255 v = inr v) /\
  (forall v, CityUpdate.country b = Value v -> str_length "country" 0 100 v = inr v).
Proof.
  unfold CityUpdate.validate.
  destruct (optional (str_length "name" 2 255) _) as [e|n] eqn:En;
    destruct (optional (str_length "country" 0 100) _) as [e'|k] eqn:Ek;
    destruct (optional no_check (CityUpdate.is_active b)) as [e''|a] eqn:Ea; try discriminate.
  intros H; injection H as <-.
  apply optional_inr in En as [-> Hn]; [|apply str_length_id].
  apply optional_inr in Ek as [-> Hk]; [|apply str_length_id].
  apply optional_inr in Ea as [-> _]; [|apply no_check_id].
  destruct b; repeat split; assumption.
Qed.

Lemma ZoneUpdate_valid (b b' : ZoneUpdate.t) :
  ZoneUpdate.validate b = Valid b' ->
  b' = b /\
  (forall v, ZoneUpdate.name b = Value v -> str_length "name" 2 255 v = inr v) /\
  (forall v, ZoneUpdate.city_id b = Value v -> (0 <? v) = true) /\
  (forall v, ZoneUpdate.color b = Value v -> color_pattern v = true).
Proof.
  unfold ZoneUpdate.validate.
  destruct (optional (str_length "name" 2 255) _) as [e|n] eqn:En;
    destruct (optional (int_gt "city_id" 0) _) as [e1|c] eqn:Ec;
    destruct (optional ZoneUpdate.color_field _) as [e2|k] eqn:Ek;
    destruct (optional no_check (ZoneUpdate.description b)) as [e3|d] eqn:Ed;
    destruct (optional no_check (ZoneUpdate.is_active b)) as [e4|a] eqn:Ea; try discriminate.
  intros H; injection H as <-.
  apply optional_inr in En as [-> Hn]; [|apply str_length_id].
  apply optional_inr in Ec as [-> Hc]; [|apply int_gt_id].
  apply optional_inr in Ek as [-> Hk]; [|apply update_color_field_id].
  apply optional_inr in Ed as [-> _]; [|apply no_check_id].
  apply optional_inr in Ea as [-> _]; [|apply no_check_id].
  destruct b; repeat split; try assumption.
  - intros v Hv; apply Hc, int_gt_inr in Hv; tauto.
  - intros v Hv; apply Hk in Hv; unfold ZoneUpdate.color_field in Hv.
    destruct (color_pattern v); [reflexivity | discriminate].
Qed.

Lemma upper_hex_is_hex (c : ascii) : upper_hex_digit c = true -> hex_digit c = true.
Proof. unfold hex_digit, upper_hex_digit; intros ->; reflexivity. Qed.

Lemma all_chars_weaken (p q : ascii -> bool) (v : string) :
  (forall c, p c = true -> q c = true) -> all_chars p v = true -> all_chars q v = true.
Proof.
  intros H; induction v as [|c r IH]; simpl; [reflexivity|].
  rewrite !andb_true_iff; intros [H1 H2]; split; [apply H; exact H1 | apply IH; exact H2].
Qed.

Lemma normalized_matches_pattern (v : string) :
  normalized_color v = true -> color_pattern v = true.
Proof.
  unfold normalized_color, color_pattern, hash_then_six; destruct v as [|c r]; [discriminate|].
  rewrite !andb_true_iff; intros [[H1 H2] H3]; repeat split; try assumption.
  apply (all_chars_weaken upper_hex_digit); [apply upper_hex_is_hex | exact H3].
Qed.

Lemma ZoneCreate_valid (body : ZoneCreate.body) (d : ZoneCreate.t) :
  ZoneCreate.validate body = Valid d ->
  (2 <=? String.length (ZoneCreate.name d))%nat = true /\
  (String.length (ZoneCreate.name d) <=? 255)%nat = true /\
  (0 <? ZoneCreate.city_id d) = true /\
  color_pattern (ZoneCreate.color d) = true.
Proof.
  unfold ZoneCreate.validate.
  destruct (and_then (required "name" _ _) _) as [e|n] eqn:En;
    destruct (and_then (required "city_id" _ _) _) as [e1|c] eqn:Ec;
    destruct (with_default _ _ _ _ _) as [e2|k] eqn:Ek; try discriminate.
  intros H; injection H as <-; simpl.
  destruct (ZoneCreate.b_name body) as [| |n']; simpl in En; try discriminate.
  apply str_length_inr in En as (-> & H1 & H2).
  destruct (ZoneCreate.b_city_id body) as [| |c']; simpl in Ec; try discriminate.
  apply int_gt_inr in Ec as (-> & H3).
  repeat split; try assumption.
  destruct (ZoneCreate.b_color body) as [| |k']; simpl in Ek; try discriminate.
  - injection Ek as <-; reflexivity.
  - apply color_field_inr in Ek as [Hp ->].
    apply normalized_matches_pattern, upper_normalizes; exact Hp.
Qed.

Lemma forallb_snoc {A : Type} (p : A -> bool) (l : list A) (x : A) :
  forallb p l = true -> p x = true -> forallb p (l ++ [x]) = true.
Proof. intros H1 H2; rewrite forallb_app, H1; simpl; rewrite H2; reflexivity. Qed.

Lemma forallb_replace {A : Type} (p : A -> bool) (sel : A -> bool) (row : A) (l : list A) :
  forallb p l = true -> p row = true ->
  forallb p (map (fun x => if sel x then row else x) l) = true.
Proof.
  intros H1 H2; induction l as [|x r IH]; simpl in *; [reflexivity|].
  apply andb_true_iff in H1 as [Hx Hr]; rewrite (IH Hr), andb_true_r.
  destruct (sel x); assumption.
Qed.

Lemma zone_instance_after (b : ZoneUpdate.t) (z : Zone.t) :
  fold_left ZoneItems.setattr (ZoneItems.model_dump_exclude_unset b) (Zone.load z)
  = {| Zone.i_name := assigned (ZoneUpdate.name b) (Zone.name z);
       Zone.i_city_id := assigned (ZoneUpdate.city_id b) (Zone.city_id z);
       Zone.i_color := assigned (ZoneUpdate.color b) (Zone.color z);
       Zone.i_description := match ZoneUpdate.description b with
                             | Unset => Zone.description z
                             | Null => None
                             | Value d => Some d
                             end;
       Zone.i_is_active := assigned (ZoneUpdate.is_active b) (Zone.is_active z) |}.
Proof.
  destruct b as [[| |n] [| |c] [| |k] [| |d] [| |a]]; reflexivity.
Qed.

Lemma update_zone_row_cases (now : Z) (old : Zone.t) (i : Zone.instance) (db : DB) :
  (exists e, update_zone_row now old i db = inl e) \/
  update_zone_row now old i db = inr (db, old) \/
  (exists n c k a,
     Zone.i_name i = Some n /\ Zone.i_city_id i = Some c /\ Zone.i_color i = Some k /\
     Zone.i_is_active i = Some a /\
     (c = Zone.city_id old \/ exists x, In x (cities db) /\ City.id x = c) /\
     let row := {| Zone.id := Zone.id old; Zone.name := n; Zone.city_id := c;
                   Zone.color := k; Zone.description := Zone.i_description i;
                   Zone.is_active := a; Zone.created_at := Zone.created_at old;
                   Zone.updated_at := now |} in
     update_zone_row now old i db
     = inr ({| cities := cities db;
               zones := map (fun z => if Zone.id z =? Zone.id old then row else z) (zones db);
               cities_id_seq := cities_id_seq db; zones_id_seq := zones_id_seq db |}, row)).
Proof.
  unfold update_zone_row.
  destruct i as [[n|] [c|] [k|] d [a|]]; simpl; try (left; eexists; reflexivity).
  destruct (String.eqb n (Zone.name old) && (c =? Zone.city_id old)
            && String.eqb k (Zone.color old) && option_string_eqb d (Zone.description old)
            && Bool.eqb a (Zone.is_active old)); [right; left; reflexivity|].
  destruct (Z.eqb_spec c (Zone.city_id old)) as [E|E]; simpl.
  - right; right; exists n, c, k, a; repeat split; left; exact E.
  - destruct (existsb (fun x => City.id x =? c) (cities db)) eqn:X; simpl;
      [|left; eexists; reflexivity].
    right; right; exists n, c, k, a; repeat split.
    right; apply existsb_exists in X as (x & Hx & X); apply Z.eqb_eq in X; exists x; tauto.
Qed.

Lemma In_replace {A : Type} (sel : A -> bool) (row x : A) (l : list A) :
  In x (map (fun y => if sel y then row else y) l) -> x = row \/ In x l.
Proof.
  intros H; apply in_map_iff in H as (y & E & Hy).
  destruct (sel y); subst; tauto.
Qed.

Lemma empty_db_well_formed : well_formed empty_db.
Proof.
  split; [split; reflexivity|]; split; [split|]; intros r [].
Qed.

Lemma create_city_well_formed (now : Z) (db : DB) (body : CityCreate.body) (d : CityCreate.t) :
  CityCreate.validate body = Valid d -> well_formed db ->
  well_formed (fst (create_city now db d)).
Proof.
  intros Hv Hwf; unfold create_city, create_city_among, create_city_existing.
  destruct (city_by_name db _); [exact Hwf|].
  unfold create_city_commit, insert_city.
  destruct (existsb _ (cities db)); [exact Hwf|].
  destruct (existsb _ (cities db)); [exact Hwf|]; simpl.
  destruct Hwf as ([Hc Hz] & [Sc Sz] & Href).
  destruct (CityCreate_valid body d Hv) as (L1 & L2 & L3).
  split; [split; simpl; [|exact Hz]|split; [split; simpl|]].
  - apply forallb_snoc; [exact Hc|]; unfold city_ok; cbn [City.name City.country].
    rewrite L1, L2, L3; reflexivity.
  - intros c H; apply in_app_or in H as [H|[<-|[]]]; [specialize (Sc c H); lia | simpl; lia].
  - exact Sz.
  - intros z Hzn; destruct (Href z Hzn) as (c & Hcn & E); exists c; split; [|exact E].
    simpl; apply in_or_app; left; exact Hcn.
Qed.

Lemma update_city_well_formed (now : Z) (db : DB) (city_id : Z) (body b : CityUpdate.t) :
  CityUpdate.validate body = Valid b -> well_formed db ->
  well_formed (fst (update_city now db city_id b)).
Proof.
  intros Hv Hwf; apply CityUpdate_valid in Hv as (-> & Vn & Vk).
  unfold update_city.
  destruct (city_by_id db city_id) as [city|] eqn:Hcity; [|exact Hwf].
  rewrite city_instance_after.
  destruct (update_city_row_cases now city
              {| City.i_name := assigned (CityUpdate.name body) (City.name city);
                 City.i_country := assigned (CityUpdate.country body) (City.country city);
                 City.i_is_active := assigned (CityUpdate.is_active body) (City.is_active city) |} db)
    as [[e He] | [(He & _) | (n & k & a & Hn & Hk & Ha & He)]]; rewrite He; try exact Hwf.
  simpl in Hn, Hk, Ha |- *.
  destruct Hwf as ([Hc Hz] & [Sc Sz] & Href).
  apply city_by_id_In in Hcity as [Hin Hid].
  assert (Hold : city_ok city = true) by (apply (forallb_In _ _ _ Hc), Hin).
  unfold city_ok in Hold; apply andb_true_iff in Hold as [Hold O3];
    apply andb_true_iff in Hold as [O1 O2].
  split; [split; simpl; [|exact Hz]|split; [split; simpl|]].
  - apply forallb_replace; [exact Hc|]; unfold city_ok; cbn [City.name City.country].
    assert (En : (2 <=? String.length n)%nat = true /\ (String.length n <=? 255)%nat = true).
    { destruct (CityUpdate.name body) as [| |v]; simpl in Hn; try discriminate;
        injection Hn as <-; [tauto|].
      specialize (Vn v eq_refl); apply str_length_inr in Vn; tauto. }
    assert (Ek : (String.length k <=? 100)%nat = true).
    { destruct (CityUpdate.country body) as [| |v]; simpl in Hk; try discriminate;
        injection Hk as <-; [tauto|].
      specialize (Vk v eq_refl); apply str_length_inr in Vk; tauto. }
    destruct En as [E1 E2]; rewrite E1, E2, Ek; reflexivity.
  - intros c H; apply In_replace in H as [->|H]; [simpl; apply Sc; exact Hin | apply Sc; exact H].
  - exact Sz.
  - intros z Hzn; destruct (Href z Hzn) as (c & Hcn & E).
    exists (if City.id c =? City.id city
            then {| City.id := City.id city; City.name := n; City.country := k;
                    City.is_active := a; City.created_at := City.created_at city;
                    City.updated_at := now |}
            else c); split.
    + simpl; apply (in_map (fun c => if City.id c =? City.id city then _ else c)); exact Hcn.
    + destruct (Z.eqb_spec (City.id c) (City.id city)) as [E'|E']; simpl; congruence.
Qed.

Lemma create_zone_well_formed (now : Z) (db : DB) (body : ZoneCreate.body) (d : ZoneCreate.t) :
  ZoneCreate.validate body = Valid d -> well_formed db ->
  well_formed (fst (create_zone now db d)).
Proof.
  intros Hv Hwf; unfold create_zone.
  destruct (city_by_id db (ZoneCreate.city_id d)) as [city|] eqn:Hcity; [|exact Hwf].
  destruct (zone_by_name_city db _ _); [exact Hwf|].
  destruct (insert_zone now d db) as [e|[db' row]] eqn:I; [exact Hwf|].
  apply insert_zone_rows in I as (Hz' & Hc' & Sc' & Sz' & Hrow); simpl.
  destruct Hwf as ([Hc Hz] & [Sc Sz] & Href).
  destruct (ZoneCreate_valid body d Hv) as (L1 & L2 & L3 & L4).
  apply city_by_id_In in Hcity as [Hin Hid].
  split; [split; [rewrite Hc'; exact Hc|]|split; [split|]].
  - rewrite Hz'; apply forallb_snoc; [exact Hz|].
    rewrite Hrow; unfold zone_ok; cbn [Zone.name Zone.city_id Zone.color].
    rewrite L1, L2, L3, L4; reflexivity.
  - rewrite Hc', Sc'; exact Sc.
  - rewrite Hz', Sz'; intros z H; apply in_app_or in H as [H|[<-|[]]];
      [specialize (Sz z H); lia | rewrite Hrow; simpl; lia].
  - unfold zones_reference_cities; rewrite Hz', Hc'.
    intros z H; apply in_app_or in H as [H|[<-|[]]]; [apply Href; exact H|].
    exists city; split; [exact Hin | rewrite Hrow; simpl; exact Hid].
Qed.

Lemma update_zone_well_formed (now : Z) (db : DB) (zone_id : Z) (body b : ZoneUpdate.t) :
  ZoneUpdate.validate body = Valid b -> well_formed db ->
  well_formed (fst (update_zone now db zone_id b)).
Proof.
  intros Hv Hwf; apply ZoneUpdate_valid in Hv as (-> & Vn & Vc & Vk).
  unfold update_zone.
  destruct (zone_by_id db zone_id) as [zone|] eqn:Hzone; [|exact Hwf].
  rewrite zone_instance_after.
  match goal with
  | |- context [update_zone_row now zone ?i db] =>
      destruct (update_zone_row_cases now zone i db)
        as [[e He] | [He | (n & c & k & a & Hn & Hc & Hk & Ha & Hfk & He)]]
  end; rewrite He; try exact Hwf.
  simpl in Hn, Hc, Hk, Ha |- *.
  destruct Hwf as ([Hcs Hzs] & [Sc Sz] & Href).
  apply zone_by_id_In in Hzone as [Hin Hid].
  assert (Hold : zone_ok zone = true) by (apply (forallb_In _ _ _ Hzs), Hin).
  unfold zone_ok in Hold; apply andb_true_iff in Hold as [Hold O4];
    apply andb_true_iff in Hold as [Hold O3]; apply andb_true_iff in Hold as [O1 O2].
  split; [split; simpl; [exact Hcs|]|split; [split; simpl|]].
  - apply forallb_replace; [exact Hzs|]; unfold zone_ok; cbn [Zone.name Zone.city_id Zone.color].
    assert (En : (2 <=? String.length n)%nat = true /\ (String.length n <=? 255)%nat = true).
    { destruct (ZoneUpdate.name body) as [| |v]; simpl in Hn; try discriminate;
        injection Hn as <-; [tauto|].
      specialize (Vn v eq_refl); apply str_length_inr in Vn; tauto. }
    assert (Ec : (0 <? c) = true).
    { destruct (ZoneUpdate.city_id body) as [| |v]; simpl in Hc; try discriminate;
        injection Hc as <-; [exact O3 | exact (Vc v eq_refl)]. }
    assert (Ek : color_pattern k = true).
    { destruct (ZoneUpdate.color body) as [| |v]; simpl in Hk; try discriminate;
        injection Hk as <-; [exact O4 | exact (Vk v eq_refl)]. }
    destruct En as [E1 E2]; rewrite E1, E2, Ec, Ek; reflexivity.
  - exact Sc.
  - intros z H; apply In_replace in H as [->|H]; [simpl; apply Sz; exact Hin | apply Sz; exact H].
  - intros z H; simpl in H; apply In_replace in H as [->|H]; [|apply Href; exact H].
    simpl; destruct Hfk as [->|Hx]; [apply Href; exact Hin | exact Hx].
Qed.

(** Every request keeps the store well formed: its rows pass the response
    schemas, the sequences are ahead of the stored ids, and every zone
    references a stored city. The stores that the service reaches from the
    empty one are therefore all well formed. *)
Lemma serve_well_formed (settings : Config.Settings) (now : Z) (db : DB) (req : Request) :
  well_formed db -> well_formed (fst (serve settings now db req)).
Proof.
  intros Hwf; destruct req; simpl; try exact Hwf; unfold with_body.
  - destruct (CityCreate.validate body) as [d|errs] eqn:E; [|exact Hwf].
    apply (create_city_well_formed now db body d E Hwf).
  - destruct (CityUpdate.validate body) as [d|errs] eqn:E; [|exact Hwf].
    apply (update_city_well_formed now db city_id body d E Hwf).
  - destruct (ZoneCreate.validate body) as [d|errs] eqn:E; [|exact Hwf].
    apply (create_zone_well_formed now db body d E Hwf).
  - destruct (ZoneUpdate.validate body) as [d|errs] eqn:E; [|exact Hwf].
    apply (update_zone_well_formed now db zone_id body d E Hwf).
  - rewrite with_coordinates_reads; exact Hwf.
Qed.

Lemma run_well_formed (settings : Config.Settings) (reqs : list (Z * Request)) (db : DB) :
  well_formed db -> well_formed (fst (run settings db reqs)).
Proof.
  revert db; induction reqs as [|[now req] rest IH]; intros db Hwf; simpl; [exact Hwf|].
  pose proof (serve_well_formed settings now db req Hwf) as H.
  destruct (serve settings now db req) as [db1 r]; simpl in H.
  specialize (IH db1 H); destruct (run settings db1 rest) as [db2 rs]; exact IH.
Qed.

(* ================================================================== *)
(** * Zones: what the update path does not do *)

Lemma NoDup_map_In_eq {A B : Type} (f : A -> B) (l : list A) (x y : A) :
  NoDup (map f l) -> In x l -> In y l -> f x = f y -> x = y.
Proof.
  induction l as [|a r IH]; simpl; [tauto|].
  intros H; inversion H as [|b m Hn Hr]; subst.
  intros [->|Hx] [->|Hy] E; try reflexivity.
  - exfalso; apply Hn; rewrite E; apply in_map; exact Hy.
  - exfalso; apply Hn; rewrite <- E; apply in_map; exact Hx.
  - apply IH; assumption.
Qed.

Lemma zone_find_replaced (i : Z) (old row : Zone.t) (l : list Zone.t) :
  find (fun z => Zone.id z =? i) l = Some old -> Zone.id row = Zone.id old ->
  find (fun z => Zone.id z =? i)
       (map (fun z => if Zone.id z =? Zone.id old then row else z) l) = Some row.
Proof.
  intros Hfind Hid.
  assert (Hi : Zone.id old = i) by (apply find_some in Hfind as [_ H]; apply Z.eqb_eq; exact H).
  induction l as [|z r IH]; simpl in *; [discriminate|].
  destruct (Zone.id z =? i) eqn:E.
  - injection Hfind as ->; rewrite Z.eqb_refl, Hid, E; reflexivity.
  - rewrite <- Hi in E; rewrite E; rewrite Hi in E; rewrite E; apply IH; exact Hfind.
Qed.

Lemma zone_ok_parts (z : Zone.t) :
  zone_ok z = true ->
  str_length "name" 2 255 (Zone.name z) = inr (Zone.name z) /\
  (0 <? Zone.city_id z) = true /\ color_pattern (Zone.color z) = true.
Proof.
  unfold zone_ok; rewrite !andb_true_iff; intros [[[H1 H2] H3] H4].
  split; [apply str_length_ok; assumption | split; assumption].
Qed.

Lemma zone_ok_of_parts (n : string) (z row : Zone.t) (c : Z) (k : string) :
  str_length "name" 2 255 n = inr n -> (0 <? c) = true -> color_pattern k = true ->
  Zone.name row = n -> Zone.city_id row = c -> Zone.color row = k -> zone_ok row = true.
Proof.
  intros Hn Hc Hk En Ec Ek; unfold zone_ok; rewrite En, Ec, Ek, Hc, Hk.
  apply str_length_inr in Hn as (_ & H1 & H2); rewrite H1, H2; reflexivity.
Qed.

(** C1, where the code departs from it. [update_zone] makes no look-up for
    an existing [(name, city_id)] pair, and the table declares no unique
    constraint: on a store of valid rows, renaming a zone to the name of
    another zone of the same city is accepted (200), and the store then holds
    two zones with the same pair, so the pairs are no longer unique. *)
Theorem update_zone_duplicates_name_city :
  forall (settings : Config.Settings) (now : Z) (db : DB) (zone_id : Z) (zone other : Zone.t),
    presentable db ->
    zone_by_id db zone_id = Some zone ->
    In other (zones db) ->
    Zone.id other <> zone_id ->
    Zone.city_id other = Zone.city_id zone ->
    Zone.name other <> Zone.name zone ->
    let out := serve settings now db (PUT_zone zone_id (rename_to (Zone.name other))) in
    status_of (snd out) = 200 /\
    (exists z, In z (zones (fst out)) /\ Zone.id z = zone_id /\ z <> other /\
               name_city z = name_city other /\ In other (zones (fst out))) /\
    ~ zones_unique (fst out).
Proof.
  intros settings now db zone_id zone other [Hcs Hzs] Hzone Hother Hid Hcity Hname out.
  destruct (zone_by_id_In db zone_id zone Hzone) as [Hin Hzid].
  destruct (zone_ok_parts other (forallb_In _ _ _ Hzs Hother)) as (On & _ & _).
  destruct (zone_ok_parts zone (forallb_In _ _ _ Hzs Hin)) as (_ & Zc & Zk).
  set (row := {| Zone.id := Zone.id zone; Zone.name := Zone.name other;
                 Zone.city_id := Zone.city_id zone; Zone.color := Zone.color zone;
                 Zone.description := Zone.description zone;
                 Zone.is_active := Zone.is_active zone;
                 Zone.created_at := Zone.created_at zone; Zone.updated_at := now |}).
  assert (Eout : out = ({| cities := cities db;
                           zones := map (fun z => if Zone.id z =? Zone.id zone then row else z)
                                        (zones db);
                           cities_id_seq := cities_id_seq db;
                           zones_id_seq := zones_id_seq db |},
                        OK 200 (ZoneOne (zone_view row)))).
  { unfold out, serve, content2, with_body, ZoneUpdate.validate, rename_to; simpl.
    rewrite On; simpl.
    unfold update_zone; rewrite Hzone, zone_instance_after; simpl.
    unfold update_zone_row; simpl.
    apply String.eqb_neq in Hname; rewrite Hname; simpl.
    rewrite Z.eqb_refl; simpl; fold row.
    rewrite (zone_ok_validates row); [reflexivity|].
    apply (zone_ok_of_parts (Zone.name other) zone row (Zone.city_id zone) (Zone.color zone));
      try assumption; reflexivity. }
  assert (Hrow : In row (zones (fst out))).
  { rewrite Eout; simpl.
    apply in_map_iff; exists zone; split; [rewrite Z.eqb_refl; reflexivity | exact Hin]. }
  assert (Hoth : In other (zones (fst out))).
  { rewrite Eout; simpl.
    apply in_map_iff; exists other; split; [|exact Hother].
    destruct (Z.eqb_spec (Zone.id other) (Zone.id zone)); [congruence | reflexivity]. }
  assert (Hne : row <> other) by (intros E; apply Hid; rewrite <- E; exact Hzid).
  assert (Hkey : name_city row = name_city other)
    by (unfold name_city; simpl; rewrite Hcity; reflexivity).
  split; [rewrite Eout; reflexivity|].
  split; [exists row; repeat split; assumption|].
  intros Hu; apply Hne.
  exact (NoDup_map_In_eq name_city _ row other Hu Hrow Hoth Hkey).
Qed.

(** C2, where the code departs from it. [update_zone] assigns a supplied
    [city_id] without looking the city up. When no city has that id, the
    request passes the schema and reaches the store, whose foreign key
    raises: the answer is the unhandled integrity error (500) and not
    NotFound, which is what [create_zone] answers for the same [city_id]. *)
Theorem update_zone_city_not_looked_up :
  forall (settings : Config.Settings) (now : Z) (db : DB) (zone_id : Z) (zone : Zone.t) (c : Z),
    zone_by_id db zone_id = Some zone ->
    0 < c ->
    c <> Zone.city_id zone ->
    (forall x, In x (cities db) -> City.id x <> c) ->
    let out := serve settings now db (PUT_zone zone_id (move_to_city c)) in
    ZoneUpdate.validate (move_to_city c) = Valid (move_to_city c) /\
    out = (db, ServerError (DBIntegrityError (ForeignKeyViolation "zones_city_id_fkey"))) /\
    status_of (snd out) = 500 /\
    (forall d, ZoneCreate.city_id d = c ->
               status_of (snd (create_zone now db d)) = HTTP_404_NOT_FOUND).
Proof.
  intros settings now db zone_id zone c Hzone Hpos Hne Hnone out.
  assert (Hv : ZoneUpdate.validate (move_to_city c) = Valid (move_to_city c)).
  { unfold ZoneUpdate.validate, move_to_city, int_gt; simpl.
    destruct (Z.ltb_spec 0 c); [reflexivity | lia]. }
  assert (Eout : out = (db, ServerError (DBIntegrityError
                                           (ForeignKeyViolation "zones_city_id_fkey")))).
  { unfold out, serve, content2, with_body; rewrite Hv.
    unfold update_zone; rewrite Hzone, zone_instance_after; simpl.
    unfold update_zone_row; simpl.
    apply Z.eqb_neq in Hne; rewrite Hne, String.eqb_refl; simpl.
    destruct (existsb (fun x => City.id x =? c) (cities db)) eqn:E; [|reflexivity].
    apply existsb_exists in E as (x & Hx & E); apply Z.eqb_eq in E.
    exfalso; exact (Hnone x Hx E). }
  split; [exact Hv|]; split; [exact Eout|]; split; [rewrite Eout; reflexivity|].
  intros d Hd; apply create_zone_city_not_found; rewrite Hd; exact Hnone.
Qed.

(** C3, where the code departs from it. [ZoneUpdate] declares the colour
    pattern without the validator that upper-cases. On a store of valid rows,
    a colour that matches the pattern but is not in the form
    [^#[0-9A-F]{6}$] (one with a lower-case digit) is accepted by
    [UpdateZone] (200) and stored as it was sent; only the response, read
    back through [ZoneResponse], shows it upper-cased. *)
Theorem update_zone_stores_color_as_sent :
  forall (settings : Config.Settings) (now : Z) (db : DB) (zone_id : Z) (zone : Zone.t)
         (v : string),
    presentable db ->
    zone_by_id db zone_id = Some zone ->
    color_pattern v = true ->
    normalized_color v = false ->
    let out := serve settings now db (PUT_zone zone_id (recolor v)) in
    (exists r, snd out = OK 200 (ZoneOne r) /\ ZoneResponse.color r = upper v) /\
    (exists z, zone_by_id (fst out) zone_id = Some z /\ Zone.color z = v /\
               normalized_color (Zone.color z) = false).
Proof.
  intros settings now db zone_id zone v [Hcs Hzs] Hzone Hp Hn out.
  destruct (zone_by_id_In db zone_id zone Hzone) as [Hin Hzid].
  destruct (zone_ok_parts zone (forallb_In _ _ _ Hzs Hin)) as (Zn & Zc & Zk).
  assert (Hv : ZoneUpdate.validate (recolor v) = Valid (recolor v)).
  { unfold ZoneUpdate.validate, recolor, ZoneUpdate.color_field; simpl; rewrite Hp; reflexivity. }
  unfold out, serve, content2, with_body; rewrite Hv.
  unfold update_zone; rewrite Hzone, zone_instance_after; simpl.
  unfold update_zone_row; simpl.
  rewrite String.eqb_refl, Z.eqb_refl, Bool.eqb_reflx; simpl.
  assert (Hd : option_string_eqb (Zone.description zone) (Zone.description zone) = true)
    by (destruct (Zone.description zone); simpl; [apply String.eqb_refl | reflexivity]).
  rewrite Hd, andb_true_r.
  destruct (String.eqb_spec v (Zone.color zone)) as [E|E]; simpl.
  - rewrite (zone_ok_validates zone) by (apply (forallb_In _ _ _ Hzs Hin)); simpl.
    split; [eexists; split; [reflexivity | simpl; rewrite E; reflexivity]|].
    exists zone; split; [exact Hzone | split; [symmetry; exact E | rewrite <- E; exact Hn]].
  - set (row := {| Zone.id := Zone.id zone; Zone.name := Zone.name zone;
                   Zone.city_id := Zone.city_id zone; Zone.color := v;
                   Zone.description := Zone.description zone;
                   Zone.is_active := Zone.is_active zone;
                   Zone.created_at := Zone.created_at zone; Zone.updated_at := now |}).
    rewrite (zone_ok_validates row)
      by (apply (zone_ok_of_parts (Zone.name zone) zone row (Zone.city_id zone) v);
          try assumption; reflexivity).
    simpl; split; [eexists; split; reflexivity|].
    exists row; split; [|split; [reflexivity | exact Hn]].
    apply (zone_find_replaced zone_id zone row (zones db) Hzone); reflexivity.
Qed.

Lemma create_zone_default_color (b : ZoneCreate.body) (d : ZoneCreate.t) :
  ZoneCreate.b_color b = Unset -> ZoneCreate.validate b = Valid d ->
  ZoneCreate.color d = "#3498db" /\ normalized_color (ZoneCreate.color d) = false.
Proof.
  intros Hu; unfold ZoneCreate.validate; rewrite Hu; simpl.
  destruct (and_then (required _ _ _) _) as [e|n];
    destruct (and_then (required "city_id" _ _) _) as [e'|c]; try discriminate.
  intros H; injection H as <-; split; reflexivity.
Qed.

Lemma update_zone_duplicates_name_city_setup :
  let out := serve Config.settings 9 setup_database (PUT_zone 2 (rename_to "Norte")) in
  zones_unique setup_database /\
  status_of (snd out) = 200 /\
  map name_city (zones (fst out)) = [("Norte", 1); ("Norte", 1); ("Sur", 1)] /\
  ~ zones_unique (fst out) /\
  serve Config.settings 9 setup_database (POST_zones (new_zone "Norte" 1 Unset))
  = (setup_database, HTTPException 400 "La zona 'Norte' ya existe en Bogota") /\
  status_of (snd (serve Config.settings 9 setup_database (POST_zones (new_zone "Norte" 2 Unset))))
  = 201.
Proof.
  destruct (update_zone_duplicates_name_city Config.settings 9 setup_database 2
              (zone_row 2 "Centro" 1 "#F39C12" "Zona centro" true)
              (zone_row 1 "Norte" 1 "#E74C3C" "Zona norte" true)
              setup_database_presentable eq_refl (or_introl eq_refl)
              ltac:(discriminate) eq_refl ltac:(discriminate))
    as (Hstatus & _ & Hdup).
  split; [exact setup_database_zones_unique|].
  split; [exact Hstatus|].
  split; [reflexivity|].
  split; [exact Hdup|].
  split; reflexivity.
Defined.

Lemma update_zone_city_not_looked_up_setup :
  city_by_id setup_database 99 = None /\
  serve Config.settings 9 setup_database (PUT_zone 1 (move_to_city 99))
  = (setup_database, ServerError (DBIntegrityError (ForeignKeyViolation "zones_city_id_fkey"))) /\
  serve Config.settings 9 setup_database (POST_zones (new_zone "Este" 99 Unset))
  = (setup_database, HTTPException 404 "Ciudad con ID 99 no encontrada").
Proof.
  split; [reflexivity|].
  split; [|reflexivity].
  apply (update_zone_city_not_looked_up Config.settings 9 setup_database 1
           (zone_row 1 "Norte" 1 "#E74C3C" "Zona norte" true) 99 eq_refl eq_refl).
  - discriminate.
  - intros x H; simpl in H; repeat (destruct H as [<-|H]; [discriminate|]); destruct H.
Defined.

Lemma update_zone_stores_color_as_sent_setup :
  let stored out id := option_map Zone.color (zone_by_id (fst out) id) in
  let created := serve Config.settings 9 setup_database
                   (POST_zones (new_zone "Este" 1 (Value "#3498db"))) in
  let updated := serve Config.settings 9 setup_database (PUT_zone 1 (recolor "#3498db")) in
  let defaulted := serve Config.settings 9 setup_database (POST_zones (new_zone "Este" 1 Unset)) in
  (exists r, snd updated = OK 200 (ZoneOne r) /\ ZoneResponse.color r = "#3498DB") /\
  stored updated 1 = Some "#3498db" /\
  (status_of (snd created) = 201 /\ stored created 4 = Some "#3498DB") /\
  (status_of (snd defaulted) = 201 /\ stored defaulted 4 = Some "#3498db") /\
  status_of (snd (serve Config.settings 9 setup_database
                    (POST_zones (new_zone "Este" 1 (Value "blue"))))) = 422 /\
  status_of (snd (serve Config.settings 9 setup_database (PUT_zone 1 (recolor "blue")))) = 422.
Proof.
  destruct (update_zone_stores_color_as_sent Config.settings 9 setup_database 1
              (zone_row 1 "Norte" 1 "#E74C3C" "Zona norte" true) "#3498db"
              setup_database_presentable eq_refl eq_refl eq_refl)
    as (Hshown & _).
  split; [exact Hshown|].
  split; [reflexivity|].
  repeat split.
Defined.

(* ================================================================== *)
(** * Reading a zone and listing zones *)

Lemma find_app_first {A : Type} (p : A -> bool) (l1 l2 : list A) :
  find p (l1 ++ l2) = match find p l1 with
                      | Some x => Some x
                      | None => find p l2
                      end.
Proof.
  induction l1 as [|x r IH]; simpl; [reflexivity|].
  destruct (p x); [reflexivity | exact IH].
Qed.

Lemma find_filter_head {A : Type} (p : A -> bool) (l : list A) :
  hd_error (filter p l) = find p l.
Proof.
  induction l as [|x r IH]; simpl; [reflexivity|].
  destruct (p x); [reflexivity | exact IH].
Qed.

Lemma cities_of_zone (db : DB) (z : Zone.t) :
  hd_error (filter (fun c => Zone.city_id z =? City.id c) (cities db))
  = city_by_id db (Zone.city_id z).
Proof.
  rewrite find_filter_head; unfold city_by_id.
  induction (cities db) as [|c r IH]; simpl; [reflexivity|].
  rewrite (Z.eqb_sym (Zone.city_id z) (City.id c)).
  destruct (City.id c =? Zone.city_id z); [reflexivity | exact IH].
Qed.

Lemma find_pairs_none (i : Z) (z : Zone.t) (cs : list City.t) :
  Zone.id z <> i -> find (fun zc => Zone.id (fst zc) =? i) (map (pair z) cs) = None.
Proof.
  intros H; induction cs as [|c r IH]; simpl; [reflexivity|].
  apply Z.eqb_neq in H; rewrite H; exact IH.
Qed.

Lemma find_pairs_some (z : Zone.t) (cs : list City.t) :
  find (fun zc => Zone.id (fst zc) =? Zone.id z) (map (pair z) cs)
  = option_map (pair z) (hd_error cs).
Proof. destruct cs as [|c r]; simpl; [reflexivity | rewrite Z.eqb_refl; reflexivity]. Qed.

(** The first joined row of a zone id, when every zone has its city. *)
Lemma find_joined (db : DB) (zone_id : Z) :
  zones_reference_cities db ->
  find (fun zc => Zone.id (fst zc) =? zone_id) (zones_join_cities db)
  = match zone_by_id db zone_id with
    | Some zone => option_map (pair zone) (city_by_id db (Zone.city_id zone))
    | None => None
    end.
Proof.
  unfold zones_reference_cities, zones_join_cities, zone_by_id.
  induction (zones db) as [|z r IH]; intros Href; simpl; [reflexivity|].
  rewrite find_app_first.
  destruct (Z.eqb_spec (Zone.id z) zone_id) as [E|E].
  - rewrite <- E, find_pairs_some, cities_of_zone.
    destruct (Href z (or_introl eq_refl)) as (c & Hc & Hid).
    destruct (city_by_id db (Zone.city_id z)) as [c'|] eqn:F; [reflexivity|].
    exfalso; rewrite city_by_id_None in F; exact (F c Hc Hid).
  - rewrite (find_pairs_none zone_id z _ E); apply IH.
    intros z' Hz'; apply Href; right; exact Hz'.
Qed.

Lemma zone_by_id_None (db : DB) (zone_id : Z) :
  zone_by_id db zone_id = None <-> (forall z, In z (zones db) -> Zone.id z <> zone_id).
Proof.
  unfold zone_by_id; split.
  - intros H z Hz E; apply (find_none _ _ H) in Hz; apply Z.eqb_neq in Hz; contradiction.
  - intros H; destruct (find _ _) as [z|] eqn:E; [|reflexivity].
    apply find_some in E as [E1 E2]; apply Z.eqb_eq in E2; exfalso; exact (H z E1 E2).
Qed.

(** X1. [get_zone] on a well-formed store: it answers NotFound (404) with the
    id in the message exactly when no zone has the id; otherwise it returns
    the first zone with that id together with the name and country of the
    city that the zone's [city_id] designates. *)
Theorem get_zone_joins_its_city :
  forall (db : DB) (zone_id : Z),
    well_formed db ->
    ((forall z, In z (zones db) -> Zone.id z <> zone_id) ->
       get_zone db zone_id
       = HTTPException 404 ("Zona con ID " ++ str_of_int zone_id ++ " no encontrada")) /\
    (forall zone, zone_by_id db zone_id = Some zone ->
       exists city,
         city_by_id db (Zone.city_id zone) = Some city /\
         get_zone db zone_id = OK 200 (zone_city_view (zone, city))) /\
    (status_of (get_zone db zone_id) = 404 <->
     forall z, In z (zones db) -> Zone.id z <> zone_id).
Proof.
  intros db zone_id ([Hcs Hzs] & _ & Href).
  assert (Hfound : forall zone, zone_by_id db zone_id = Some zone ->
            exists city, city_by_id db (Zone.city_id zone) = Some city /\
                         get_zone db zone_id = OK 200 (zone_city_view (zone, city))).
  { intros zone Hz; unfold get_zone; rewrite (find_joined db zone_id Href), Hz.
    destruct (zone_by_id_In db zone_id zone Hz) as [Hin _].
    destruct (Href zone Hin) as (c & Hc & Hid).
    destruct (city_by_id db (Zone.city_id zone)) as [city|] eqn:F;
      [|exfalso; rewrite city_by_id_None in F; exact (F c Hc Hid)].
    exists city; split; [reflexivity|]; simpl.
    unfold ZoneWithCityResponse.make.
    rewrite (zone_ok_validates zone (forallb_In _ _ _ Hzs Hin)); reflexivity. }
  assert (Hnone : (forall z, In z (zones db) -> Zone.id z <> zone_id) ->
                  get_zone db zone_id = zone_not_found zone_id).
  { intros H; apply zone_by_id_None in H.
    unfold get_zone; rewrite (find_joined db zone_id Href), H; reflexivity. }
  split; [exact Hnone|]; split; [exact Hfound|]; split.
  - intros H; apply zone_by_id_None.
    destruct (zone_by_id db zone_id) as [zone|] eqn:F; [|reflexivity].
    destruct (Hfound zone eq_refl) as (city & _ & E); rewrite E in H; discriminate.
  - intros H; rewrite (Hnone H); reflexivity.
Qed.

Lemma setup_database_well_formed : well_formed setup_database.
Proof.
  split; [exact setup_database_presentable|].
  split; [exact setup_database_sequences_ahead|].
  intros z H; simpl in H.
  repeat (destruct H as [<-|H]; [exists (city_row 1 "Bogota"); split; [left|]; reflexivity|]).
  destruct H.
Defined.

Lemma get_zone_joins_its_city_setup :
  get_zone setup_database 999 = HTTPException 404 "Zona con ID 999 no encontrada" /\
  exists r, get_zone setup_database 1 = OK 200 r /\
            ZoneWithCityResponse.city_name r = "Bogota" /\
            ZoneResponse.name (ZoneWithCityResponse.zone r) = "Norte" /\
            ZoneResponse.color (ZoneWithCityResponse.zone r) = "#E74C3C".
Proof.
  destruct (get_zone_joins_its_city setup_database 999 setup_database_well_formed) as [H404 _].
  destruct (get_zone_joins_its_city setup_database 1 setup_database_well_formed) as (_ & H200 & _).
  split.
  - apply H404; intros z H; simpl in H.
    repeat (destruct H as [<-|H]; [discriminate|]); destruct H.
  - destruct (H200 (zone_row 1 "Norte" 1 "#E74C3C" "Zona norte" true) eq_refl)
      as (city & Hcity & Hget).
    injection Hcity as <-.
    eexists; split; [exact Hget|]; repeat split.
Defined.

Lemma validate_each_In {A B : Type} (f : A -> Validated B) (l : list A) (bs : list B) :
  validate_each f l = Valid bs ->
  forall b, In b bs -> exists a, In a l /\ f a = Valid b.
Proof.
  revert bs; induction l as [|x r IH]; simpl; intros bs H b Hb.
  - injection H as <-; destruct Hb.
  - destruct (f x) as [y|e] eqn:Fx; [|discriminate].
    destruct (validate_each f r) as [ys|e]; [|discriminate].
    injection H as <-; destruct Hb as [<-|Hb].
    + exists x; split; [left; reflexivity | exact Fx].
    + destruct (IH ys eq_refl b Hb) as (a & Ha & Fa); exists a; split; [right|]; assumption.
Qed.

Lemma validate_each_length {A B : Type} (f : A -> Validated B) (l : list A) (bs : list B) :
  validate_each f l = Valid bs -> List.length bs = List.length l.
Proof.
  revert bs; induction l as [|x r IH]; simpl; intros bs H.
  - injection H as <-; reflexivity.
  - destruct (f x); [|discriminate]; destruct (validate_each f r) as [ys|e]; [|discriminate].
    injection H as <-; simpl; rewrite (IH ys eq_refl); reflexivity.
Qed.

Lemma respond_OK {A : Type} (status : Z) (v : Validated A) (s : Z) (a : A) :
  respond status v = OK s a -> v = Valid a /\ s = status.
Proof. destruct v; simpl; intros H; [injection H as -> ->; split; reflexivity | discriminate]. Qed.

Lemma model_validate_zone_fields (z : Zone.t) (r : ZoneResponse.t) :
  ZoneResponse.model_validate z = Valid r ->
  ZoneResponse.id r = Zone.id z /\ ZoneResponse.name r = Zone.name z /\
  ZoneResponse.city_id r = Zone.city_id z /\ ZoneResponse.is_active r = Zone.is_active z /\
  ZoneResponse.color r = upper (Zone.color z) /\
  ZoneResponse.description r = Zone.description z.
Proof.
  unfold ZoneResponse.model_validate.
  destruct (str_length "name" 2 255 _) as [e|n] eqn:En;
    destruct (int_gt "city_id" 0 _) as [e'|c] eqn:Ec;
    destruct (ZoneBase.color_field _) as [e''|k] eqn:Ek; try discriminate.
  intros H; injection H as <-; simpl.
  apply str_length_id in En; apply int_gt_id in Ec; apply color_field_inr in Ek as [_ Ek].
  subst; repeat split.
Qed.

Lemma In_filter_opt_holds {A B : Type} (o : option B) (p : B -> A -> bool) (rows : list A)
    (x : A) (b : B) :
  In x (filter_opt o p rows) -> o = Some b -> p b x = true.
Proof. intros H ->; simpl in H; apply filter_In in H; tauto. Qed.

(** X2. Whatever [get_zones] lists (200) was joined from the store: every
    item is a stored zone with the name and country of a stored city whose
    [id] is the zone's [city_id]; with a [city_id] filter every item belongs
    to that city, with an [is_active] filter every item has that flag, and no
    more than [limit] items are listed. *)
Theorem get_zones_lists_joined_rows :
  forall (db : DB) (city_id skip limit : option Z) (is_active : option bool)
         (status : Z) (items : list ZoneWithCityResponse.t),
    get_zones db city_id skip limit is_active = OK status items ->
    status = 200 /\
    Z.of_nat (List.length items) <= param 100 limit /\
    forall r, In r items ->
      (exists z c,
         In z (zones db) /\ In c (cities db) /\ Zone.city_id z = City.id c /\
         ZoneResponse.id (ZoneWithCityResponse.zone r) = Zone.id z /\
         ZoneResponse.name (ZoneWithCityResponse.zone r) = Zone.name z /\
         ZoneWithCityResponse.city_name r = City.name c /\
         ZoneWithCityResponse.city_country r = City.country c) /\
      (forall i, city_id = Some i -> ZoneResponse.city_id (ZoneWithCityResponse.zone r) = i) /\
      (forall a, is_active = Some a ->
                 ZoneResponse.is_active (ZoneWithCityResponse.zone r) = a).
Proof.
  intros db city_id skip limit is_active status items; unfold get_zones.
  destruct (Query "skip" 0 0 None skip) as [e|s] eqn:Qs; [discriminate|].
  destruct (Query "limit" 100 1 (Some 1000) limit) as [e|l] eqn:Ql; [discriminate|].
  destruct (offset_limit s l _) as [e|page] eqn:Eo; [discriminate|].
  apply offset_limit_rows in Eo as [-> _].
  intros H; apply respond_OK in H as [Hv ->].
  assert (Hl : l = param 100 limit /\ 1 <= l).
  { destruct limit as [v|]; simpl in Ql |- *.
    - destruct (Z.ltb_spec v 1); [discriminate|]; destruct (1000 <? v); [discriminate|].
      injection Ql as <-; split; [reflexivity | lia].
    - injection Ql as <-; split; [reflexivity | lia]. }
  destruct Hl as [<- Hl1].
  split; [reflexivity|]; split.
  - rewrite (validate_each_length _ _ _ Hv), length_skip_take; lia.
  - intros r Hr; destruct (validate_each_In _ _ _ Hv r Hr) as ([z c] & Hzc & Hmake).
    simpl in Hmake; unfold ZoneWithCityResponse.make in Hmake.
    destruct (ZoneResponse.model_validate z) as [zr|errs] eqn:Ez; [|discriminate].
    injection Hmake as <-; simpl.
    destruct (model_validate_zone_fields z zr Ez) as (F1 & F2 & F3 & F4 & _).
    apply In_skip_take in Hzc.
    split; [|split].
    + exists z, c; apply In_filter_opt, In_filter_opt, In_zones_join_cities in Hzc.
      destruct Hzc as (Hz & Hc & E); repeat split; assumption.
    + intros i Hi; apply In_filter_opt in Hzc.
      apply (In_filter_opt_holds _ _ _ _ i Hzc) in Hi; simpl in Hi.
      apply Z.eqb_eq in Hi; congruence.
    + intros a Ha; apply (In_filter_opt_holds _ _ _ _ a Hzc) in Ha; simpl in Ha.
      apply Bool.eqb_prop in Ha; congruence.
Qed.

Lemma get_zones_lists_joined_rows_setup :
  exists items,
    get_zones setup_database (Some 1) None (Some 2) (Some true) = OK 200 items /\
    List.length items = 2%nat /\
    forall r, In r items -> ZoneResponse.city_id (ZoneWithCityResponse.zone r) = 1.
Proof.
  eexists; split; [reflexivity|]; split; [reflexivity|].
  intros r Hr.
  destruct (get_zones_lists_joined_rows setup_database (Some 1) None (Some 2) (Some true)
              200 _ eq_refl) as (_ & _ & H).
  destruct (H r Hr) as (_ & Hcity & _); apply Hcity; reflexivity.
Defined.

Lemma model_validate_city_fields (c : City.t) (r : CityResponse.t) :
  CityResponse.model_validate c = Valid r -> r = city_view c.
Proof.
  unfold CityResponse.model_validate.
  destruct (str_length "name" 2 255 _) as [e|n] eqn:En;
    destruct (str_length "country" 0 100 _) as [e'|k] eqn:Ek; try discriminate.
  intros H; injection H as <-; apply str_length_id in En, Ek; subst; reflexivity.
Qed.

(** X3. Whatever [get_cities] lists (200) is stored: every item shows a
    stored city, in store order; with an [is_active] filter every item has
    that flag. *)
Theorem get_cities_lists_stored_rows :
  forall (db : DB) (skip limit : option Z) (is_active : option bool)
         (status : Z) (items : list CityResponse.t),
    get_cities db skip limit is_active = OK status items ->
    status = 200 /\
    (exists rows,
       items = map city_view rows /\
       rows = firstn (Z.to_nat (param 100 limit))
                (skipn (Z.to_nat (param 0 skip)) (cities_selected db is_active))) /\
    forall r, In r items ->
      (exists c, In c (cities db) /\ r = city_view c) /\
      (forall a, is_active = Some a -> CityResponse.is_active r = a).
Proof.
  intros db skip limit is_active status items; unfold get_cities.
  destruct (Query "skip" 0 0 None skip) as [e|s] eqn:Qs; [discriminate|].
  destruct (Query "limit" 100 1 (Some 1000) limit) as [e|l] eqn:Ql; [discriminate|].
  assert (Hs : s = param 0 skip).
  { destruct skip as [v|]; simpl in Qs |- *; [|injection Qs as <-; reflexivity].
    destruct (v <? 0); [discriminate | injection Qs as <-; reflexivity]. }
  assert (Hl : l = param 100 limit).
  { destruct limit as [v|]; simpl in Ql |- *; [|injection Ql as <-; reflexivity].
    destruct (v <? 1); [discriminate|]; destruct (1000 <? v); [discriminate|].
    injection Ql as <-; reflexivity. }
  subst s l.
  destruct (offset_limit (param 0 skip) (param 100 limit) _) as [e|page] eqn:Eo; [discriminate|].
  apply offset_limit_rows in Eo as [-> _].
  intros H; apply respond_OK in H as [Hv ->].
  assert (Hitems : items = map city_view
                     (skip_take (param 0 skip) (param 100 limit)
                        (filter_opt is_active (fun a c => Bool.eqb (City.is_active c) a)
                           (cities db)))).
  { revert items Hv; generalize (skip_take (param 0 skip) (param 100 limit)
                        (filter_opt is_active (fun a c => Bool.eqb (City.is_active c) a)
                           (cities db))).
    induction l as [|c r IH]; simpl; intros items Hv; [injection Hv as <-; reflexivity|].
    destruct (CityResponse.model_validate c) as [y|e] eqn:Fc; [|discriminate].
    destruct (validate_each CityResponse.model_validate r) as [ys|e]; [|discriminate].
    injection Hv as <-; rewrite (model_validate_city_fields c y Fc), (IH ys eq_refl); reflexivity. }
  split; [reflexivity|]; split.
  - eexists; split; [exact Hitems|]; destruct is_active; reflexivity.
  - intros r Hr; rewrite Hitems in Hr; apply in_map_iff in Hr as (c & <- & Hc).
    apply In_skip_take in Hc; split.
    + exists c; split; [apply In_filter_opt in Hc; exact Hc | reflexivity].
    + intros a Ha; apply (In_filter_opt_holds _ _ _ _ a Hc) in Ha; simpl in Ha.
      apply Bool.eqb_prop in Ha; exact Ha.
Qed.

Lemma get_cities_lists_stored_rows_setup :
  exists items,
    get_cities setup_database None None (Some true) = OK 200 items /\
    List.length items = 2%nat /\
    forall r, In r items -> CityResponse.is_active r = true.
Proof.
  eexists; split; [reflexivity|]; split; [reflexivity|].
  intros r Hr.
  destruct (get_cities_lists_stored_rows setup_database None None (Some true) 200 _ eq_refl)
    as (_ & _ & H).
  destruct (H r Hr) as (_ & Hact); apply Hact; reflexivity.
Defined.

Lemma firstn_plus {A : Type} (n m : nat) (l : list A) :
  firstn (n + m) l = firstn n l ++ firstn m (skipn n l).
Proof.
  revert l; induction n as [|n IH]; intros l; simpl; [reflexivity|].
  destruct l as [|x r]; simpl; [rewrite firstn_nil; reflexivity | rewrite IH; reflexivity].
Qed.

Lemma skip_take_pages {A : Type} (skip l1 l2 : Z) (rows : list A) :
  0 <= skip -> 0 <= l1 -> 0 <= l2 ->
  skip_take skip (l1 + l2) rows
  = skip_take skip l1 rows ++ skip_take (skip + l1) l2 rows.
Proof.
  intros Hs H1 H2; unfold skip_take.
  rewrite !Z2Nat.inj_add by lia.
  rewrite firstn_plus, skipn_skipn, (Nat.add_comm (Z.to_nat l1)); reflexivity.
Qed.

Lemma validate_each_app {A B : Type} (f : A -> Validated B) (l1 l2 : list A) (b1 b2 : list B) :
  validate_each f l1 = Valid b1 -> validate_each f l2 = Valid b2 ->
  validate_each f (l1 ++ l2) = Valid (b1 ++ b2).
Proof.
  revert b1; induction l1 as [|x r IH]; simpl; intros b1 H1 H2.
  - injection H1 as <-; exact H2.
  - destruct (f x); [|discriminate]; destruct (validate_each f r) as [ys|e]; [|discriminate].
    injection H1 as <-; rewrite (IH ys eq_refl H2); reflexivity.
Qed.

Lemma get_cities_in_range (db : DB) (s l : Z) (is_active : option bool) :
  0 <= s -> 1 <= l <= 1000 ->
  get_cities db (Some s) (Some l) is_active
  = match offset_limit s l (filter_opt is_active (fun a c => Bool.eqb (City.is_active c) a)
                              (cities db)) with
    | inl e => ServerError (DBDataError e)
    | inr page => respond HTTP_200_OK (validate_each CityResponse.model_validate page)
    end.
Proof.
  intros Hs Hl; unfold get_cities.
  rewrite (Query_at_least "skip" 0 0 (Some s) Hs), (Query_in_range "limit" 100 1 1000 (Some l) Hl).
  reflexivity.
Qed.

Lemma get_zones_in_range (db : DB) (city_id : option Z) (s l : Z) (is_active : option bool) :
  0 <= s -> 1 <= l <= 1000 ->
  get_zones db city_id (Some s) (Some l) is_active
  = match offset_limit s l
            (filter_opt is_active (fun a zc => Bool.eqb (Zone.is_active (fst zc)) a)
               (filter_opt city_id (fun i zc => Zone.city_id (fst zc) =? i)
                  (zones_join_cities db))) with
    | inl e => ServerError (DBDataError e)
    | inr page =>
        respond HTTP_200_OK
          (validate_each (fun zc => ZoneWithCityResponse.make (fst zc) (snd zc)) page)
    end.
Proof.
  intros Hs Hl; unfold get_zones.
  rewrite (Query_at_least "skip" 0 0 (Some s) Hs), (Query_in_range "limit" 100 1 1000 (Some l) Hl).
  reflexivity.
Qed.

(** X4. Consecutive pages compose, for both listings, as long as the two
    limits together stay within the bound of [limit]
    ([l1 + l2 <= 1000]): when the page of [l1] rows at offset [skip] and the
    page of [l2] rows at offset [skip + l1] are both answered (200), the
    page of [l1 + l2] rows at offset [skip] is answered with the two pages
    one after the other, so paging neither drops nor repeats a row. When
    [l1 + l2] exceeds 1000 the request for the combined page is rejected
    (422), whatever the two pages were. *)
Theorem listing_pages_compose :
  forall (db : DB) (city_id : option Z) (skip l1 l2 : Z) (is_active : option bool),
    0 <= skip -> 1 <= l1 -> 1 <= l2 ->
    (l1 + l2 <= 1000 ->
       (forall p1 p2,
          get_cities db (Some skip) (Some l1) is_active = OK 200 p1 ->
          get_cities db (Some (skip + l1)) (Some l2) is_active = OK 200 p2 ->
          get_cities db (Some skip) (Some (l1 + l2)) is_active = OK 200 (p1 ++ p2)) /\
       (forall p1 p2,
          get_zones db city_id (Some skip) (Some l1) is_active = OK 200 p1 ->
          get_zones db city_id (Some (skip + l1)) (Some l2) is_active = OK 200 p2 ->
          get_zones db city_id (Some skip) (Some (l1 + l2)) is_active = OK 200 (p1 ++ p2))) /\
    (1000 < l1 + l2 ->
       status_of (get_cities db (Some skip) (Some (l1 + l2)) is_active) = 422 /\
       status_of (get_zones db city_id (Some skip) (Some (l1 + l2)) is_active) = 422).
Proof.
  intros db city_id skip l1 l2 is_active Hs H1 H2; split.
  - intros Hsum; split; intros p1 p2.
    + rewrite !get_cities_in_range by lia.
      destruct (offset_limit skip l1 _) as [e|r1] eqn:O1; [discriminate|].
      destruct (offset_limit (skip + l1) l2 _) as [e|r2] eqn:O2; [discriminate|].
      apply offset_limit_rows in O1 as [-> Hm1]; apply offset_limit_rows in O2 as [-> Hm2].
      rewrite offset_limit_in_range by (unfold bigint_max in *; lia).
      rewrite skip_take_pages by lia.
      intros E1 E2; apply respond_OK in E1 as [E1 _]; apply respond_OK in E2 as [E2 _].
      rewrite (validate_each_app _ _ _ _ _ E1 E2); reflexivity.
    + rewrite !get_zones_in_range by lia.
      destruct (offset_limit skip l1 _) as [e|r1] eqn:O1; [discriminate|].
      destruct (offset_limit (skip + l1) l2 _) as [e|r2] eqn:O2; [discriminate|].
      apply offset_limit_rows in O1 as [-> Hm1]; apply offset_limit_rows in O2 as [-> Hm2].
      rewrite offset_limit_in_range by (unfold bigint_max in *; lia).
      rewrite skip_take_pages by lia.
      intros E1 E2; apply respond_OK in E1 as [E1 _]; apply respond_OK in E2 as [E2 _].
      rewrite (validate_each_app _ _ _ _ _ E1 E2); reflexivity.
  - intros Hsum; split; [unfold get_cities | unfold get_zones];
      apply pagination_rejected; simpl; lia.
Qed.

Lemma listing_pages_compose_setup :
  (exists p1 p2,
     get_zones setup_database None (Some 0) (Some 1) None = OK 200 p1 /\
     get_zones setup_database None (Some 1) (Some 2) None = OK 200 p2 /\
     get_zones setup_database None (Some 0) (Some 3) None = OK 200 (p1 ++ p2) /\
     List.length (p1 ++ p2) = 3%nat) /\
  status_of (get_cities setup_database (Some 0) (Some 600) None) = 200 /\
  status_of (get_cities setup_database (Some 600) (Some 600) None) = 200 /\
  status_of (get_cities setup_database (Some 0) (Some 1200) None) = 422.
Proof.
  split.
  - eexists; eexists; split; [reflexivity|]; split; [reflexivity|]; split; [|reflexivity].
    apply (listing_pages_compose setup_database None 0 1 2 None); try lia; reflexivity.
  - split; [reflexivity|]; split; [reflexivity|].
    apply (listing_pages_compose setup_database None 0 600 600 None); lia.
Defined.

(* ================================================================== *)
(** * What a write does to the store *)

Lemma existsb_false_forall {A : Type} (p : A -> bool) (l : list A) :
  existsb p l = false -> forall x, In x l -> p x = false.
Proof.
  intros H x Hx; destruct (p x) eqn:E; [|reflexivity].
  assert (existsb p l = true) by (apply existsb_exists; exists x; split; assumption).
  congruence.
Qed.

(** The outcomes of [create_city] on a validated payload. *)
Lemma create_city_outcome (now : Z) (db : DB) (body : CityCreate.body) (d : CityCreate.t) :
  CityCreate.validate body = Valid d ->
  let out := create_city now db d in
  (exists detail, out = (db, HTTPException 400 detail) /\
                  exists c, In c (cities db) /\ City.name c = CityCreate.name d) \/
  (exists e, out = (db, ServerError (DBIntegrityError e))) \/
  (exists row,
     out = (append_city row db, OK 201 (city_view row)) /\
     row = {| City.id := cities_id_seq db + 1; City.name := CityCreate.name d;
              City.country := CityCreate.country d; City.is_active := true;
              City.created_at := now; City.updated_at := now |} /\
     city_ok row = true /\
     (forall c, In c (cities db) -> City.id c <> City.id row /\ City.name c <> City.name row)).
Proof.
  intros Hv out; subst out.
  destruct (CityCreate_valid body d Hv) as (L1 & L2 & L3).
  unfold create_city, create_city_among, create_city_existing.
  destruct (city_by_name db (CityCreate.name d)) as [c|] eqn:F.
  - left; eexists; split; [reflexivity|].
    unfold city_by_name in F; apply find_some in F as [F1 F2].
    exists c; split; [exact F1 | apply String.eqb_eq; exact F2].
  - right; unfold create_city_commit, insert_city.
    destruct (existsb (fun c => City.id c =? cities_id_seq db + 1) (cities db)) eqn:E1;
      [left; eexists; reflexivity|].
    destruct (existsb (fun c => String.eqb (City.name c) (CityCreate.name d)) (cities db)) eqn:E2;
      [left; eexists; reflexivity|].
    right; eexists; split; [|split; [reflexivity|split]].
    + rewrite city_ok_validates; [reflexivity|].
      unfold city_ok; cbn [City.name City.country]; rewrite L1, L2, L3; reflexivity.
    + unfold city_ok; cbn [City.name City.country]; rewrite L1, L2, L3; reflexivity.
    + intros c Hc; simpl; split.
      * apply Z.eqb_neq, (existsb_false_forall _ _ E1 c Hc).
      * apply String.eqb_neq, (existsb_false_forall _ _ E2 c Hc).
Qed.

(** The outcomes of [update_city] on a validated payload, for a store whose
    city rows pass the response schema. *)
Lemma update_city_outcome (now : Z) (db : DB) (city_id : Z) (body b : CityUpdate.t) :
  CityUpdate.validate body = Valid b ->
  forallb city_ok (cities db) = true ->
  let out := update_city now db city_id b in
  (out = (db, city_not_found city_id) /\ city_by_id db city_id = None) \/
  (exists old,
     city_by_id db city_id = Some old /\
     ((exists e, out = (db, ServerError (DBIntegrityError e))) \/
      out = (db, OK 200 (city_view old)) \/
      (exists row,
         out = (replace_city old row db, OK 200 (city_view row)) /\
         City.id row = City.id old /\ City.created_at row = City.created_at old /\
         City.updated_at row = now /\ city_ok row = true /\
         (City.name row = City.name old \/
          forall c, In c (cities db) -> City.id c <> City.id old ->
                    City.name c <> City.name row)))).
Proof.
  intros Hv Hcs out; subst out.
  apply CityUpdate_valid in Hv as (-> & Vn & Vk).
  unfold update_city.
  destruct (city_by_id db city_id) as [old|] eqn:Hold; [right | left; split; reflexivity].
  exists old; split; [reflexivity|].
  destruct (city_by_id_In db city_id old Hold) as [Hin _].
  assert (Ok : city_ok old = true) by (apply (forallb_In _ _ _ Hcs), Hin).
  rewrite city_instance_after; unfold update_city_row; simpl.
  destruct (assigned (CityUpdate.name body) (City.name old)) as [n|] eqn:En;
    [|left; eexists; reflexivity].
  destruct (assigned (CityUpdate.country body) (City.country old)) as [k|] eqn:Ek;
    [|left; eexists; reflexivity].
  destruct (assigned (CityUpdate.is_active body) (City.is_active old)) as [a|] eqn:Ea;
    [|left; eexists; reflexivity].
  destruct (String.eqb n (City.name old) && String.eqb k (City.country old)
            && Bool.eqb a (City.is_active old)).
  { right; left; rewrite (city_ok_validates old Ok); reflexivity. }
  destruct (negb (String.eqb n (City.name old))
            && existsb (fun c => negb (City.id c =? City.id old) && String.eqb (City.name c) n)
                 (cities db)) eqn:U; [left; eexists; reflexivity|].
  right; right.
  set (row := {| City.id := City.id old; City.name := n; City.country := k;
                 City.is_active := a; City.created_at := City.created_at old;
                 City.updated_at := now |}).
  assert (Hrow : city_ok row = true).
  { unfold city_ok in Ok |- *; cbn [City.name City.country row].
    apply andb_true_iff in Ok as [Ok O3]; apply andb_true_iff in Ok as [O1 O2].
    assert (Hn : (2 <=? String.length n)%nat = true /\ (String.length n <=? 255)%nat = true).
    { destruct (CityUpdate.name body) as [| |v]; simpl in En; try discriminate;
        injection En as <-; [tauto|].
      specialize (Vn v eq_refl); apply str_length_inr in Vn; tauto. }
    assert (Hk : (String.length k <=? 100)%nat = true).
    { destruct (CityUpdate.country body) as [| |v]; simpl in Ek; try discriminate;
        injection Ek as <-; [tauto|].
      specialize (Vk v eq_refl); apply str_length_inr in Vk; tauto. }
    destruct Hn as [H1 H2]; rewrite H1, H2, Hk; reflexivity. }
  exists row; split; [rewrite (city_ok_validates row Hrow); reflexivity|].
  repeat split; try assumption.
  apply andb_false_iff in U as [U|U].
  - left; apply negb_false_iff, String.eqb_eq in U; exact U.
  - right; intros c Hc Hid; pose proof (existsb_false_forall _ _ U c Hc) as H; simpl in H.
    apply Z.eqb_neq in Hid; rewrite Hid in H; simpl in H; apply String.eqb_neq; exact H.
Qed.

(** The outcomes of [create_zone] on a validated payload. *)
Lemma create_zone_outcome (now : Z) (db : DB) (body : ZoneCreate.body) (d : ZoneCreate.t) :
  ZoneCreate.validate body = Valid d ->
  let out := create_zone now db d in
  (out = (db, city_not_found (ZoneCreate.city_id d)) /\
   city_by_id db (ZoneCreate.city_id d) = None) \/
  (exists detail, out = (db, HTTPException 400 detail) /\
                  exists z, In z (zones db) /\
                            name_city z = (ZoneCreate.name d, ZoneCreate.city_id d)) \/
  (exists e, out = (db, ServerError (DBIntegrityError e))) \/
  (exists row city,
     out = (append_zone row db, OK 201 (zone_view row)) /\
     row = {| Zone.id := zones_id_seq db + 1; Zone.name := ZoneCreate.name d;
              Zone.city_id := ZoneCreate.city_id d; Zone.color := ZoneCreate.color d;
              Zone.description := ZoneCreate.description d; Zone.is_active := true;
              Zone.created_at := now; Zone.updated_at := now |} /\
     zone_ok row = true /\
     city_by_id db (ZoneCreate.city_id d) = Some city /\
     (forall z, In z (zones db) -> Zone.id z <> Zone.id row /\ name_city z <> name_city row)).
Proof.
  intros Hv out; subst out.
  destruct (ZoneCreate_valid body d Hv) as (L1 & L2 & L3 & L4).
  unfold create_zone.
  destruct (city_by_id db (ZoneCreate.city_id d)) as [city|] eqn:Hcity;
    [right | left; split; reflexivity].
  destruct (zone_by_name_city db _ _) as [z|] eqn:F.
  - left; eexists; split; [reflexivity|].
    unfold zone_by_name_city in F; apply find_some in F as [F1 F2].
    apply andb_true_iff in F2 as [F2 F3]; apply String.eqb_eq in F2; apply Z.eqb_eq in F3.
    exists z; split; [exact F1 | unfold name_city; rewrite F2, F3; reflexivity].
  - right; unfold insert_zone.
    destruct (existsb (fun z => Zone.id z =? zones_id_seq db + 1) (zones db)) eqn:E1;
      [left; eexists; reflexivity|].
    destruct (negb (existsb (fun c => City.id c =? ZoneCreate.city_id d) (cities db)));
      [left; eexists; reflexivity|].
    right.
    set (row := {| Zone.id := zones_id_seq db + 1; Zone.name := ZoneCreate.name d;
                   Zone.city_id := ZoneCreate.city_id d; Zone.color := ZoneCreate.color d;
                   Zone.description := ZoneCreate.description d; Zone.is_active := true;
                   Zone.created_at := now; Zone.updated_at := now |}).
    assert (Hrow : zone_ok row = true).
    { unfold zone_ok; cbn [Zone.name Zone.city_id Zone.color row].
      rewrite L1, L2, L3, L4; reflexivity. }
    exists row, city; split; [rewrite (zone_ok_validates row Hrow); reflexivity|].
    split; [reflexivity|]; split; [exact Hrow|]; split; [reflexivity|].
    intros z Hz; split.
    + apply Z.eqb_neq, (existsb_false_forall _ _ E1 z Hz).
    + apply (zone_by_name_city_None db _ _ F z Hz).
Qed.

(** The outcomes of [update_zone] on a validated payload, for a store whose
    zone rows pass the response schema. *)
Lemma update_zone_outcome (now : Z) (db : DB) (zone_id : Z) (body b : ZoneUpdate.t) :
  ZoneUpdate.validate body = Valid b ->
  forallb zone_ok (zones db) = true ->
  let out := update_zone now db zone_id b in
  (out = (db, zone_not_found zone_id) /\ zone_by_id db zone_id = None) \/
  (exists old,
     zone_by_id db zone_id = Some old /\
     ((exists e, out = (db, ServerError (DBIntegrityError e))) \/
      out = (db, OK 200 (zone_view old)) \/
      (exists row,
         out = (replace_zone old row db, OK 200 (zone_view row)) /\
         Zone.id row = Zone.id old /\ Zone.created_at row = Zone.created_at old /\
         Zone.updated_at row = now /\ zone_ok row = true /\
         Zone.name row = match ZoneUpdate.name body with
                         | Value v => v
                         | _ => Zone.name old
                         end /\
         Zone.color row = match ZoneUpdate.color body with
                          | Value v => v
                          | _ => Zone.color old
                          end /\
         Zone.is_active row = match ZoneUpdate.is_active body with
                              | Value v => v
                              | _ => Zone.is_active old
                              end /\
         Zone.description row = match ZoneUpdate.description body with
                                | Unset => Zone.description old
                                | Null => None
                                | Value v => Some v
                                end /\
         (Zone.city_id row = Zone.city_id old \/
          exists x, In x (cities db) /\ City.id x = Zone.city_id row)))).
Proof.
  intros Hv Hzs out; subst out.
  apply ZoneUpdate_valid in Hv as (-> & Vn & Vc & Vk).
  unfold update_zone.
  destruct (zone_by_id db zone_id) as [old|] eqn:Hold; [right | left; split; reflexivity].
  exists old; split; [reflexivity|].
  destruct (zone_by_id_In db zone_id old Hold) as [Hin _].
  destruct (zone_ok_parts old (forallb_In _ _ _ Hzs Hin)) as (On & Oc & Ok).
  rewrite zone_instance_after.
  match goal with
  | |- context [update_zone_row now old ?i db] =>
      destruct (update_zone_row_cases now old i db)
        as [[e He] | [He | (n & c & k & a & Hn & Hc & Hk & Ha & Hfk & He)]]
  end; rewrite He.
  - left; exists e; reflexivity.
  - right; left.
    rewrite (zone_ok_validates old (forallb_In _ _ _ Hzs Hin)); reflexivity.
  - right; right; simpl in Hn, Hc, Hk, Ha; simpl.
    set (row := {| Zone.id := Zone.id old; Zone.name := n; Zone.city_id := c;
                   Zone.color := k;
                   Zone.description := match ZoneUpdate.description body with
                                       | Unset => Zone.description old
                                       | Null => None
                                       | Value d => Some d
                                       end;
                   Zone.is_active := a; Zone.created_at := Zone.created_at old;
                   Zone.updated_at := now |}).
    assert (Hrow : zone_ok row = true).
    { apply (zone_ok_of_parts n old row c k); try reflexivity.
      - destruct (ZoneUpdate.name body) as [| |v]; simpl in Hn; try discriminate;
          injection Hn as <-; [exact On | exact (Vn v eq_refl)].
      - destruct (ZoneUpdate.city_id body) as [| |v]; simpl in Hc; try discriminate;
          injection Hc as <-; [exact Oc | exact (Vc v eq_refl)].
      - destruct (ZoneUpdate.color body) as [| |v]; simpl in Hk; try discriminate;
          injection Hk as <-; [exact Ok | exact (Vk v eq_refl)]. }
    exists row; split; [simpl; rewrite (zone_ok_validates row Hrow); reflexivity|].
    repeat split; try assumption.
    + destruct (ZoneUpdate.name body); simpl in Hn; try discriminate;
        injection Hn as <-; reflexivity.
    + destruct (ZoneUpdate.color body); simpl in Hk; try discriminate;
        injection Hk as <-; reflexivity.
    + destruct (ZoneUpdate.is_active body); simpl in Ha; try discriminate;
        injection Ha as <-; reflexivity.
Qed.

(* ================================================================== *)
(** * Keys and names stay unique *)

Lemma map_id_replace_city (old row : City.t) (l : list City.t) :
  City.id row = City.id old ->
  map City.id (map (fun c => if City.id c =? City.id old then row else c) l) = map City.id l.
Proof.
  intros H; rewrite map_map; apply map_ext; intros c.
  destruct (Z.eqb_spec (City.id c) (City.id old)); congruence.
Qed.

Lemma map_id_replace_zone (old row : Zone.t) (l : list Zone.t) :
  Zone.id row = Zone.id old ->
  map Zone.id (map (fun z => if Zone.id z =? Zone.id old then row else z) l) = map Zone.id l.
Proof.
  intros H; rewrite map_map; apply map_ext; intros z.
  destruct (Z.eqb_spec (Zone.id z) (Zone.id old)); congruence.
Qed.

Lemma replace_absent (old row : City.t) (l : list City.t) :
  ~ In (City.id old) (map City.id l) ->
  map (fun c => if City.id c =? City.id old then row else c) l = l.
Proof.
  induction l as [|c r IH]; simpl; intros H; [reflexivity|].
  destruct (Z.eqb_spec (City.id c) (City.id old)) as [E|E]; [exfalso; apply H; left; exact E|].
  rewrite IH; [reflexivity | intros H'; apply H; right; exact H'].
Qed.

Lemma NoDup_snoc {A : Type} (l : list A) (x : A) : NoDup l -> ~ In x l -> NoDup (l ++ [x]).
Proof.
  intros Hl Hx; apply NoDup_app; [exact Hl | repeat constructor; simpl; tauto |].
  intros y Hy [<-|[]]; exact (Hx Hy).
Qed.

Lemma NoDup_names_replace (old row : City.t) (l : list City.t) :
  NoDup (map City.id l) -> NoDup (map City.name l) -> In old l ->
  City.id row = City.id old ->
  (City.name row = City.name old \/
   forall c, In c l -> City.id c <> City.id old -> City.name c <> City.name row) ->
  NoDup (map City.name (map (fun c => if City.id c =? City.id old then row else c) l)).
Proof.
  intros Hid Hname Hold Hrow Hfree.
  induction l as [|c r IH]; simpl in *; [constructor|].
  inversion Hid as [|i li Hi Hid']; inversion Hname as [|n ln Hn Hname']; subst.
  destruct (Z.eqb_spec (City.id c) (City.id old)) as [E|E].
  - assert (c = old).
    { destruct Hold as [H|H]; [exact H|].
      exfalso; apply Hi; rewrite E; apply in_map; exact H. }
    subst c; rewrite (replace_absent old row r Hi).
    constructor; [|exact Hname'].
    intros Hin; apply in_map_iff in Hin as (c & Ec & Hc).
    destruct Hfree as [F|F].
    + apply Hn; rewrite <- F, <- Ec; apply in_map; exact Hc.
    + apply (F c (or_intror Hc)); [|exact Ec].
      intros E'; apply Hi; rewrite <- E'; apply in_map; exact Hc.
  - destruct Hold as [H|H]; [congruence|].
    constructor.
    + intros Hin; apply in_map_iff in Hin as (x & Ex & Hx).
      apply In_replace in Hx as [->|Hx].
      * destruct Hfree as [F|F].
        -- apply Hn; rewrite <- Ex, F; apply in_map; exact H.
        -- apply (F c (or_introl eq_refl) E); symmetry; exact Ex.
      * apply Hn; rewrite <- Ex; apply in_map; exact Hx.
    + apply IH; try assumption.
      destruct Hfree as [F|F]; [left; exact F | right].
      intros x Hx; apply F; right; exact Hx.
Qed.

Lemma serve_keys_unique (settings : Config.Settings) (now : Z) (db : DB) (req : Request) :
  presentable db -> keys_unique db -> keys_unique (fst (serve settings now db req)).
Proof.
  intros [Hcs Hzs] (Kc & Kz & Kn); destruct req; simpl; try (split; [|split]; assumption);
    unfold with_body.
  - destruct (CityCreate.validate body) as [d|errs] eqn:E; [|split; [|split]; assumption].
    destruct (create_city_outcome now db body d E)
      as [(detail & -> & _) | [(e & ->) | (row & -> & _ & _ & Hnew)]];
      try (split; [|split]; assumption).
    split; [|split; [exact Kz|]]; unfold city_ids_unique, city_names_unique; simpl;
      rewrite map_app; apply NoDup_snoc; try assumption.
    + intros H; apply in_map_iff in H as (c & Ec & Hc); exact (proj1 (Hnew c Hc) Ec).
    + intros H; apply in_map_iff in H as (c & Ec & Hc); exact (proj2 (Hnew c Hc) Ec).
  - destruct (CityUpdate.validate body) as [b|errs] eqn:E; [|split; [|split]; assumption].
    destruct (update_city_outcome now db city_id body b E Hcs)
      as [[-> _] | (old & Hold & [(e & ->) | [-> | (row & -> & Hid & _ & _ & _ & Hfree)]])];
      try (split; [|split]; assumption).
    split; [|split; [exact Kz|]]; unfold city_ids_unique, city_names_unique; simpl.
    + rewrite (map_id_replace_city old row _ Hid); exact Kc.
    + apply NoDup_names_replace; try assumption.
      apply (city_by_id_In db city_id old Hold).
  - destruct (ZoneCreate.validate body) as [d|errs] eqn:E; [|split; [|split]; assumption].
    destruct (create_zone_outcome now db body d E)
      as [[-> _] | [(detail & -> & _) | [(e & ->) | (row & city & -> & _ & _ & _ & Hnew)]]];
      try (split; [|split]; assumption).
    split; [exact Kc | split; [|exact Kn]]; unfold zone_ids_unique; simpl.
    rewrite map_app; apply NoDup_snoc; [exact Kz|].
    intros H; apply in_map_iff in H as (z & Ez & Hz); exact (proj1 (Hnew z Hz) Ez).
  - destruct (ZoneUpdate.validate body) as [b|errs] eqn:E; [|split; [|split]; assumption].
    destruct (update_zone_outcome now db zone_id body b E Hzs)
      as [[-> _] | (old & Hold & [(e & ->) | [-> | (row & -> & Hid & _)]])];
      try (split; [|split]; assumption).
    split; [exact Kc | split; [|exact Kn]]; unfold zone_ids_unique; simpl.
    rewrite (map_id_replace_zone old row _ Hid); exact Kz.
  - rewrite with_coordinates_reads; split; [|split]; assumption.
Qed.

(** X5. The store keeps its integrity over every sequence of requests: from
    a well-formed store with unique keys, every store reached has rows that
    the response schemas accept, zones that reference stored cities, unique
    city and zone ids, and unique city names (a city cannot be renamed to
    another city's name any more than created with it). *)
Theorem run_keeps_integrity :
  forall (settings : Config.Settings) (reqs : list (Z * Request)) (db : DB),
    well_formed db -> keys_unique db ->
    let db' := fst (run settings db reqs) in
    presentable db' /\ zones_reference_cities db' /\ sequences_ahead db' /\
    city_ids_unique db' /\ zone_ids_unique db' /\ city_names_unique db'.
Proof.
  intros settings reqs; induction reqs as [|[now req] rest IH]; intros db Hwf Hk; simpl.
  - destruct Hwf as (H1 & H2 & H3), Hk as (K1 & K2 & K3).
    split; [exact H1|]; split; [exact H3|]; split; [exact H2|]; split; [exact K1|]; split; assumption.
  - pose proof (serve_well_formed settings now db req Hwf) as Hwf'.
    pose proof (serve_keys_unique settings now db req (proj1 Hwf) Hk) as Hk'.
    destruct (serve settings now db req) as [db1 r]; simpl in Hwf', Hk'.
    specialize (IH db1 Hwf' Hk'); destruct (run settings db1 rest) as [db2 rs]; exact IH.
Qed.

Lemma empty_db_keys_unique : keys_unique empty_db.
Proof. split; [|split]; constructor. Defined.

Lemma run_keeps_integrity_from_empty :
  let reqs := [(1, POST_cities {| CityCreate.b_name := Value "Cali"; CityCreate.b_country := Unset |});
               (2, POST_cities {| CityCreate.b_name := Value "Pasto"; CityCreate.b_country := Unset |});
               (3, PUT_city 2 {| CityUpdate.name := Value "Cali"; CityUpdate.country := Unset;
                                 CityUpdate.is_active := Unset |});
               (4, POST_zones (new_zone "Norte" 1 Unset))] in
  city_names_unique (fst (run Config.settings empty_db reqs)) /\
  zones_reference_cities (fst (run Config.settings empty_db reqs)) /\
  map City.name (cities (fst (run Config.settings empty_db reqs))) = ["Cali"; "Pasto"].
Proof.
  intros reqs.
  destruct (run_keeps_integrity Config.settings reqs empty_db empty_db_well_formed
              empty_db_keys_unique) as (_ & Href & _ & _ & _ & Hnames).
  split; [exact Hnames|]; split; [exact Href | reflexivity].
Defined.

(* ================================================================== *)
(** * Failed requests, and responses that always serialize *)

Lemma content_response_ok {A : Type} (wrap : A -> Content) (r : Response A) :
  response_ok r -> response_ok (content wrap r).
Proof.
  intros H errs; destruct r; simpl; try discriminate.
  intros E; injection E as ->; exact (H errs eq_refl).
Qed.

Lemma get_cities_response_ok (db : DB) (skip limit : option Z) (is_active : option bool) :
  presentable db -> response_ok (get_cities db skip limit is_active).
Proof.
  intros [Hcs _] errs; unfold get_cities.
  destruct (Query "skip" 0 0 None skip) as [e|s]; [discriminate|].
  destruct (Query "limit" 100 1 (Some 1000) limit) as [e|l]; [discriminate|].
  destruct (offset_limit s l _) as [e|page] eqn:Eo; [discriminate|].
  apply offset_limit_rows in Eo as [-> _].
  rewrite (validate_each_map CityResponse.model_validate city_view); [discriminate|].
  intros c Hc; apply city_ok_validates, (forallb_In _ _ _ Hcs).
  apply In_skip_take, In_filter_opt in Hc; exact Hc.
Qed.

Lemma get_zones_response_ok (db : DB) (city_id skip limit : option Z) (is_active : option bool) :
  presentable db -> response_ok (get_zones db city_id skip limit is_active).
Proof.
  intros [_ Hzs] errs; unfold get_zones.
  destruct (Query "skip" 0 0 None skip) as [e|s]; [discriminate|].
  destruct (Query "limit" 100 1 (Some 1000) limit) as [e|l]; [discriminate|].
  destruct (offset_limit s l _) as [e|page] eqn:Eo; [discriminate|].
  apply offset_limit_rows in Eo as [-> _].
  rewrite (validate_each_map _ zone_city_view); [discriminate|].
  intros [z c] Hzc; unfold ZoneWithCityResponse.make; simpl.
  rewrite zone_ok_validates; [reflexivity|].
  apply (forallb_In _ _ _ Hzs).
  apply In_skip_take, In_filter_opt, In_filter_opt, In_zones_join_cities in Hzc; tauto.
Qed.

Lemma get_city_with_zones_response_ok (db : DB) (city_id : Z) :
  presentable db -> response_ok (get_city_with_zones db city_id).
Proof.
  intros [Hcs Hzs] errs; unfold get_city_with_zones.
  destruct (city_by_id db city_id) as [city|] eqn:Hc; [|discriminate].
  rewrite (validate_each_map ZoneResponse.model_validate zone_view).
  - rewrite (city_ok_validates city); [discriminate|].
    apply (forallb_In _ _ _ Hcs), (city_by_id_In db city_id), Hc.
  - intros z Hz; apply zone_ok_validates, (forallb_In _ _ _ Hzs).
    apply filter_In in Hz; tauto.
Qed.

Lemma get_zone_response_ok (db : DB) (zone_id : Z) :
  presentable db -> response_ok (get_zone db zone_id).
Proof.
  intros [_ Hzs] errs; unfold get_zone.
  destruct (find _ (zones_join_cities db)) as [[z c]|] eqn:F; [|discriminate].
  apply find_some in F as [F _]; apply In_zones_join_cities in F as [Hz _].
  unfold ZoneWithCityResponse.make.
  rewrite (zone_ok_validates z (forallb_In _ _ _ Hzs Hz)); discriminate.
Qed.

Lemma latitude_field_id (v w : pyfloat) :
  CoordinateValidation.latitude_field v = inr w ->
  w = v /\ CoordinateValidation.latitude_field w = inr w.
Proof.
  intros H; assert (E : w = v).
  { revert H; unfold CoordinateValidation.latitude_field, float_range.
    destruct (negb _); [discriminate|]; destruct (negb _); [discriminate|].
    cbn [and_then]; unfold CoordinateValidation.validate_latitude_colombia.
    destruct (negb _); [discriminate|]; intros H; injection H as <-; reflexivity. }
  split; [exact E | rewrite E at 1; rewrite H, E; reflexivity].
Qed.

Lemma longitude_field_id (v w : pyfloat) :
  CoordinateValidation.longitude_field v = inr w ->
  w = v /\ CoordinateValidation.longitude_field w = inr w.
Proof.
  intros H; assert (E : w = v).
  { revert H; unfold CoordinateValidation.longitude_field, float_range.
    destruct (negb _); [discriminate|]; destruct (negb _); [discriminate|].
    cbn [and_then]; unfold CoordinateValidation.validate_longitude_colombia.
    destruct (negb _); [discriminate|]; intros H; injection H as <-; reflexivity. }
  split; [exact E | rewrite E at 1; rewrite H, E; reflexivity].
Qed.

Lemma validate_coordinates_OK (settings : Config.Settings) (body : CoordinateValidation.body)
    (c : CoordinateValidation.t) :
  CoordinateValidation.validate body = Valid c ->
  validate_coordinates settings c
  = OK 200 {| CoordinateResponse.latitude := CoordinateValidation.latitude c;
              CoordinateResponse.longitude := CoordinateValidation.longitude c;
              CoordinateResponse.is_valid := true;
              CoordinateResponse.country := Config.DEFAULT_COUNTRY settings |}.
Proof.
  unfold CoordinateValidation.validate.
  destruct (CoordinateValidation.b_latitude body) as [| |la]; simpl;
    try (destruct (and_then _ _); discriminate).
  destruct (CoordinateValidation.b_longitude body) as [| |lo]; simpl;
    try (destruct (CoordinateValidation.latitude_field la); discriminate).
  destruct (CoordinateValidation.latitude_field la) as [e|la'] eqn:Ela;
    destruct (CoordinateValidation.longitude_field lo) as [e'|lo'] eqn:Elo; try discriminate.
  intros H; injection H as <-; simpl.
  apply latitude_field_id in Ela as [_ Ela]; apply longitude_field_id in Elo as [_ Elo].
  unfold validate_coordinates, CoordinateResponse.make; simpl; rewrite Ela, Elo; reflexivity.
Qed.

(** X6. On a well-formed store a request either succeeds (200 or 201) or
    leaves the store exactly as it was: a validation failure (422), NotFound
    (404), Conflict (400) and an integrity error of the store (500) write
    nothing. And the service never fails to serialize what it stored: no
    answer is a response-validation failure. *)
Theorem failed_request_writes_nothing :
  forall (settings : Config.Settings) (now : Z) (db : DB) (req : Request),
    well_formed db ->
    let out := serve settings now db req in
    response_ok (snd out) /\
    (status_of (snd out) <> 200 -> status_of (snd out) <> 201 -> fst out = db).
Proof.
  intros settings now db req (Hp & _ & _) out; subst out.
  pose proof Hp as [Hcs Hzs].
  destruct req; simpl; unfold with_body.
  - split; [apply content_response_ok, get_cities_response_ok; exact Hp | reflexivity].
  - split; [apply content_response_ok, get_city_with_zones_response_ok; exact Hp | reflexivity].
  - destruct (CityCreate.validate body) as [d|errs] eqn:E; simpl;
      [|split; [discriminate | reflexivity]].
    destruct (create_city_outcome now db body d E)
      as [(detail & -> & _) | [(e & ->) | (row & -> & _)]]; simpl;
      (split; [discriminate | try reflexivity]).
    intros _ H; exfalso; apply H; reflexivity.
  - destruct (CityUpdate.validate body) as [b|errs] eqn:E; simpl;
      [|split; [discriminate | reflexivity]].
    destruct (update_city_outcome now db city_id body b E Hcs)
      as [[-> _] | (old & Hold & [(e & ->) | [-> | (row & -> & _)]])]; simpl;
      (split; [discriminate | try reflexivity]).
    intros H; exfalso; apply H; reflexivity.
  - split; [apply content_response_ok, get_zones_response_ok; exact Hp | reflexivity].
  - split; [apply content_response_ok, get_zone_response_ok; exact Hp | reflexivity].
  - destruct (ZoneCreate.validate body) as [d|errs] eqn:E; simpl;
      [|split; [discriminate | reflexivity]].
    destruct (create_zone_outcome now db body d E)
      as [[-> _] | [(detail & -> & _) | [(e & ->) | (row & city & -> & _)]]]; simpl;
      (split; [discriminate | try reflexivity]).
    intros _ H; exfalso; apply H; reflexivity.
  - destruct (ZoneUpdate.validate body) as [b|errs] eqn:E; simpl;
      [|split; [discriminate | reflexivity]].
    destruct (update_zone_outcome now db zone_id body b E Hzs)
      as [[-> _] | (old & Hold & [(e & ->) | [-> | (row & -> & _)]])]; simpl;
      (split; [discriminate | try reflexivity]).
    intros H; exfalso; apply H; reflexivity.
  - unfold with_coordinates.
    destruct (CoordinateValidation.validate body) as [c|errs] eqn:E; simpl;
      [|destruct (json_compliant _ && json_compliant _); simpl;
        (split; [discriminate | reflexivity])].
    rewrite (validate_coordinates_OK settings body c E); split; [discriminate | reflexivity].
Qed.

Lemma failed_request_writes_nothing_setup :
  let out := serve Config.settings 9 setup_database
               (POST_cities {| CityCreate.b_name := Value "Bogota"; CityCreate.b_country := Unset |}) in
  status_of (snd out) = 400 /\ fst out = setup_database.
Proof.
  split; [reflexivity|].
  apply (failed_request_writes_nothing Config.settings 9 setup_database _
           setup_database_well_formed); discriminate.
Defined.

(* ================================================================== *)
(** * Rows are never removed *)

Lemma city_keys_replace (old row : City.t) (l : list City.t) :
  NoDup (map City.id l) -> In old l ->
  City.id row = City.id old -> City.created_at row = City.created_at old ->
  map (fun c => (City.id c, City.created_at c))
      (map (fun c => if City.id c =? City.id old then row else c) l)
  = map (fun c => (City.id c, City.created_at c)) l.
Proof.
  intros Hnd Hold Hid Hat; rewrite map_map; apply map_ext_in; intros c Hc.
  destruct (Z.eqb_spec (City.id c) (City.id old)) as [E|E]; [|reflexivity].
  rewrite (NoDup_map_In_eq City.id l c old Hnd Hc Hold E), Hid, Hat; reflexivity.
Qed.

Lemma zone_keys_replace (old row : Zone.t) (l : list Zone.t) :
  NoDup (map Zone.id l) -> In old l ->
  Zone.id row = Zone.id old -> Zone.created_at row = Zone.created_at old ->
  map (fun z => (Zone.id z, Zone.created_at z))
      (map (fun z => if Zone.id z =? Zone.id old then row else z) l)
  = map (fun z => (Zone.id z, Zone.created_at z)) l.
Proof.
  intros Hnd Hold Hid Hat; rewrite map_map; apply map_ext_in; intros z Hz.
  destruct (Z.eqb_spec (Zone.id z) (Zone.id old)) as [E|E]; [|reflexivity].
  rewrite (NoDup_map_In_eq Zone.id l z old Hnd Hz Hold E), Hid, Hat; reflexivity.
Qed.

Lemma serve_keeps_rows (settings : Config.Settings) (now : Z) (db : DB) (req : Request) :
  presentable db -> keys_unique db ->
  exists cs zs,
    Permutation (city_keys (fst (serve settings now db req))) (city_keys db ++ cs) /\
    Permutation (zone_keys (fst (serve settings now db req))) (zone_keys db ++ zs).
Proof.
  intros [Hcs Hzs] (Kc & Kz & _).
  assert (Hsame : exists cs zs, Permutation (city_keys db) (city_keys db ++ cs) /\
                                Permutation (zone_keys db) (zone_keys db ++ zs))
    by (exists [], []; rewrite !app_nil_r; split; reflexivity).
  destruct req; simpl; try exact Hsame; unfold with_body.
  - destruct (CityCreate.validate body) as [d|errs] eqn:E; [|exact Hsame].
    destruct (create_city_outcome now db body d E)
      as [(detail & -> & _) | [(e & ->) | (row & -> & _)]]; try exact Hsame.
    exists [(City.id row, City.created_at row)], []; unfold city_keys, zone_keys; simpl.
    rewrite map_app, app_nil_r; split; reflexivity.
  - destruct (CityUpdate.validate body) as [b|errs] eqn:E; [|exact Hsame].
    destruct (update_city_outcome now db city_id body b E Hcs)
      as [[-> _] | (old & Hold & [(e & ->) | [-> | (row & -> & Hid & Hat & _)]])];
      try exact Hsame.
    exists [], []; unfold city_keys, zone_keys; simpl; rewrite !app_nil_r.
    split; [|reflexivity].
    rewrite city_keys_replace; [reflexivity | assumption | | assumption | assumption].
    apply (city_by_id_In db city_id old Hold).
  - destruct (ZoneCreate.validate body) as [d|errs] eqn:E; [|exact Hsame].
    destruct (create_zone_outcome now db body d E)
      as [[-> _] | [(detail & -> & _) | [(e & ->) | (row & city & -> & _)]]];
      try exact Hsame.
    exists [], [(Zone.id row, Zone.created_at row)]; unfold city_keys, zone_keys; simpl.
    rewrite map_app, app_nil_r; split; reflexivity.
  - destruct (ZoneUpdate.validate body) as [b|errs] eqn:E; [|exact Hsame].
    destruct (update_zone_outcome now db zone_id body b E Hzs)
      as [[-> _] | (old & Hold & [(e & ->) | [-> | (row & -> & Hid & Hat & _)]])];
      try exact Hsame.
    exists [], []; unfold city_keys, zone_keys; simpl; rewrite !app_nil_r.
    split; [reflexivity|].
    rewrite zone_keys_replace; [reflexivity | assumption | | assumption | assumption].
    apply (zone_by_id_In db zone_id old Hold).
  - rewrite with_coordinates_reads; exact Hsame.
Qed.

(** X7. No request removes or renumbers a row: after any sequence of
    requests on a well-formed store with unique keys, the cities and the
    zones that were stored are still there, each with the [id] and
    [created_at] it had, and what else is stored was added. The statement
    is about which rows are stored and how many, not about the order in
    which the store lists them. *)
Theorem rows_are_never_removed :
  forall (settings : Config.Settings) (reqs : list (Z * Request)) (db : DB),
    well_formed db -> keys_unique db ->
    exists cs zs,
      Permutation (city_keys (fst (run settings db reqs))) (city_keys db ++ cs) /\
      Permutation (zone_keys (fst (run settings db reqs))) (zone_keys db ++ zs).
Proof.
  intros settings reqs; induction reqs as [|[now req] rest IH]; intros db Hwf Hk; simpl.
  - exists [], []; rewrite !app_nil_r; split; reflexivity.
  - pose proof (serve_well_formed settings now db req Hwf) as Hwf'.
    pose proof (serve_keys_unique settings now db req (proj1 Hwf) Hk) as Hk'.
    destruct (serve_keeps_rows settings now db req (proj1 Hwf) Hk) as (cs & zs & Hc & Hz).
    destruct (serve settings now db req) as [db1 r]; simpl in Hwf', Hk', Hc, Hz.
    destruct (IH db1 Hwf' Hk') as (cs' & zs' & Hc' & Hz').
    destruct (run settings db1 rest) as [db2 rs]; simpl in Hc', Hz' |- *.
    exists (cs ++ cs'), (zs ++ zs'); split.
    + apply (Permutation_trans Hc'); rewrite app_assoc.
      apply Permutation_app_tail; exact Hc.
    + apply (Permutation_trans Hz'); rewrite app_assoc.
      apply Permutation_app_tail; exact Hz.
Qed.

Lemma setup_database_keys_unique : keys_unique setup_database.
Proof.
  split; [|split]; unfold city_ids_unique, zone_ids_unique, city_names_unique; simpl;
    repeat (apply NoDup_cons; [simpl; intuition discriminate|]); apply NoDup_nil.
Defined.

Lemma rows_are_never_removed_setup :
  let reqs := [(5, PUT_zone 2 (rename_to "Chapinero"));
               (6, PUT_city 1 {| CityUpdate.name := Unset; CityUpdate.country := Unset;
                                 CityUpdate.is_active := Value false |});
               (7, POST_zones (new_zone "Oriente" 2 Unset))] in
  exists cs zs,
    Permutation (city_keys (fst (run Config.settings setup_database reqs)))
                ([(1, 0); (2, 0)] ++ cs) /\
    Permutation (zone_keys (fst (run Config.settings setup_database reqs)))
                ([(1, 1); (2, 1); (3, 1)] ++ zs).
Proof.
  intros reqs.
  exact (rows_are_never_removed Config.settings reqs setup_database
           setup_database_well_formed setup_database_keys_unique).
Defined.

(* ================================================================== *)
(** * What was created can be read back *)

Lemma get_city_with_zones_presentable (db : DB) (city_id : Z) (city : City.t) :
  presentable db -> city_by_id db city_id = Some city ->
  get_city_with_zones db city_id
  = OK 200 {| CityWithZonesResponse.city := city_view city;
              CityWithZonesResponse.zones := map zone_view (active_zones db city_id);
              CityWithZonesResponse.total_zones :=
                Z.of_nat (List.length (active_zones db city_id)) |}.
Proof.
  intros [Hcs Hzs] Hc; unfold get_city_with_zones, active_zones; rewrite Hc.
  rewrite (validate_each_map ZoneResponse.model_validate zone_view).
  - rewrite (city_ok_validates city); [reflexivity|].
    apply (forallb_In _ _ _ Hcs), (city_by_id_In db city_id), Hc.
  - intros z Hz; apply zone_ok_validates, (forallb_In _ _ _ Hzs).
    apply filter_In in Hz; tauto.
Qed.

Lemma find_snoc_new {A : Type} (p : A -> bool) (l : list A) (x : A) :
  (forall y, In y l -> p y = false) -> p x = true -> find p (l ++ [x]) = Some x.
Proof.
  intros Hl Hx; rewrite find_app_first.
  destruct (find p l) as [y|] eqn:F; [|simpl; rewrite Hx; reflexivity].
  apply find_some in F as [F1 F2]; rewrite (Hl y F1) in F2; discriminate.
Qed.

Lemma find_snoc_old {A : Type} (p : A -> bool) (l : list A) (x y : A) :
  find p l = Some y -> find p (l ++ [x]) = Some y.
Proof. intros H; rewrite find_app_first, H; reflexivity. Qed.

Lemma filter_none {A : Type} (p : A -> bool) (l : list A) :
  (forall x, In x l -> p x = false) -> filter p l = [].
Proof.
  induction l as [|x r IH]; simpl; intros H; [reflexivity|].
  rewrite (H x (or_introl eq_refl)); apply IH; intros y Hy; apply H; right; exact Hy.
Qed.

Lemma POST_cities_created (settings : Config.Settings) (now : Z) (db : DB)
    (body : CityCreate.body) (r : CityResponse.t) :
  snd (serve settings now db (POST_cities body)) = OK 201 (CityOne r) ->
  exists d row,
    CityCreate.validate body = Valid d /\
    serve settings now db (POST_cities body) = (append_city row db, OK 201 (CityOne r)) /\
    r = city_view row /\
    row = {| City.id := cities_id_seq db + 1; City.name := CityCreate.name d;
             City.country := CityCreate.country d; City.is_active := true;
             City.created_at := now; City.updated_at := now |} /\
    city_ok row = true /\
    (forall c, In c (cities db) -> City.id c <> City.id row /\ City.name c <> City.name row).
Proof.
  simpl; unfold with_body.
  destruct (CityCreate.validate body) as [d|errs] eqn:E; [|discriminate].
  destruct (create_city_outcome now db body d E)
    as [(detail & -> & _) | [(e & ->) | (row & -> & Hrow & Hok & Hnew)]]; simpl;
    try discriminate.
  intros H; injection H as <-; exists d, row; repeat split; try assumption; apply Hnew; assumption.
Qed.

(** X8. A created city can be read back: when [POST /cities] answers 201 on
    a well-formed store, the answer carries the payload's name and country,
    [is_active = true], the time of the request as [created_at] and an [id]
    above every stored id; and [GET /cities/{id}] with that id then answers
    the same city with no zones and [total_zones = 0]. *)
Theorem created_city_is_readable :
  forall (settings : Config.Settings) (now : Z) (db : DB) (body : CityCreate.body)
         (r : CityResponse.t),
    well_formed db ->
    snd (serve settings now db (POST_cities body)) = OK 201 (CityOne r) ->
    let db' := fst (serve settings now db (POST_cities body)) in
    get_city_with_zones db' (CityResponse.id r)
    = OK 200 {| CityWithZonesResponse.city := r;
                CityWithZonesResponse.zones := [];
                CityWithZonesResponse.total_zones := 0 |} /\
    CityCreate.b_name body = Value (CityResponse.name r) /\
    (CityCreate.b_country body = Value (CityResponse.country r) \/
     CityCreate.b_country body = Unset /\ CityResponse.country r = "Colombia") /\
    CityResponse.is_active r = true /\
    CityResponse.created_at r = now /\
    (forall c, In c (cities db) -> City.id c < CityResponse.id r).
Proof.
  intros settings now db body r ((Hcs & Hzs) & (Sc & Sz) & Href) Hresp db'.
  destruct (POST_cities_created settings now db body r Hresp)
    as (d & row & Hv & Hserve & -> & Hrow & Hok & Hnew).
  unfold db'; rewrite Hserve; simpl.
  assert (Hfind : city_by_id (append_city row db) (City.id row) = Some row).
  { unfold city_by_id; simpl; apply find_snoc_new; [|apply Z.eqb_refl].
    intros c Hc; apply Z.eqb_neq, (Hnew c Hc). }
  assert (Hnone : active_zones (append_city row db) (City.id row) = []).
  { unfold active_zones; simpl; apply filter_none; intros z Hz.
    destruct (Href z Hz) as (c & Hc & E).
    destruct (Z.eqb_spec (Zone.city_id z) (City.id row)) as [E'|E']; [|reflexivity].
    exfalso; apply (proj1 (Hnew c Hc)); congruence. }
  split.
  - rewrite (get_city_with_zones_presentable _ _ row); [rewrite Hnone; reflexivity | | exact Hfind].
    split; simpl; [|exact Hzs].
    rewrite forallb_app, Hcs; simpl; rewrite Hok; reflexivity.
  - rewrite Hrow; simpl.
    unfold CityCreate.validate in Hv.
    destruct (CityCreate.b_name body) as [| |n]; simpl in Hv;
      try (destruct (with_default _ _ _ _ _); discriminate).
    destruct (str_length "name" 2 255 n) as [e|n'] eqn:En;
      [destruct (with_default _ _ _ _ _); discriminate|].
    apply str_length_id in En; subst n'.
    destruct (CityCreate.b_country body) as [| |k]; simpl in Hv; try discriminate.
    + injection Hv as <-; simpl; repeat split; try (right; split; reflexivity).
      intros c Hc; specialize (Sc c Hc); lia.
    + destruct (str_length "country" 0 100 k) as [e|k'] eqn:Ek; [discriminate|].
      apply str_length_id in Ek; subst k'; injection Hv as <-; simpl.
      repeat split; try (left; reflexivity).
      intros c Hc; specialize (Sc c Hc); lia.
Qed.

Lemma created_city_is_readable_setup :
  let body := {| CityCreate.b_name := Value "Cali"; CityCreate.b_country := Unset |} in
  exists r,
    snd (serve Config.settings 9 setup_database (POST_cities body)) = OK 201 (CityOne r) /\
    CityResponse.id r = 3 /\
    get_city_with_zones (fst (serve Config.settings 9 setup_database (POST_cities body))) 3
    = OK 200 {| CityWithZonesResponse.city := r; CityWithZonesResponse.zones := [];
                CityWithZonesResponse.total_zones := 0 |}.
Proof.
  intros body; eexists; split; [reflexivity|]; split; [reflexivity|].
  apply (created_city_is_readable Config.settings 9 setup_database body _
           setup_database_well_formed eq_refl).
Defined.

Lemma POST_zones_created (settings : Config.Settings) (now : Z) (db : DB)
    (body : ZoneCreate.body) (r : ZoneResponse.t) :
  snd (serve settings now db (POST_zones body)) = OK 201 (ZoneOne r) ->
  exists d row city,
    ZoneCreate.validate body = Valid d /\
    serve settings now db (POST_zones body) = (append_zone row db, OK 201 (ZoneOne r)) /\
    r = zone_view row /\
    row = {| Zone.id := zones_id_seq db + 1; Zone.name := ZoneCreate.name d;
             Zone.city_id := ZoneCreate.city_id d; Zone.color := ZoneCreate.color d;
             Zone.description := ZoneCreate.description d; Zone.is_active := true;
             Zone.created_at := now; Zone.updated_at := now |} /\
    zone_ok row = true /\
    city_by_id db (Zone.city_id row) = Some city /\
    (forall z, In z (zones db) -> Zone.id z <> Zone.id row /\ name_city z <> name_city row).
Proof.
  simpl; unfold with_body.
  destruct (ZoneCreate.validate body) as [d|errs] eqn:E; [|discriminate].
  destruct (create_zone_outcome now db body d E)
    as [[-> _] | [(detail & -> & _) | [(e & ->) | (row & city & -> & Hrow & Hok & Hcity & Hnew)]]];
    simpl; try discriminate.
  intros H; injection H as <-; exists d, row, city.
  split; [reflexivity|]; split; [reflexivity|]; split; [reflexivity|].
  split; [exact Hrow|]; split; [exact Hok|]; split; [rewrite Hrow; exact Hcity | exact Hnew].
Qed.

(** X9. A created zone can be read back: when [POST /zones] answers 201 on a
    well-formed store, the zone's city exists, no stored zone had the same
    [(name, city_id)], [GET /zones/{id}] with the new id then answers the
    same zone with that city's name and country, and [GET /cities/{city_id}]
    lists the zone last, with [total_zones] one more than before. *)
Theorem created_zone_is_readable :
  forall (settings : Config.Settings) (now : Z) (db : DB) (body : ZoneCreate.body)
         (r : ZoneResponse.t),
    well_formed db ->
    snd (serve settings now db (POST_zones body)) = OK 201 (ZoneOne r) ->
    let db' := fst (serve settings now db (POST_zones body)) in
    exists city before,
      city_by_id db (ZoneResponse.city_id r) = Some city /\
      (forall z, In z (zones db) ->
                 name_city z <> (ZoneResponse.name r, ZoneResponse.city_id r)) /\
      ZoneResponse.is_active r = true /\
      get_zone db' (ZoneResponse.id r)
      = OK 200 {| ZoneWithCityResponse.zone := r;
                  ZoneWithCityResponse.city_name := City.name city;
                  ZoneWithCityResponse.city_country := City.country city |} /\
      get_city_with_zones db (ZoneResponse.city_id r) = OK 200 before /\
      get_city_with_zones db' (ZoneResponse.city_id r)
      = OK 200 {| CityWithZonesResponse.city := CityWithZonesResponse.city before;
                  CityWithZonesResponse.zones := CityWithZonesResponse.zones before ++ [r];
                  CityWithZonesResponse.total_zones :=
                    CityWithZonesResponse.total_zones before + 1 |}.
Proof.
  intros settings now db body r Hwf Hresp db'.
  pose proof (serve_well_formed settings now db (POST_zones body) Hwf) as Hwf'.
  destruct Hwf as ((Hcs & Hzs) & (Sc & Sz) & Href).
  destruct (POST_zones_created settings now db body r Hresp)
    as (d & row & city & Hv & Hserve & -> & Hrow & Hok & Hcity & Hnew).
  unfold db'; rewrite Hserve in *; simpl in Hwf' |- *.
  destruct Hwf' as (Hp' & _ & Href').
  assert (Hact : Zone.is_active row = true) by (rewrite Hrow; reflexivity).
  eexists city, _; split; [exact Hcity|].
  split; [intros z Hz; apply (Hnew z Hz)|].
  split; [exact Hact|].
  split; [|split; [apply (get_city_with_zones_presentable db _ city (conj Hcs Hzs) Hcity)|]].
  - unfold get_zone; rewrite (find_joined _ _ Href').
    assert (Hz : zone_by_id (append_zone row db) (Zone.id row) = Some row).
    { unfold zone_by_id; simpl; apply find_snoc_new; [|apply Z.eqb_refl].
      intros z Hz; apply Z.eqb_neq, (Hnew z Hz). }
    rewrite Hz; change (city_by_id (append_zone row db) (Zone.city_id row))
      with (city_by_id db (Zone.city_id row)); rewrite Hcity; simpl.
    unfold ZoneWithCityResponse.make; rewrite (zone_ok_validates row Hok); reflexivity.
  - rewrite (get_city_with_zones_presentable _ _ city Hp' Hcity); simpl.
    assert (Hactive : active_zones (append_zone row db) (Zone.city_id row)
                      = active_zones db (Zone.city_id row) ++ [row]).
    { unfold active_zones; simpl; rewrite filter_app; simpl.
      rewrite Z.eqb_refl, Hact; reflexivity. }
    rewrite Hactive, map_app, !length_app; simpl.
    rewrite Nat2Z.inj_add; reflexivity.
Qed.

Lemma created_zone_is_readable_setup :
  let body := new_zone "Oriente" 1 (Value "#abcdef") in
  let db' := fst (serve Config.settings 9 setup_database (POST_zones body)) in
  exists r city,
    snd (serve Config.settings 9 setup_database (POST_zones body)) = OK 201 (ZoneOne r) /\
    ZoneWithCityResponse.city_name city = "Bogota" /\
    get_zone db' (ZoneResponse.id r) = OK 200 city /\
    exists after, get_city_with_zones db' 1 = OK 200 after /\
                  CityWithZonesResponse.total_zones after = 4.
Proof.
  intros body db'.
  destruct (created_zone_is_readable Config.settings 9 setup_database body _
              setup_database_well_formed eq_refl)
    as (city & before & Hcity & _ & _ & Hzone & Hbefore & Hafter).
  injection Hcity as <-.
  eexists; eexists; split; [reflexivity|]; split; [|split; [exact Hzone|]]; [reflexivity|].
  eexists; split; [exact Hafter|].
  simpl; injection Hbefore as <-; reflexivity.
Defined.

(* ================================================================== *)
(** * Updates compose *)

Lemma assigned_stable {A : Type} (f : field A) (old n : A) :
  assigned f old = Some n -> assigned f n = Some n.
Proof. destruct f; simpl; intros H; try discriminate; [reflexivity | exact H]. Qed.

Lemma option_string_eqb_refl (d : option string) : option_string_eqb d d = true.
Proof. destruct d; simpl; [apply String.eqb_refl | reflexivity]. Qed.

Lemma update_city_twice (now now' : Z) (db : DB) (city_id : Z) (b : CityUpdate.t) :
  update_city now' (fst (update_city now db city_id b)) city_id b = update_city now db city_id b.
Proof.
  unfold update_city at 2 3.
  destruct (city_by_id db city_id) as [old|] eqn:Hold;
    [|simpl; unfold update_city; rewrite Hold; reflexivity].
  rewrite city_instance_after; unfold update_city_row; simpl.
  destruct (assigned (CityUpdate.name b) (City.name old)) as [n|] eqn:En;
    [|simpl; unfold update_city; rewrite Hold, city_instance_after; unfold update_city_row;
      simpl; rewrite En; reflexivity].
  destruct (assigned (CityUpdate.country b) (City.country old)) as [k|] eqn:Ek;
    [|simpl; unfold update_city; rewrite Hold, city_instance_after; unfold update_city_row;
      simpl; rewrite En, Ek; reflexivity].
  destruct (assigned (CityUpdate.is_active b) (City.is_active old)) as [a|] eqn:Ea;
    [|simpl; unfold update_city; rewrite Hold, city_instance_after; unfold update_city_row;
      simpl; rewrite En, Ek, Ea; reflexivity].
  destruct (String.eqb n (City.name old) && String.eqb k (City.country old)
            && Bool.eqb a (City.is_active old)) eqn:Same;
    [simpl; unfold update_city; rewrite Hold, city_instance_after; unfold update_city_row;
     simpl; rewrite En, Ek, Ea, Same; reflexivity|].
  destruct (negb (String.eqb n (City.name old))
            && existsb (fun c => negb (City.id c =? City.id old) && String.eqb (City.name c) n)
                 (cities db)) eqn:Dup;
    [simpl; unfold update_city; rewrite Hold, city_instance_after; unfold update_city_row;
     simpl; rewrite En, Ek, Ea, Same, Dup; reflexivity|].
  set (row := {| City.id := City.id old; City.name := n; City.country := k;
                 City.is_active := a; City.created_at := City.created_at old;
                 City.updated_at := now |}).
  simpl; unfold update_city, city_by_id; simpl.
  rewrite (find_replaced city_id old row (cities db) Hold eq_refl).
  rewrite city_instance_after; unfold update_city_row; simpl.
  rewrite (assigned_stable _ _ _ En), (assigned_stable _ _ _ Ek), (assigned_stable _ _ _ Ea).
  rewrite !String.eqb_refl, Bool.eqb_reflx; reflexivity.
Qed.

Lemma update_zone_twice (now now' : Z) (db : DB) (zone_id : Z) (b : ZoneUpdate.t) :
  update_zone now' (fst (update_zone now db zone_id b)) zone_id b = update_zone now db zone_id b.
Proof.
  unfold update_zone at 2 3.
  destruct (zone_by_id db zone_id) as [old|] eqn:Hold;
    [|simpl; unfold update_zone; rewrite Hold; reflexivity].
  rewrite zone_instance_after; unfold update_zone_row; simpl.
  destruct (assigned (ZoneUpdate.name b) (Zone.name old)) as [n|] eqn:En;
    [|simpl; unfold update_zone; rewrite Hold, zone_instance_after; unfold update_zone_row;
      simpl; rewrite En; reflexivity].
  destruct (assigned (ZoneUpdate.city_id b) (Zone.city_id old)) as [c|] eqn:Ec;
    [|simpl; unfold update_zone; rewrite Hold, zone_instance_after; unfold update_zone_row;
      simpl; rewrite En, Ec; reflexivity].
  destruct (assigned (ZoneUpdate.color b) (Zone.color old)) as [k|] eqn:Ek;
    [|simpl; unfold update_zone; rewrite Hold, zone_instance_after; unfold update_zone_row;
      simpl; rewrite En, Ec, Ek; reflexivity].
  destruct (assigned (ZoneUpdate.is_active b) (Zone.is_active old)) as [a|] eqn:Ea;
    [|simpl; unfold update_zone; rewrite Hold, zone_instance_after; unfold update_zone_row;
      simpl; rewrite En, Ec, Ek, Ea; reflexivity].
  match goal with
  | |- context [if ?t then inr (db, old) else _] => destruct t eqn:Same
  end;
    [simpl; unfold update_zone; rewrite Hold, zone_instance_after; unfold update_zone_row;
     simpl; rewrite En, Ec, Ek, Ea, Same; reflexivity|].
  destruct (negb (c =? Zone.city_id old) && negb (existsb (fun x => City.id x =? c) (cities db)))
    eqn:Fk;
    [simpl; unfold update_zone; rewrite Hold, zone_instance_after; unfold update_zone_row;
     simpl; rewrite En, Ec, Ek, Ea, Same, Fk; reflexivity|].
  set (row := {| Zone.id := Zone.id old; Zone.name := n; Zone.city_id := c; Zone.color := k;
                 Zone.description := match ZoneUpdate.description b with
                                     | Unset => Zone.description old
                                     | Null => None
                                     | Value d => Some d
                                     end;
                 Zone.is_active := a; Zone.created_at := Zone.created_at old;
                 Zone.updated_at := now |}).
  simpl; unfold update_zone, zone_by_id; simpl.
  rewrite (zone_find_replaced zone_id old row (zones db) Hold eq_refl).
  rewrite zone_instance_after; unfold update_zone_row; simpl.
  rewrite (assigned_stable _ _ _ En), (assigned_stable _ _ _ Ec), (assigned_stable _ _ _ Ek),
    (assigned_stable _ _ _ Ea).
  assert (Hd : option_string_eqb
                 match ZoneUpdate.description b with
                 | Unset => match ZoneUpdate.description b with
                            | Unset => Zone.description old
                            | Null => None
                            | Value d => Some d
                            end
                 | Null => None
                 | Value d => Some d
                 end
                 match ZoneUpdate.description b with
                 | Unset => Zone.description old
                 | Null => None
                 | Value d => Some d
                 end = true)
    by (destruct (ZoneUpdate.description b); apply option_string_eqb_refl).
  rewrite !String.eqb_refl, Z.eqb_refl, Bool.eqb_reflx, Hd; reflexivity.
Qed.

(** X10. Updates are idempotent: sending the same [PUT /cities/{id}] or
    [PUT /zones/{id}] again, at any later time, gets the same answer and
    leaves the store as the first one left it; the repetition does not even
    refresh [updated_at], since no attribute changes. *)
Theorem update_twice_is_update_once :
  forall (settings : Config.Settings) (now now' : Z) (db : DB) (id : Z)
         (city : CityUpdate.t) (zone : ZoneUpdate.t),
    (let out := serve settings now db (PUT_city id city) in
     serve settings now' (fst out) (PUT_city id city) = out) /\
    (let out := serve settings now db (PUT_zone id zone) in
     serve settings now' (fst out) (PUT_zone id zone) = out).
Proof.
  intros settings now now' db id city zone; split; simpl; unfold content2, with_body.
  - destruct (CityUpdate.validate city) as [b|errs]; simpl; [|reflexivity].
    rewrite update_city_twice; reflexivity.
  - destruct (ZoneUpdate.validate zone) as [b|errs]; simpl; [|reflexivity].
    rewrite update_zone_twice; reflexivity.
Qed.

Lemma city_find_replace_other (j : Z) (old row : City.t) (l : list City.t) :
  City.id row = City.id old -> City.id old <> j ->
  find (fun c => City.id c =? j) (map (fun c => if City.id c =? City.id old then row else c) l)
  = find (fun c => City.id c =? j) l.
Proof.
  intros Hid Hj; induction l as [|c r IH]; simpl; [reflexivity|].
  destruct (Z.eqb_spec (City.id c) (City.id old)) as [E|E].
  - assert (H1 : (City.id row =? j) = false) by (apply Z.eqb_neq; congruence).
    assert (H2 : (City.id c =? j) = false) by (apply Z.eqb_neq; congruence).
    rewrite H1, H2; exact IH.
  - destruct (City.id c =? j); [reflexivity | exact IH].
Qed.

Lemma zone_find_replace_other (j : Z) (old row : Zone.t) (l : list Zone.t) :
  Zone.id row = Zone.id old -> Zone.id old <> j ->
  find (fun z => Zone.id z =? j) (map (fun z => if Zone.id z =? Zone.id old then row else z) l)
  = find (fun z => Zone.id z =? j) l.
Proof.
  intros Hid Hj; induction l as [|z r IH]; simpl; [reflexivity|].
  destruct (Z.eqb_spec (Zone.id z) (Zone.id old)) as [E|E].
  - assert (H1 : (Zone.id row =? j) = false) by (apply Z.eqb_neq; congruence).
    assert (H2 : (Zone.id z =? j) = false) by (apply Z.eqb_neq; congruence).
    rewrite H1, H2; exact IH.
  - destruct (Zone.id z =? j); [reflexivity | exact IH].
Qed.

(** X11. An update touches the row it names and nothing else: after
    [PUT /cities/{id}] every city with another id, every zone and both
    sequences are as before, and after [PUT /zones/{id}] every zone with
    another id, every city and both sequences are as before, whatever the
    payload and the outcome. *)
Theorem update_touches_one_row :
  forall (settings : Config.Settings) (now : Z) (db : DB) (id other : Z)
         (city : CityUpdate.t) (zone : ZoneUpdate.t),
    other <> id ->
    (let db' := fst (serve settings now db (PUT_city id city)) in
     city_by_id db' other = city_by_id db other /\ zones db' = zones db /\
     cities_id_seq db' = cities_id_seq db /\ zones_id_seq db' = zones_id_seq db) /\
    (let db' := fst (serve settings now db (PUT_zone id zone)) in
     zone_by_id db' other = zone_by_id db other /\ cities db' = cities db /\
     cities_id_seq db' = cities_id_seq db /\ zones_id_seq db' = zones_id_seq db).
Proof.
  intros settings now db id other city zone Hne; split; simpl; unfold with_body.
  - destruct (CityUpdate.validate city) as [b|errs]; simpl; [|repeat split].
    unfold update_city.
    destruct (city_by_id db id) as [old|] eqn:Hold; [|repeat split].
    destruct (update_city_row_cases now old
                (fold_left CityItems.setattr (CityItems.model_dump_exclude_unset b)
                   (City.load old)) db)
      as [[e He] | [(He & _) | (n & k & a & _ & _ & _ & He)]]; rewrite He; simpl;
      try (repeat split; fail).
    split; [|repeat split].
    apply city_find_replace_other; [reflexivity|].
    destruct (city_by_id_In db id old Hold) as [_ E]; congruence.
  - destruct (ZoneUpdate.validate zone) as [b|errs]; simpl; [|repeat split].
    unfold update_zone.
    destruct (zone_by_id db id) as [old|] eqn:Hold; [|repeat split].
    destruct (update_zone_row_cases now old
                (fold_left ZoneItems.setattr (ZoneItems.model_dump_exclude_unset b)
                   (Zone.load old)) db)
      as [[e He] | [He | (n & c & k & a & _ & _ & _ & _ & _ & He)]]; rewrite He; simpl;
      try (repeat split; fail).
    split; [|repeat split].
    apply zone_find_replace_other; [reflexivity|].
    destruct (zone_by_id_In db id old Hold) as [_ E]; congruence.
Qed.

Lemma update_touches_one_row_setup :
  let db' := fst (serve Config.settings 9 setup_database (PUT_zone 2 (rename_to "Chapinero"))) in
  option_map Zone.name (zone_by_id db' 2) = Some "Chapinero" /\
  zone_by_id db' 1 = zone_by_id setup_database 1 /\
  zone_by_id db' 3 = zone_by_id setup_database 3.
Proof.
  split; [reflexivity|]; split.
  - apply (update_touches_one_row Config.settings 9 setup_database 2 1
             {| CityUpdate.name := Unset; CityUpdate.country := Unset; CityUpdate.is_active := Unset |}
             (rename_to "Chapinero")); discriminate.
  - apply (update_touches_one_row Config.settings 9 setup_database 2 3
             {| CityUpdate.name := Unset; CityUpdate.country := Unset; CityUpdate.is_active := Unset |}
             (rename_to "Chapinero")); discriminate.
Defined.

(* ================================================================== *)
(** * Switching a zone off, and clearing its description *)

(** An update that assigns neither [name], [city_id] nor [color]: the store
    has nothing to refuse. *)
Lemma update_zone_flags (now : Z) (db : DB) (zone_id : Z) (old : Zone.t)
    (d : field string) (a : bool) (fa : field bool) :
  forallb zone_ok (zones db) = true ->
  zone_by_id db zone_id = Some old ->
  fa = Unset /\ a = Zone.is_active old \/ fa = Value a ->
  let b := {| ZoneUpdate.name := Unset; ZoneUpdate.city_id := Unset; ZoneUpdate.color := Unset;
              ZoneUpdate.description := d; ZoneUpdate.is_active := fa |} in
  let row := {| Zone.id := Zone.id old; Zone.name := Zone.name old;
                Zone.city_id := Zone.city_id old; Zone.color := Zone.color old;
                Zone.description := match d with
                                    | Unset => Zone.description old
                                    | Null => None
                                    | Value v => Some v
                                    end;
                Zone.is_active := a; Zone.created_at := Zone.created_at old;
                Zone.updated_at := now |} in
  ZoneUpdate.validate b = Valid b /\
  (update_zone now db zone_id b = (db, OK 200 (zone_view old)) /\
   Zone.is_active old = a /\ Zone.description old = Zone.description row \/
   update_zone now db zone_id b = (replace_zone old row db, OK 200 (zone_view row))).
Proof.
  intros Hzs Hold Hfa b row.
  assert (Hv : ZoneUpdate.validate b = Valid b)
    by (unfold b; destruct d, Hfa as [[-> _]| ->]; reflexivity).
  split; [exact Hv|].
  destruct (zone_by_id_In db zone_id old Hold) as [Hin _].
  pose proof (forallb_In _ _ _ Hzs Hin) as Hok.
  assert (Ha : assigned fa (Zone.is_active old) = Some a)
    by (destruct Hfa as [[-> ->]| ->]; reflexivity).
  unfold update_zone; rewrite Hold, zone_instance_after; unfold update_zone_row; simpl.
  rewrite Ha, !String.eqb_refl, Z.eqb_refl; simpl.
  destruct (option_string_eqb
              match d with
              | Unset => Zone.description old
              | Null => None
              | Value v => Some v
              end (Zone.description old) && Bool.eqb a (Zone.is_active old)) eqn:Same.
  - left; apply andb_true_iff in Same as [S1 S2]; apply Bool.eqb_prop in S2.
    rewrite (zone_ok_validates old Hok); split; [reflexivity|]; split; [symmetry; exact S2|].
    simpl; revert S1; destruct d as [| |v]; simpl; try reflexivity;
      destruct (Zone.description old) as [o|]; simpl; try discriminate; try reflexivity.
    intros S1; apply String.eqb_eq in S1; rewrite S1; reflexivity.
  - right; fold row.
    rewrite (zone_ok_validates row); [reflexivity|].
    unfold zone_ok in Hok |- *; exact Hok.
Qed.

Lemma get_city_with_zones_items (db : DB) (city_id : Z) (cw : CityWithZonesResponse.t) :
  get_city_with_zones db city_id = OK 200 cw ->
  forall r, In r (CityWithZonesResponse.zones cw) ->
    exists z, In z (zones db) /\ Zone.city_id z = city_id /\ Zone.is_active z = true /\
              ZoneResponse.id r = Zone.id z.
Proof.
  unfold get_city_with_zones.
  destruct (city_by_id db city_id) as [city|]; [|discriminate].
  destruct (validate_each ZoneResponse.model_validate _) as [zs|errs] eqn:Hv; [|discriminate].
  destruct (CityResponse.model_validate city) as [c|errs]; [|discriminate].
  intros H; injection H as <-; simpl; intros r Hr.
  destruct (validate_each_In _ _ _ Hv r Hr) as (z & Hz & Fz).
  apply active_zones_of_city in Hz as (Hin & Hc & Ha).
  destruct (model_validate_zone_fields z r Fz) as (Hid & _).
  exists z; repeat split; assumption.
Qed.

(** X12. Switching a zone off hides it without deleting it: on a well-formed
    store with unique keys, [PUT /zones/{id}] with [is_active = false] on a
    stored zone succeeds (200); afterwards no [GET /cities/{city_id}] lists a
    zone with that id, while [GET /zones/{id}] still answers it (200), with
    its name, and [is_active = false]. *)
Theorem deactivated_zone_is_hidden_not_deleted :
  forall (settings : Config.Settings) (now : Z) (db : DB) (zone_id : Z) (zone : Zone.t),
    well_formed db -> keys_unique db ->
    zone_by_id db zone_id = Some zone ->
    let out := serve settings now db (PUT_zone zone_id deactivate) in
    status_of (snd out) = 200 /\
    (forall city_id cw,
       get_city_with_zones (fst out) city_id = OK 200 cw ->
       forall r, In r (CityWithZonesResponse.zones cw) -> ZoneResponse.id r <> zone_id) /\
    exists r,
      get_zone (fst out) zone_id = OK 200 r /\
      ZoneResponse.is_active (ZoneWithCityResponse.zone r) = false /\
      ZoneResponse.name (ZoneWithCityResponse.zone r) = Zone.name zone.
Proof.
  intros settings now db zone_id zone Hwf (_ & Kz & _) Hzone out.
  pose proof (serve_well_formed settings now db (PUT_zone zone_id deactivate) Hwf) as Hwf'.
  fold out in Hwf'.
  destruct Hwf as ((Hcs & Hzs) & _ & Href).
  destruct (zone_by_id_In db zone_id zone Hzone) as [Hin Hid].
  destruct (update_zone_flags now db zone_id zone Unset false (Value false) Hzs Hzone
              (or_intror eq_refl)) as [Hv Hout].
  assert (Eout : out = (fst out, snd out)) by (destruct out; reflexivity).
  assert (Hserve : out = (let o := update_zone now db zone_id deactivate in
                          (fst o, content ZoneOne (snd o))))
    by (unfold out, serve, content2, with_body, deactivate; rewrite Hv; reflexivity).
  unfold deactivate in Hserve.
  assert (Hrow : exists row,
            zone_by_id (fst out) zone_id = Some row /\ Zone.is_active row = false /\
            Zone.name row = Zone.name zone /\ status_of (snd out) = 200 /\
            forall z, In z (zones (fst out)) -> Zone.id z = zone_id -> Zone.is_active z = false).
  { destruct Hout as [(Hout & Ha & _) | Hout]; rewrite Hout in Hserve; simpl in Hserve;
      rewrite Hserve; simpl.
    - exists zone; repeat split; try assumption.
      intros z Hz E.
      rewrite (NoDup_map_In_eq Zone.id (zones db) z zone Kz Hz Hin); [exact Ha | congruence].
    - eexists; split; [apply (zone_find_replaced zone_id zone _ (zones db) Hzone); reflexivity|].
      repeat split.
      intros z Hz E; apply in_map_iff in Hz as (y & Ey & Hy).
      destruct (Z.eqb_spec (Zone.id y) (Zone.id zone)) as [E'|E']; subst z; [reflexivity|].
      exfalso; apply E'; congruence. }
  destruct Hrow as (row & Hfind & Hoff & Hname & Hstatus & Hall).
  split; [exact Hstatus|]; split.
  - intros city_id cw Hget r Hr E.
    destruct (get_city_with_zones_items _ _ _ Hget r Hr) as (z & Hz & _ & Ha & Hzid).
    rewrite (Hall z Hz) in Ha; [discriminate | congruence].
  - destruct Hwf' as ((_ & Hzs') & _ & Href').
    destruct (zone_by_id_In _ _ _ Hfind) as [Hin' _].
    unfold get_zone; rewrite (find_joined _ _ Href'), Hfind.
    destruct (Href' row Hin') as (c & Hc & Ec).
    destruct (city_by_id (fst out) (Zone.city_id row)) as [city|] eqn:F;
      [|exfalso; rewrite city_by_id_None in F; exact (F c Hc Ec)].
    simpl; unfold ZoneWithCityResponse.make.
    rewrite (zone_ok_validates row (forallb_In _ _ _ Hzs' Hin')); simpl.
    eexists; split; [reflexivity|]; split; assumption.
Qed.

Lemma deactivated_zone_is_hidden_not_deleted_setup :
  let db' := fst (serve Config.settings 9 setup_database (PUT_zone 2 deactivate)) in
  (exists cw, get_city_with_zones db' 1 = OK 200 cw /\
              CityWithZonesResponse.total_zones cw = 2 /\
              forall r, In r (CityWithZonesResponse.zones cw) -> ZoneResponse.id r <> 2) /\
  status_of (get_zone db' 2) = 200.
Proof.
  intros db'.
  destruct (deactivated_zone_is_hidden_not_deleted Config.settings 9 setup_database 2
              (zone_row 2 "Centro" 1 "#F39C12" "Zona centro" true)
              setup_database_well_formed setup_database_keys_unique eq_refl)
    as (_ & Hhidden & _).
  split; [|reflexivity].
  eexists; split; [reflexivity|]; split; [reflexivity|].
  apply (Hhidden 1); reflexivity.
Defined.

(** X13. [description] is the one column that takes an explicit [null]: on a
    store of valid rows, [PUT /zones/{id}] with ["description": null] on a
    stored zone succeeds (200), the stored and the returned description are
    empty afterwards and name, colour, city and flag are kept; the empty
    payload, by contrast, answers the zone and changes nothing. *)
Theorem null_description_is_written :
  forall (settings : Config.Settings) (now : Z) (db : DB) (zone_id : Z) (zone : Zone.t),
    presentable db ->
    zone_by_id db zone_id = Some zone ->
    let out := serve settings now db (PUT_zone zone_id clear_description) in
    (exists r row,
       snd out = OK 200 (ZoneOne r) /\ ZoneResponse.description r = None /\
       zone_by_id (fst out) zone_id = Some row /\ Zone.description row = None /\
       Zone.name row = Zone.name zone /\ Zone.color row = Zone.color zone /\
       Zone.city_id row = Zone.city_id zone /\ Zone.is_active row = Zone.is_active zone) /\
    serve settings now db (PUT_zone zone_id empty_zone_update)
    = (db, OK 200 (ZoneOne (zone_view zone))).
Proof.
  intros settings now db zone_id zone [_ Hzs] Hzone out; split.
  - destruct (update_zone_flags now db zone_id zone Null (Zone.is_active zone) Unset Hzs Hzone
                (or_introl (conj eq_refl eq_refl))) as [Hv Hout].
    assert (Hserve : out = (let o := update_zone now db zone_id clear_description in
                            (fst o, content ZoneOne (snd o))))
      by (unfold out, serve, content2, with_body, clear_description; rewrite Hv; reflexivity).
    unfold clear_description in Hserve.
    destruct Hout as [(Hout & _ & Hd) | Hout]; rewrite Hout in Hserve; simpl in Hserve;
      rewrite Hserve; simpl.
    + simpl in Hd; exists (zone_view zone), zone; repeat split; assumption.
    + eexists; eexists; split; [reflexivity|]; split; [reflexivity|].
      split; [apply (zone_find_replaced zone_id zone _ (zones db) Hzone); reflexivity|].
      repeat split.
  - destruct (update_zone_flags now db zone_id zone Unset (Zone.is_active zone) Unset Hzs Hzone
                (or_introl (conj eq_refl eq_refl))) as [Hv Hout].
    unfold serve, content2, with_body, empty_zone_update; rewrite Hv.
    unfold update_zone; rewrite Hzone, zone_instance_after.
    unfold update_zone_row; simpl.
    rewrite !String.eqb_refl, Z.eqb_refl, option_string_eqb_refl, Bool.eqb_reflx; simpl.
    destruct (zone_by_id_In db zone_id zone Hzone) as [Hin _].
    rewrite (zone_ok_validates zone (forallb_In _ _ _ Hzs Hin)); reflexivity.
Qed.

Lemma null_description_is_written_setup :
  let out := serve Config.settings 9 setup_database (PUT_zone 3 clear_description) in
  option_map Zone.description (zone_by_id setup_database 3) = Some (Some "Zona sur") /\
  exists r row,
    snd out = OK 200 (ZoneOne r) /\ ZoneResponse.description r = None /\
    zone_by_id (fst out) 3 = Some row /\ Zone.description row = None /\ Zone.name row = "Sur".
Proof.
  intros out; split; [reflexivity|].
  destruct (null_description_is_written Config.settings 9 setup_database 3
              (zone_row 3 "Sur" 1 "#27AE60" "Zona sur" true) setup_database_presentable eq_refl)
    as [(r & row & H1 & H2 & H3 & H4 & H5 & _) _].
  exists r, row; repeat split; assumption.
Defined.

(* ================================================================== *)
(** * The colour validator on its own *)

Lemma upper_char_idem (c : ascii) : upper_char (upper_char c) = upper_char c.
Proof. destruct c as [[] [] [] [] [] [] [] []]; reflexivity. Qed.

Lemma upper_idem (v : string) : upper (upper v) = upper v.
Proof. induction v as [|c r IH]; simpl; [reflexivity | rewrite upper_char_idem, IH; reflexivity]. Qed.

Lemma upper_char_ascii (c : ascii) : between 0 127 c = true -> between 0 127 (upper_char c) = true.
Proof. destruct c as [[] [] [] [] [] [] [] []]; vm_compute; congruence. Qed.

Lemma upper_ascii (v : string) : is_ascii v = true -> is_ascii (upper v) = true.
Proof.
  unfold is_ascii; induction v as [|c r IH]; simpl; [reflexivity|].
  rewrite !andb_true_iff; intros [H1 H2]; split; [apply upper_char_ascii; exact H1 | apply IH; exact H2].
Qed.

Lemma startswith_hash_upper (v : string) : startswith_hash (upper v) = startswith_hash v.
Proof.
  destruct v as [|c r]; simpl; [reflexivity|].
  destruct c as [[] [] [] [] [] [] [] []]; reflexivity.
Qed.

Lemma hex_digit_ascii (c : ascii) : hex_digit c = true -> between 0 127 c = true.
Proof. destruct c as [[] [] [] [] [] [] [] []]; vm_compute; congruence. Qed.

Lemma color_pattern_ascii (v : string) : color_pattern v = true -> is_ascii v = true.
Proof.
  unfold color_pattern, hash_then_six, is_ascii; destruct v as [|c r]; [discriminate|].
  rewrite !andb_true_iff; intros [[H1 _] H3]; simpl; apply andb_true_iff; split.
  - apply Ascii.eqb_eq in H1; subst c; reflexivity.
  - apply (all_chars_weaken hex_digit); [apply hex_digit_ascii | exact H3].
Qed.

(** X14. The colour field has a normal form. A colour that matches the
    pattern is an ASCII string; it is accepted and upper-cased, the result
    matches [^#[0-9A-F]{6}$], and validating the result again returns it
    unchanged. A colour that does not match is rejected by the pattern, so
    the two errors that [validate_color] can raise itself are never seen
    through the field. On its own, [validate_color] accepts exactly the
    strings of length 7 that start with [#], hexadecimal or not; on such a
    string of ASCII characters its result is the string upper-cased, which
    it accepts again unchanged. Nothing is stated of its result on a string
    with a character outside ASCII, where Python's [upper] may change the
    length. *)
Theorem color_field_normal_form :
  forall v : string,
    (color_pattern v = true ->
       is_ascii v = true /\
       ZoneBase.color_field v = inr (upper v) /\
       normalized_color (upper v) = true /\
       ZoneBase.color_field (upper v) = inr (upper v)) /\
    (color_pattern v = false ->
       ZoneBase.color_field v = inl (mkFieldError "color" "string_pattern_mismatch")) /\
    (forall e, ZoneBase.color_field v = inl e -> msg e = "string_pattern_mismatch") /\
    ((exists k, ZoneBase.validate_color v = inr k) <->
     startswith_hash v = true /\ String.length v = 7%nat) /\
    (is_ascii v = true ->
     forall k, ZoneBase.validate_color v = inr k ->
               k = upper v /\ is_ascii k = true /\ ZoneBase.validate_color k = inr k).
Proof.
  intros v; split; [|split; [|split; [|split]]].
  - intros Hp; split; [apply color_pattern_ascii; exact Hp|].
    split; [apply color_field_of_pattern; exact Hp|].
    pose proof (upper_normalizes v Hp) as Hn; split; [exact Hn|].
    rewrite (color_field_of_pattern _ (normalized_matches_pattern _ Hn)), upper_idem; reflexivity.
  - intros Hp; unfold ZoneBase.color_field; rewrite Hp; reflexivity.
  - intros e; destruct (color_pattern v) eqn:Hp.
    + rewrite (color_field_of_pattern v Hp); discriminate.
    + unfold ZoneBase.color_field; rewrite Hp; intros H; injection H as <-; reflexivity.
  - unfold ZoneBase.validate_color; destruct (startswith_hash v); simpl.
    + destruct (Nat.eqb_spec (String.length v) 7); simpl; split.
      * intros _; split; [reflexivity | assumption].
      * intros _; eexists; reflexivity.
      * intros [k H]; discriminate.
      * intros [_ H]; contradiction.
    + split; [intros [k H]; discriminate | intros [H _]; discriminate].
  - intros Ha k; unfold ZoneBase.validate_color.
    destruct (startswith_hash v) eqn:Hs; simpl; [|discriminate].
    destruct (Nat.eqb_spec (String.length v) 7) as [Hl|Hl]; simpl; [|discriminate].
    intros H; injection H as <-; split; [reflexivity|]; split.
    + apply upper_ascii; exact Ha.
    + rewrite startswith_hash_upper, Hs, length_upper, Hl, upper_idem; reflexivity.
Qed.

(* ================================================================== *)
(** * The two stages of coordinate validation *)

(** X15. The stages of coordinate validation can be told apart and both
    fields are always reported. A latitude outside [-90, 90] fails the bound
    of the field and the Colombia validator does not run; a latitude inside
    it but outside [-5, 13] gets the validator's message; likewise for the
    longitude with [-180, 180] and [-80, -66]. When both fields are out of
    the box, the answer carries one error for each, latitude first. *)
Theorem coordinate_errors_by_stage :
  forall lat lon : pyfloat,
    let colombia_lat :=
      mkFieldError "latitude" "La latitud debe estar entre -5 y 13 (rango de Colombia)" in
    let colombia_lon :=
      mkFieldError "longitude" "La longitud debe estar entre -80 y -66 (rango de Colombia)" in
    (~ within (-90) 90 lat ->
       exists e, CoordinateValidation.latitude_field lat = inl e /\ e <> colombia_lat /\
                 (msg e = "greater_than_equal" \/ msg e = "less_than_equal")) /\
    (within (-90) 90 lat -> ~ within (-5) 13 lat ->
       CoordinateValidation.latitude_field lat = inl colombia_lat) /\
    (~ within (-180) 180 lon ->
       exists e, CoordinateValidation.longitude_field lon = inl e /\ e <> colombia_lon /\
                 (msg e = "greater_than_equal" \/ msg e = "less_than_equal")) /\
    (within (-180) 180 lon -> ~ within (-80) (-66) lon ->
       CoordinateValidation.longitude_field lon = inl colombia_lon) /\
    (~ within (-5) 13 lat -> ~ within (-80) (-66) lon ->
       exists e1 e2,
         CoordinateValidation.validate (coordinates_body lat lon) = Invalid [e1; e2] /\
         loc e1 = "latitude" /\ loc e2 = "longitude").
Proof.
  intros lat lon colombia_lat colombia_lon.
  assert (Hbound : forall name lo hi v, ~ within lo hi v ->
            exists e, float_range name lo hi v = inl e /\
                      (msg e = "greater_than_equal" \/ msg e = "less_than_equal")).
  { intros name lo hi v H; unfold float_range.
    destruct (float_le v (float_of_int hi)) eqn:E2;
      [|eexists; split; [reflexivity | right; reflexivity]].
    destruct (float_le (float_of_int lo) v) eqn:E1;
      [|eexists; split; [reflexivity | left; reflexivity]].
    exfalso; apply H, float_le_within; rewrite E1, E2; reflexivity. }
  split; [|split; [|split; [|split]]].
  - intros H; destruct (Hbound "latitude" (-90) 90 lat H) as (e & He & Hm).
    exists e; unfold CoordinateValidation.latitude_field; rewrite He; split; [reflexivity|].
    split; [|exact Hm].
    intros ->; destruct Hm as [Hm|Hm]; discriminate.
  - intros Hin Hout; unfold CoordinateValidation.latitude_field.
    rewrite (float_range_within "latitude" (-90) 90 lat Hin); simpl.
    unfold CoordinateValidation.validate_latitude_colombia.
    destruct (float_le (float_of_int (-5)) lat && float_le lat (float_of_int 13)) eqn:E;
      [apply float_le_within in E; contradiction | reflexivity].
  - intros H; destruct (Hbound "longitude" (-180) 180 lon H) as (e & He & Hm).
    exists e; unfold CoordinateValidation.longitude_field; rewrite He; split; [reflexivity|].
    split; [|exact Hm].
    intros ->; destruct Hm as [Hm|Hm]; discriminate.
  - intros Hin Hout; unfold CoordinateValidation.longitude_field.
    rewrite (float_range_within "longitude" (-180) 180 lon Hin); simpl.
    unfold CoordinateValidation.validate_longitude_colombia.
    destruct (float_le (float_of_int (-80)) lon && float_le lon (float_of_int (-66))) eqn:E;
      [apply float_le_within in E; contradiction | reflexivity].
  - intros Hla Hlo.
    destruct (latitude_field_rejects lat Hla) as (e1 & H1 & L1).
    destruct (longitude_field_rejects lon Hlo) as (e2 & H2 & L2).
    exists e1, e2; unfold CoordinateValidation.validate, coordinates_body; simpl.
    rewrite H1, H2; repeat split; assumption.
Qed.

Lemma coordinate_errors_by_stage_new_york :
  CoordinateValidation.latitude_field (Finite (4071 # 100))
  = inl (mkFieldError "latitude" "La latitud debe estar entre -5 y 13 (rango de Colombia)") /\
  exists e, CoordinateValidation.latitude_field (Finite (100 # 1)) = inl e /\
            msg e = "less_than_equal".
Proof.
  split.
  - apply (coordinate_errors_by_stage (Finite (4071 # 100)) (Finite 0)).
    + split; unfold Qle; simpl; lia.
    + intros [_ H]; unfold Qle in H; simpl in H; lia.
  - destruct (coordinate_errors_by_stage (Finite (100 # 1)) (Finite 0)) as (H & _).
    destruct H as (e & He & _ & _); [intros [_ H]; unfold Qle in H; simpl in H; lia|].
    exists e; split; [exact He|].
    revert He; vm_compute; intros H; injection H as <-; reflexivity.
Defined.

(* ================================================================== *)
(** * Payloads that break a bound *)

Lemma str_length_bad (name : string) (lo hi : nat) (v : string) :
  (lo <=? String.length v)%nat && (String.length v <=? hi)%nat = false ->
  exists e, str_length name lo hi v = inl e.
Proof.
  intros H; unfold str_length.
  destruct (Nat.ltb_spec (String.length v) lo); [eexists; reflexivity|].
  destruct (Nat.ltb_spec hi (String.length v)); [eexists; reflexivity|].
  exfalso; apply andb_false_iff in H as [H|H]; apply Nat.leb_gt in H; lia.
Qed.

Lemma name_field_cases (f : field string) :
  (name_ok f = true /\
   exists n, f = Value n /\
             and_then (required "name" "string_type" f) (str_length "name" 2 255) = inr n) \/
  (name_ok f = false /\
   exists e, and_then (required "name" "string_type" f) (str_length "name" 2 255) = inl e).
Proof.
  destruct f as [| |n]; try (right; split; [reflexivity | eexists; reflexivity]).
  cbn [name_ok required and_then].
  destruct ((2 <=? String.length n)%nat && (String.length n <=? 255)%nat) eqn:E.
  - left; split; [reflexivity|]; exists n; split; [reflexivity|].
    apply andb_true_iff in E as [E1 E2]; apply str_length_ok; assumption.
  - right; split; [reflexivity | apply str_length_bad; exact E].
Qed.

Lemma CityCreate_validate_iff (b : CityCreate.body) :
  (city_payload_ok b = true -> exists d, CityCreate.validate b = Valid d) /\
  (city_payload_ok b = false -> exists errs, CityCreate.validate b = Invalid errs).
Proof.
  unfold city_payload_ok, CityCreate.validate.
  destruct (name_field_cases (CityCreate.b_name b)) as [(-> & n & _ & ->) | (-> & e & ->)]; simpl.
  - destruct (CityCreate.b_country b) as [| |k]; simpl.
    + split; [eexists; reflexivity | discriminate].
    + split; [discriminate | eexists; reflexivity].
    + destruct (String.length k <=? 100)%nat eqn:E.
      * rewrite (str_length_ok "country" 0 100 k eq_refl E).
        split; [eexists; reflexivity | discriminate].
      * destruct (str_length_bad "country" 0 100 k E) as [e ->].
        split; [discriminate | eexists; reflexivity].
  - split; [discriminate|]; intros _.
    destruct (with_default _ _ _ _ _); eexists; reflexivity.
Qed.

Lemma ZoneCreate_validate_iff (b : ZoneCreate.body) :
  (zone_payload_ok b = true -> exists d, ZoneCreate.validate b = Valid d) /\
  (zone_payload_ok b = false -> exists errs, ZoneCreate.validate b = Invalid errs).
Proof.
  unfold zone_payload_ok, ZoneCreate.validate.
  destruct (name_field_cases (ZoneCreate.b_name b)) as [(-> & n & _ & ->) | (-> & e & ->)]; simpl.
  - destruct (ZoneCreate.b_city_id b) as [| |c]; simpl;
      try (split; [discriminate|]; intros _;
           destruct (with_default _ _ _ _ _); eexists; reflexivity).
    unfold int_gt; destruct (0 <? c); simpl;
      [|split; [discriminate|]; intros _;
        destruct (with_default _ _ _ _ _); eexists; reflexivity].
    destruct (ZoneCreate.b_color b) as [| |v]; simpl.
    + split; [eexists; reflexivity | discriminate].
    + split; [discriminate | eexists; reflexivity].
    + destruct (color_pattern v) eqn:E.
      * rewrite (color_field_of_pattern v E); split; [eexists; reflexivity | discriminate].
      * unfold ZoneBase.color_field; rewrite E; split; [discriminate | eexists; reflexivity].
  - split; [discriminate|]; intros _.
    destruct (and_then (required "city_id" _ _) _), (with_default _ _ _ _ _);
      eexists; reflexivity.
Qed.

(** X16. A create request is answered 422 exactly when its payload breaks a
    bound of the schema: for a city, a name that is absent, [null] or not 2
    to 255 characters long, or a country that is [null] or longer than 100;
    for a zone, such a name, a [city_id] that is absent, [null] or not
    positive, or a colour that is [null] or does not match the pattern. A
    zone whose [city_id] is zero or negative is thus a 422, never a 404. *)
Theorem create_rejects_exactly_broken_payloads :
  forall (settings : Config.Settings) (now : Z) (db : DB)
         (city : CityCreate.body) (zone : ZoneCreate.body),
    (status_of (snd (serve settings now db (POST_cities city))) = 422 <->
     city_payload_ok city = false) /\
    (status_of (snd (serve settings now db (POST_zones zone))) = 422 <->
     zone_payload_ok zone = false) /\
    (forall name c color description,
       c <= 0 ->
       status_of (snd (serve settings now db
                         (POST_zones {| ZoneCreate.b_name := name; ZoneCreate.b_city_id := Value c;
                                        ZoneCreate.b_color := color;
                                        ZoneCreate.b_description := description |}))) = 422).
Proof.
  intros settings now db city zone.
  assert (Hcity : status_of (snd (serve settings now db (POST_cities city))) = 422 <->
                  city_payload_ok city = false).
  { destruct (CityCreate_validate_iff city) as [Hok Hbad].
    simpl; unfold with_body.
    destruct (city_payload_ok city) eqn:E.
    - destruct (Hok eq_refl) as [d Hd]; rewrite Hd.
      destruct (create_city_outcome now db city d Hd)
        as [(detail & -> & _) | [(e & ->) | (row & -> & _)]]; simpl; split; discriminate.
    - destruct (Hbad eq_refl) as [errs ->]; simpl; split; reflexivity. }
  assert (Hzone : forall z, status_of (snd (serve settings now db (POST_zones z))) = 422 <->
                            zone_payload_ok z = false).
  { intros z; destruct (ZoneCreate_validate_iff z) as [Hok Hbad].
    simpl; unfold with_body.
    destruct (zone_payload_ok z) eqn:E.
    - destruct (Hok eq_refl) as [d Hd]; rewrite Hd.
      destruct (create_zone_outcome now db z d Hd)
        as [[-> _] | [(detail & -> & _) | [(e & ->) | (row & c & -> & _)]]]; simpl;
        split; discriminate.
    - destruct (Hbad eq_refl) as [errs ->]; simpl; split; reflexivity. }
  split; [exact Hcity|]; split; [apply Hzone|].
  intros name c color description Hc; apply Hzone.
  unfold zone_payload_ok; simpl.
  destruct (Z.ltb_spec 0 c); [lia|]; rewrite andb_false_r; reflexivity.
Qed.

Lemma create_rejects_exactly_broken_payloads_setup :
  status_of (snd (serve Config.settings 9 setup_database
                    (POST_zones {| ZoneCreate.b_name := Value "Este"; ZoneCreate.b_city_id := Value 0;
                                   ZoneCreate.b_color := Unset;
                                   ZoneCreate.b_description := Unset |}))) = 422 /\
  status_of (snd (serve Config.settings 9 setup_database
                    (POST_cities {| CityCreate.b_name := Value "X";
                                    CityCreate.b_country := Unset |}))) = 422.
Proof.
  split.
  - apply (create_rejects_exactly_broken_payloads Config.settings 9 setup_database
             {| CityCreate.b_name := Unset; CityCreate.b_country := Unset |}
             (new_zone "Este" 1 Unset)); lia.
  - apply (create_rejects_exactly_broken_payloads Config.settings 9 setup_database
             {| CityCreate.b_name := Value "X"; CityCreate.b_country := Unset |}
             (new_zone "Este" 1 Unset)); reflexivity.
Defined.

(* ================================================================== *)
(** * Creating a zone where it is allowed *)

Lemma next_zone_id_free (db : DB) :
  sequences_ahead db ->
  existsb (fun z => Zone.id z =? zones_id_seq db + 1) (zones db) = false.
Proof.
  intros [_ H]; destruct (existsb _ _) eqn:E; [|reflexivity].
  apply existsb_exists in E as (z & Hz & E); apply Z.eqb_eq in E.
  specialize (H z Hz); lia.
Qed.

Lemma ZoneCreate_valid_color (body : ZoneCreate.body) (d : ZoneCreate.t) :
  ZoneCreate.validate body = Valid d ->
  (forall v, ZoneCreate.b_color body = Value v ->
             color_pattern v = true /\ ZoneCreate.color d = upper v) /\
  (ZoneCreate.b_color body = Unset -> ZoneCreate.color d = "#3498db").
Proof.
  unfold ZoneCreate.validate.
  destruct (and_then (required "name" _ _) _) as [e|n];
    destruct (and_then (required "city_id" _ _) _) as [e1|c];
    destruct (with_default _ _ _ _ _) as [e2|k] eqn:Ek; try discriminate.
  intros H; injection H as <-; simpl.
  destruct (ZoneCreate.b_color body) as [| |k']; simpl in Ek; try discriminate.
  - injection Ek as <-; split; [discriminate | reflexivity].
  - apply color_field_inr in Ek as [Hp ->]; split; [|discriminate].
    intros v E; injection E as <-; split; [exact Hp | reflexivity].
Qed.

(** X17. On a well-formed store, [POST /zones] with a valid payload succeeds
    (201) whenever the city exists and holds no zone of that name: the city
    need not be active, and the store never refuses the row (no 500). The
    stored row has the next [id] of the sequence, the payload's name and
    city, [is_active = true] and the time of the request, and the store
    gains exactly that row. Its colour is the payload's colour upper-cased
    when the payload carries one, and the schema's default ["#3498db"], in
    lower case as declared, when it carries none; the answer shows the
    colour in upper case in both cases. *)
Theorem create_zone_succeeds_in_any_stored_city :
  forall (settings : Config.Settings) (now : Z) (db : DB) (body : ZoneCreate.body)
         (d : ZoneCreate.t) (city : City.t),
    well_formed db ->
    ZoneCreate.validate body = Valid d ->
    city_by_id db (ZoneCreate.city_id d) = Some city ->
    (forall z, In z (zones db) -> name_city z <> (ZoneCreate.name d, ZoneCreate.city_id d)) ->
    let out := serve settings now db (POST_zones body) in
    exists row,
      snd out = OK 201 (ZoneOne (zone_view row)) /\
      zones (fst out) = zones db ++ [row] /\ cities (fst out) = cities db /\
      Zone.id row = zones_id_seq db + 1 /\
      Zone.name row = ZoneCreate.name d /\ Zone.city_id row = ZoneCreate.city_id d /\
      (forall v, ZoneCreate.b_color body = Value v ->
                 Zone.color row = upper v /\ ZoneResponse.color (zone_view row) = upper v) /\
      (ZoneCreate.b_color body = Unset ->
         Zone.color row = "#3498db" /\ ZoneResponse.color (zone_view row) = "#3498DB") /\
      normalized_color (ZoneResponse.color (zone_view row)) = true /\
      Zone.is_active row = true /\ Zone.created_at row = now /\ Zone.updated_at row = now.
Proof.
  intros settings now db body d city (_ & Hseq & _) Hv Hcity Hfree out.
  destruct (ZoneCreate_valid body d Hv) as (L1 & L2 & L3 & L4).
  destruct (ZoneCreate_valid_color body d Hv) as [Hsent Hdefault].
  assert (Hnone : zone_by_name_city db (ZoneCreate.name d) (ZoneCreate.city_id d) = None).
  { destruct (zone_by_name_city db _ _) as [z|] eqn:F; [|reflexivity].
    unfold zone_by_name_city in F; apply find_some in F as [F1 F2].
    apply andb_true_iff in F2 as [F2 F3]; apply String.eqb_eq in F2; apply Z.eqb_eq in F3.
    exfalso; apply (Hfree z F1); unfold name_city; rewrite F2, F3; reflexivity. }
  assert (Hfk : existsb (fun c => City.id c =? ZoneCreate.city_id d) (cities db) = true).
  { apply existsb_exists; exists city.
    destruct (city_by_id_In db _ city Hcity) as [Hin Hid]; split; [exact Hin|].
    apply Z.eqb_eq; exact Hid. }
  set (row := {| Zone.id := zones_id_seq db + 1; Zone.name := ZoneCreate.name d;
                 Zone.city_id := ZoneCreate.city_id d; Zone.color := ZoneCreate.color d;
                 Zone.description := ZoneCreate.description d; Zone.is_active := true;
                 Zone.created_at := now; Zone.updated_at := now |}).
  assert (Hok : zone_ok row = true).
  { unfold zone_ok; cbn [Zone.name Zone.city_id Zone.color row].
    rewrite L1, L2, L3, L4; reflexivity. }
  assert (Eout : out = (append_zone row db, OK 201 (ZoneOne (zone_view row)))).
  { unfold out, serve, content2, with_body; rewrite Hv.
    unfold create_zone; rewrite Hcity, Hnone.
    unfold insert_zone; rewrite (next_zone_id_free db Hseq), Hfk; simpl.
    fold row; rewrite (zone_ok_validates row Hok); reflexivity. }
  exists row; rewrite Eout.
  do 6 (split; [reflexivity|]).
  split; [|split; [|split; [|repeat split]]].
  - intros v E; destruct (Hsent v E) as [_ Ec]; cbn [zone_view ZoneResponse.color Zone.color row].
    rewrite Ec, upper_idem; split; reflexivity.
  - intros E; cbn [zone_view ZoneResponse.color Zone.color row].
    rewrite (Hdefault E); split; reflexivity.
  - cbn [zone_view ZoneResponse.color Zone.color row]; apply upper_normalizes; exact L4.
Qed.

Lemma inactive_bogota_well_formed : well_formed inactive_bogota.
Proof.
  split; [split; reflexivity|]; split; [split|].
  - intros c [<-|[]]; simpl; lia.
  - intros z [].
  - intros z [].
Defined.

Lemma create_zone_succeeds_in_any_stored_city_inactive :
  option_map City.is_active (city_by_id inactive_bogota 1) = Some false /\
  (exists row,
     snd (serve Config.settings 9 inactive_bogota (POST_zones (new_zone "Norte" 1 (Value "#e74c3c"))))
     = OK 201 (ZoneOne (zone_view row)) /\
     Zone.id row = 1 /\ Zone.color row = "#E74C3C") /\
  (exists row,
     snd (serve Config.settings 9 inactive_bogota (POST_zones (new_zone "Norte" 1 Unset)))
     = OK 201 (ZoneOne (zone_view row)) /\
     Zone.color row = "#3498db" /\ ZoneResponse.color (zone_view row) = "#3498DB").
Proof.
  split; [reflexivity|]; split.
  - destruct (create_zone_succeeds_in_any_stored_city Config.settings 9 inactive_bogota
                (new_zone "Norte" 1 (Value "#e74c3c"))
                {| ZoneCreate.name := "Norte"; ZoneCreate.city_id := 1;
                   ZoneCreate.color := "#E74C3C"; ZoneCreate.description := None |}
                {| City.id := 1; City.name := "Bogota"; City.country := "Colombia";
                   City.is_active := false; City.created_at := 0; City.updated_at := 4 |}
                inactive_bogota_well_formed eq_refl eq_refl ltac:(intros z []))
      as (row & Hresp & _ & _ & Hid & _ & _ & Hcolor & _).
    exists row; split; [exact Hresp|]; split; [exact Hid|].
    exact (proj1 (Hcolor "#e74c3c" eq_refl)).
  - destruct (create_zone_succeeds_in_any_stored_city Config.settings 9 inactive_bogota
                (new_zone "Norte" 1 Unset)
                {| ZoneCreate.name := "Norte"; ZoneCreate.city_id := 1;
                   ZoneCreate.color := "#3498db"; ZoneCreate.description := None |}
                {| City.id := 1; City.name := "Bogota"; City.country := "Colombia";
                   City.is_active := false; City.created_at := 0; City.updated_at := 4 |}
                inactive_bogota_well_formed eq_refl eq_refl ltac:(intros z []))
      as (row & Hresp & _ & _ & _ & _ & _ & _ & Hdefault & _).
    exists row; split; [exact Hresp | exact (Hdefault eq_refl)].
Defined.

(* ================================================================== *)
(** * Update payloads that break a bound *)

Lemma optional_cases {A : Type} (check : A -> FieldResult A) (p : A -> bool) (f : field A) :
  (forall v, p v = true -> check v = inr v) ->
  (forall v, p v = false -> exists e, check v = inl e) ->
  (supplied_ok p f = true /\ optional check f = inr f) \/
  (supplied_ok p f = false /\ exists e, optional check f = inl e).
Proof.
  intros Hok Hbad; destruct f as [| |v]; simpl; try (left; split; reflexivity).
  destruct (p v) eqn:E.
  - left; rewrite (Hok v E); split; reflexivity.
  - right; destruct (Hbad v E) as [e ->]; split; [reflexivity | eexists; reflexivity].
Qed.

Lemma name_check_cases (f : field string) :
  (supplied_ok name_length_ok f = true /\ optional (str_length "name" 2 255) f = inr f) \/
  (supplied_ok name_length_ok f = false /\ exists e, optional (str_length "name" 2 255) f = inl e).
Proof.
  apply optional_cases; unfold name_length_ok; intros v H.
  - apply andb_true_iff in H as [H1 H2]; apply str_length_ok; assumption.
  - apply str_length_bad; exact H.
Qed.

Lemma country_check_cases (f : field string) :
  (supplied_ok (fun k => (String.length k <=? 100)%nat) f = true /\
   optional (str_length "country" 0 100) f = inr f) \/
  (supplied_ok (fun k => (String.length k <=? 100)%nat) f = false /\
   exists e, optional (str_length "country" 0 100) f = inl e).
Proof.
  apply optional_cases; intros v H.
  - apply str_length_ok; [reflexivity | exact H].
  - apply str_length_bad; exact H.
Qed.

Lemma city_id_check_cases (f : field Z) :
  (supplied_ok (fun c => 0 <? c) f = true /\ optional (int_gt "city_id" 0) f = inr f) \/
  (supplied_ok (fun c => 0 <? c) f = false /\ exists e, optional (int_gt "city_id" 0) f = inl e).
Proof.
  apply optional_cases; unfold int_gt; intros v H; rewrite H; [reflexivity | eexists; reflexivity].
Qed.

Lemma color_check_cases (f : field string) :
  (supplied_ok color_pattern f = true /\ optional ZoneUpdate.color_field f = inr f) \/
  (supplied_ok color_pattern f = false /\ exists e, optional ZoneUpdate.color_field f = inl e).
Proof.
  apply optional_cases; unfold ZoneUpdate.color_field; intros v H; rewrite H;
    [reflexivity | eexists; reflexivity].
Qed.

Lemma optional_no_check {A : Type} (f : field A) : optional no_check f = inr f.
Proof. destruct f; reflexivity. Qed.

Lemma CityUpdate_validate_iff (b : CityUpdate.t) :
  (city_update_ok b = true -> CityUpdate.validate b = Valid b) /\
  (city_update_ok b = false -> exists errs, CityUpdate.validate b = Invalid errs).
Proof.
  unfold city_update_ok, CityUpdate.validate; rewrite optional_no_check.
  destruct (name_check_cases (CityUpdate.name b)) as [[-> ->] | (-> & e & ->)];
    destruct (country_check_cases (CityUpdate.country b)) as [[-> ->] | (-> & e' & ->)]; simpl;
    split; try discriminate; intros _; try (eexists; reflexivity).
  destruct b; reflexivity.
Qed.

Lemma ZoneUpdate_validate_iff (b : ZoneUpdate.t) :
  (zone_update_ok b = true -> ZoneUpdate.validate b = Valid b) /\
  (zone_update_ok b = false -> exists errs, ZoneUpdate.validate b = Invalid errs).
Proof.
  unfold zone_update_ok, ZoneUpdate.validate; rewrite !optional_no_check.
  destruct (name_check_cases (ZoneUpdate.name b)) as [[-> ->] | (-> & e & ->)];
    destruct (city_id_check_cases (ZoneUpdate.city_id b)) as [[-> ->] | (-> & e' & ->)];
    destruct (color_check_cases (ZoneUpdate.color b)) as [[-> ->] | (-> & e'' & ->)]; simpl;
    split; try discriminate; intros _; try (eexists; reflexivity).
  destruct b; reflexivity.
Qed.

(** X19. An update request is answered 422 exactly when a value it supplies
    breaks a bound of the schema: a name not 2 to 255 characters long, a
    country longer than 100, a [city_id] that is not positive, a colour that
    does not match the pattern. Absent fields and explicit [null]s never
    cause a 422, and a valid payload is validated to itself. *)
Theorem update_rejects_exactly_broken_values :
  forall (settings : Config.Settings) (now : Z) (db : DB) (id : Z)
         (city : CityUpdate.t) (zone : ZoneUpdate.t),
    (status_of (snd (serve settings now db (PUT_city id city))) = 422 <->
     city_update_ok city = false) /\
    (status_of (snd (serve settings now db (PUT_zone id zone))) = 422 <->
     zone_update_ok zone = false) /\
    (city_update_ok city = true -> CityUpdate.validate city = Valid city) /\
    (zone_update_ok zone = true -> ZoneUpdate.validate zone = Valid zone).
Proof.
  intros settings now db id city zone.
  destruct (CityUpdate_validate_iff city) as [Cok Cbad].
  destruct (ZoneUpdate_validate_iff zone) as [Zok Zbad].
  split; [|split; [|split; assumption]]; simpl; unfold with_body.
  - destruct (city_update_ok city) eqn:E.
    + rewrite (Cok eq_refl); split; [|discriminate]; intros H; exfalso; revert H.
      unfold update_city; destruct (city_by_id db id) as [old|]; [|discriminate].
      destruct (update_city_row _ _ _ _) as [e|[db' row]]; simpl; [discriminate|].
      destruct (CityResponse.model_validate row); discriminate.
    + destruct (Cbad eq_refl) as [errs ->]; split; reflexivity.
  - destruct (zone_update_ok zone) eqn:E.
    + rewrite (Zok eq_refl); split; [|discriminate]; intros H; exfalso; revert H.
      unfold update_zone; destruct (zone_by_id db id) as [old|]; [|discriminate].
      destruct (update_zone_row _ _ _ _) as [e|[db' row]]; simpl; [discriminate|].
      destruct (ZoneResponse.model_validate row); discriminate.
    + destruct (Zbad eq_refl) as [errs ->]; split; reflexivity.
Qed.
